(** * neuralprophet/plotting_utils.py: a shallow embedding

    The plotting routines of [plotting_utils.py] draw onto a matplotlib
    axes object.  Here an axes is a record holding the marks drawn so far
    (in drawing order) together with the axis decorations, and every routine
    is a computation in a small state-and-exception monad over that record:
    as in Python, what was drawn before an exception is raised stays drawn.

    Floating-point numbers are modelled by exact rationals ([Q]); a null
    (NaN) cell of a column is [None].  Timestamps are integers
    (nanoseconds since the epoch, as pandas stores them). *)

From Stdlib Require Import ZArith QArith List String Ascii Bool Lia Lqa.
From Stdlib Require Import Qabs Permutation DecimalString.
Import ListNotations.

Local Open Scope string_scope.
Local Open Scope Z_scope.

(** ** Python strings *)

(** A Python string is held as its UTF-8 bytes. *)

(** [str.lower] of one ASCII character. *)
Definition lower_ascii (c : ascii) : ascii :=
  let n := nat_of_ascii c in
  if (andb (65 <=? n)%nat (n <=? 90)%nat) then ascii_of_nat (n + 32) else c.

(** The two characters outside ASCII whose lower case holds an ASCII
    letter: the Kelvin sign U+212A (bytes E2 84 AA), whose lower case is
    [k], and the dotted capital I U+0130 (bytes C4 B0), whose lower case
    is [i] followed by the combining dot U+0307 (bytes CC 87). *)
Definition is_kelvin_sign (c1 c2 c3 : ascii) : bool :=
  (Ascii.eqb c1 "226" && Ascii.eqb c2 "132" && Ascii.eqb c3 "170")%char.

Definition is_dotted_capital_i (c1 c2 : ascii) : bool :=
  (Ascii.eqb c1 "196" && Ascii.eqb c2 "176")%char.

(** [str.lower]: ASCII capitals and the two characters above are
    lowered; the bytes of every other character are left as they are
    (their lower case has no ASCII character either, so a test of the
    result against the ASCII names of this module comes out as in
    Python). *)
Fixpoint lower (s : string) : string :=
  match s with
  | EmptyString => EmptyString
  | String c1 r1 =>
      match r1 with
      | EmptyString => String (lower_ascii c1) EmptyString
      | String c2 r2 =>
          if is_dotted_capital_i c1 c2
          then String "i"%char (String "204"%char (String "135"%char (lower r2)))
          else
            match r2 with
            | EmptyString => String (lower_ascii c1) (lower r1)
            | String c3 r3 =>
                if is_kelvin_sign c1 c2 c3
                then String "k"%char (lower r3)
                else String (lower_ascii c1) (lower r1)
            end
      end
  end.

(** [s.startswith(p)]. *)
Definition startswith (s p : string) : bool := String.prefix p s.

(** [sub in s]: [sub] occurs somewhere in [s]. *)
Fixpoint contains (sub s : string) : bool :=
  String.prefix sub s ||
  match s with
  | EmptyString => false
  | String _ r => contains sub r
  end.

(** ['{}'.format(n)] for a Python int. *)
Definition str_of_int (n : Z) : string := NilZero.string_of_int (Z.to_int n).

(** ** Exceptions *)

Inductive exn : Type :=
| KeyError (key : string)
| AttributeError
| AssertionError
| TypeError
| ValueError
| IndexError
| AxisError
| NotImplementedError
| DataError            (* pandas.errors.DataError *)
| OutOfBoundsError.    (* pandas' out-of-bounds Timedelta / Timestamp errors *)

(** ** pandas: series and data frames *)

(** A column is either datetime-typed or float-typed; a float cell may be
    null. *)
Inductive Series : Type :=
| Datetimes (ts : list Z)
| Floats (vs : list (option Q)).

Definition series_len (s : Series) : nat :=
  match s with
  | Datetimes ts => List.length ts
  | Floats vs => List.length vs
  end.

(** Columns in their table order. *)
Definition DataFrame : Type := list (string * Series).

(** [fcst.columns] *)
Definition df_columns (fcst : DataFrame) : list string := map fst fcst.

Fixpoint df_find (fcst : DataFrame) (name : string) : option Series :=
  match fcst with
  | [] => None
  | (n, s) :: rest => if String.eqb n name then Some s else df_find rest name
  end.

(** [fcst[name]] *)
Definition df_getitem (fcst : DataFrame) (name : string) : exn + Series :=
  match df_find fcst name with
  | Some s => inr s
  | None => inl (KeyError name)
  end.

(** [series.dt.to_pydatetime()]: only datetime columns have [.dt]. *)
Definition dt_to_pydatetime (s : Series) : exn + list Z :=
  match s with
  | Datetimes ts => inr ts
  | Floats _ => inl AttributeError
  end.

(** [series.notnull()] *)
Definition notnull (s : Series) : list bool :=
  match s with
  | Datetimes ts => map (fun _ => true) ts
  | Floats vs => map (fun v => match v with Some _ => true | None => false end) vs
  end.

(** Boolean-mask indexing [a[mask]]. *)
Fixpoint mask_select {A : Type} (xs : list A) (mask : list bool) : list A :=
  match xs, mask with
  | x :: xs', b :: mask' =>
      if b then x :: mask_select xs' mask' else mask_select xs' mask'
  | _, _ => []
  end.

Definition series_mask (s : Series) (mask : list bool) : Series :=
  match s with
  | Datetimes ts => Datetimes (mask_select ts mask)
  | Floats vs => Floats (mask_select vs mask)
  end.

(** Every column of a frame has the frame's number of rows, and column
    labels are distinct. *)
Definition wf_frame (fcst : DataFrame) : Prop :=
  NoDup (df_columns fcst) /\
  exists nrows, Forall (fun c => series_len (snd c) = nrows) fcst.

(** ** matplotlib: marks and axes *)

Inductive MarkKind : Type := LineMark | BarMark.

(** One call of [ax.plot] or [ax.bar].  [mark_ls] is the line style
    ([None]: no connecting line), [mark_marker] the point marker. *)
Record Mark : Type := mkMark {
  mark_kind : MarkKind;
  mark_x : list Z;
  mark_y : Series;
  mark_ls : option string;
  mark_marker : option string;
  mark_color : string;
  mark_alpha : option Q;
  mark_width : option Q
}.

Inductive XAxisFormat : Type :=
| XDefault
| XAutoDate            (* AutoDateLocator(interval_multiples=False) *)
| XMonths              (* MonthLocator, every second month *)
| XLabels (labels : list string).

Record Axes : Type := mkAxes {
  ax_marks : list Mark;          (* in drawing order, oldest first *)
  ax_xformat : XAxisFormat;
  ax_grid : bool;
  ax_xlabel : option string;
  ax_ylabel : option string;
  ax_ypercent : bool             (* y tick labels rewritten as percentages *)
}.

(** [fig.add_subplot(111)] on a fresh figure. *)
Definition new_axes : Axes := mkAxes [] XDefault false None None false.

Record Figure : Type := mkFigure {
  fig_axes : list Axes;
  fig_tight : bool
}.

(** What [ax.plot] and [ax.bar] hand back: one line per [plot] call, one
    rectangle per bar. *)
Inductive Artist : Type :=
| Line2D (m : Mark)
| Rectangle (x : Z) (height : option Q).

(** ** The drawing monad *)

Definition M (A : Type) : Type := Axes -> (exn + A) * Axes.

Definition ret {A : Type} (a : A) : M A := fun ax => (inr a, ax).

Definition bind {A B : Type} (c : M A) (k : A -> M B) : M B :=
  fun ax =>
    match c ax with
    | (inl e, ax') => (inl e, ax')
    | (inr a, ax') => k a ax'
    end.

Definition raise {A : Type} (e : exn) : M A := fun ax => (inl e, ax).

Definition lift {A : Type} (r : exn + A) : M A := fun ax => (r, ax).

Definition modify (f : Axes -> Axes) : M unit := fun ax => (inr tt, f ax).

Declare Scope draw_scope.
Delimit Scope draw_scope with draw.
Notation "x <- c ;; k" := (bind c (fun x => k))
  (at level 61, c at next level, right associativity) : draw_scope.
Notation "c ;; k" := (bind c (fun _ => k))
  (at level 61, right associativity) : draw_scope.
Local Open Scope draw_scope.

(** [for x in xs: body x], stopping at the first exception. *)
Fixpoint for_each {A : Type} (xs : list A) (body : A -> M unit) : M unit :=
  match xs with
  | [] => ret tt
  | x :: rest => body x ;; for_each rest body
  end.

(** The same loop for bodies that extend a running value (the [artists]
    list of the renderers). *)
Fixpoint for_acc {A S : Type} (xs : list A) (body : A -> S -> M S) (s : S) : M S :=
  match xs with
  | [] => ret s
  | x :: rest => s' <- body x s ;; for_acc rest body s'
  end.

(** [if not ax: fig = plt.figure(...); ax = fig.add_subplot(111)] *)
Definition ax_or_new (ax : option Axes) : Axes :=
  match ax with
  | Some a => a
  | None => new_axes
  end.

Definition add_mark (m : Mark) : M unit :=
  modify (fun ax => mkAxes (ax_marks ax ++ [m]) (ax_xformat ax) (ax_grid ax)
                           (ax_xlabel ax) (ax_ylabel ax) (ax_ypercent ax)).

(** [ax.plot(x, y, ...)]: x and y must have the same first dimension. *)
Definition ax_plot (x : list Z) (y : Series) (ls marker : option string)
           (color : string) (alpha : option Q) : M (list Artist) :=
  if Nat.eqb (List.length x) (series_len y) then
    let m := mkMark LineMark x y ls marker color alpha None in
    add_mark m ;; ret [Line2D m]
  else raise ValueError.

(** numpy broadcasting of two one-dimensional shapes. *)
Definition broadcast_len (n m : nat) : option nat :=
  if Nat.eqb n m then Some n
  else if Nat.eqb n 1 then Some m
  else if Nat.eqb m 1 then Some n
  else None.

Definition broadcast_to {A : Type} (n : nat) (xs : list A) : list A :=
  match xs with
  | [x] => repeat x n
  | _ => xs
  end.

Definition series_broadcast (n : nat) (s : Series) : Series :=
  match s with
  | Datetimes ts => Datetimes (broadcast_to n ts)
  | Floats vs => Floats (broadcast_to n vs)
  end.

Definition series_cells (s : Series) : list (option Q) :=
  match s with
  | Datetimes ts => map (fun t => Some (inject_Z t)) ts
  | Floats vs => vs
  end.

(** [ax.bar(x, height, width=..., ...)]: x and height are broadcast
    against each other (a shape mismatch is a ValueError); the container
    returned holds one rectangle per bar. *)
Definition ax_bar (x : list Z) (height : Series) (width : Q)
           (color : string) (alpha : option Q) : M (list Artist) :=
  match broadcast_len (List.length x) (series_len height) with
  | Some n =>
      let xs := broadcast_to n x in
      let hs := series_broadcast n height in
      let m := mkMark BarMark xs hs None None color alpha (Some width) in
      add_mark m ;;
      ret (map (fun p => Rectangle (fst p) (snd p)) (combine xs (series_cells hs)))
  | None => raise ValueError
  end.

Definition set_xformat (f : XAxisFormat) : M unit :=
  modify (fun ax => mkAxes (ax_marks ax) f (ax_grid ax)
                           (ax_xlabel ax) (ax_ylabel ax) (ax_ypercent ax)).

Definition ax_grid_on : M unit :=
  modify (fun ax => mkAxes (ax_marks ax) (ax_xformat ax) true
                           (ax_xlabel ax) (ax_ylabel ax) (ax_ypercent ax)).

Definition set_xlabel (s : string) : M unit :=
  modify (fun ax => mkAxes (ax_marks ax) (ax_xformat ax) (ax_grid ax)
                           (Some s) (ax_ylabel ax) (ax_ypercent ax)).

Definition set_ylabel (s : string) : M unit :=
  modify (fun ax => mkAxes (ax_marks ax) (ax_xformat ax) (ax_grid ax)
                           (ax_xlabel ax) (Some s) (ax_ypercent ax)).

(** ** set_y_as_percent *)

(** The tick positions are matplotlib's; what is kept is that the y tick
    labels now read as percentages. *)
Definition set_y_as_percent_ax (ax : Axes) : Axes :=
  mkAxes (ax_marks ax) (ax_xformat ax) (ax_grid ax)
         (ax_xlabel ax) (ax_ylabel ax) true.

Definition set_y_as_percent : M unit := modify set_y_as_percent_ax.

(** The date-axis block shared by the renderers (workaround for
    matplotlib issue 12925), followed by the grid. *)
Definition date_axis_and_grid : M unit :=
  set_xformat XAutoDate ;; ax_grid_on.

(** ** plot *)

Local Open Scope Q_scope.

(** [alpha=0.2 + 2.0/(i+2.5)] *)
Definition plot_alpha (i : nat) : Q :=
  0.2 + 2.0 / (inject_Z (Z.of_nat i) + 2.5).

Definition yhat_name (n : Z) : string := "yhat" ++ str_of_int n.

Definition yhat_col_names (fcst : DataFrame) : list string :=
  filter (contains "yhat") (df_columns fcst).

(** The body of [plot] on the axes it draws on.  The console echo of the
    table's tail ([print(fcst.tail().to_string())]) leaves the axes alone
    and is not modelled. *)
Definition plot_body (fcst : DataFrame) (xlabel ylabel : string)
           (highlight_forecast : option Z) : M unit :=
  col <- lift (df_getitem fcst "ds") ;;
  ds <- lift (dt_to_pydatetime col) ;;
  for_each (seq 0 (List.length (yhat_col_names fcst)))
    (fun i =>
       y <- lift (df_getitem fcst (yhat_name (Z.of_nat i + 1))) ;;
       _ <- ax_plot ds y (Some "-") None "#0072B2" (Some (plot_alpha i)) ;;
       ret tt) ;;
  match highlight_forecast with
  | Some h =>
      y <- lift (df_getitem fcst (yhat_name h)) ;;
      _ <- ax_plot ds y (Some "-") None "b" None ;;
      y' <- lift (df_getitem fcst (yhat_name h)) ;;
      _ <- ax_plot ds y' None (Some "x") "b" None ;;
      ret tt
  | None => ret tt
  end ;;
  y <- lift (df_getitem fcst "y") ;;
  _ <- ax_plot ds y None (Some ".") "k" None ;;
  date_axis_and_grid ;;
  set_xlabel xlabel ;;
  set_ylabel ylabel.

(** The figure returned is the one owning the axes drawn on; it is
    represented by that axes, laid out tightly. *)
Definition plot (fcst : DataFrame) (ax : option Axes) (xlabel ylabel : string)
           (highlight_forecast : option Z) : (exn + Figure) * Axes :=
  match plot_body fcst xlabel ylabel highlight_forecast (ax_or_new ax) with
  | (inr _, ax') => (inr (mkFigure [ax'] true), ax')
  | (inl e, ax') => (inl e, ax')
  end.

(** ** pandas: centred rolling mean *)

(** The non-null observations of a window. *)
Fixpoint observations (win : list (option Q)) : list Q :=
  match win with
  | [] => []
  | Some v :: r => v :: observations r
  | None :: r => observations r
  end.

Definition Qsum (l : list Q) : Q := fold_right Qplus 0 l.

(** Mean of the observations of a window, null when there are fewer than
    [minp] of them. *)
Definition nanmean (minp : nat) (win : list (option Q)) : option Q :=
  let obs := observations win in
  if (andb (minp <=? List.length obs) (1 <=? List.length obs))%nat
  then Some (Qsum obs / inject_Z (Z.of_nat (List.length obs)))
  else None.

(** The fixed-size window that ends at row [e]: rows [max 0 (e-w+1) .. e]. *)
Definition trailing_window (w : nat) (xs : list (option Q)) (e : nat)
  : list (option Q) :=
  let start := (e + 1 - w)%nat in
  firstn (e + 1 - start) (skipn start xs).

Definition rolling_trailing (w minp : nat) (xs : list (option Q))
  : list (option Q) :=
  map (fun e => nanmean minp (trailing_window w xs e)) (seq 0 (List.length xs)).

(** [center=True]: the series is padded with [(w-1)//2] nulls at its end,
    the trailing means are taken, and the first [(w-1)//2] results are
    dropped. *)
Definition center_offset (w : nat) : nat := ((w - 1) / 2)%nat.

Definition rolling_center (w minp : nat) (xs : list (option Q))
  : list (option Q) :=
  let offset := center_offset w in
  skipn offset (rolling_trailing w minp (xs ++ repeat None offset)).

(** [series.rolling(w, min_periods=1, center=True).mean()] *)
Definition rolling_mean (s : Series) (w : Z) : exn + Series :=
  if (w <? 1)%Z then inl ValueError
  else match s with
       | Datetimes _ => inl DataError
       | Floats vs => inr (Floats (rolling_center (Z.to_nat w) 1 vs))
       end.

(** ** plot_forecast_component *)

Definition draw (bar : bool) (x : list Z) (y : Series) (width : Q)
           (color : string) (alpha : option Q) : M (list Artist) :=
  if bar then ax_bar x y width color alpha
  else ax_plot x y (Some "-") None color alpha.

Definition plot_forecast_component_body (fcst : DataFrame) (comp_name : string)
           (plot_name : option string) (multiplicative bar : bool)
           (rolling : option Z) : M (list Artist) :=
  let artists := [] in
  col <- lift (df_getitem fcst "ds") ;;
  fcst_t <- lift (dt_to_pydatetime col) ;;
  artists <-
    match rolling with
    | Some w =>
        y <- lift (df_getitem fcst comp_name) ;;
        rolling_avg <- lift (rolling_mean y w) ;;
        a <- draw bar fcst_t rolling_avg 1.00 "#0072B2" (Some 0.5) ;;
        ret (artists ++ a)%list
    | None => ret artists
    end ;;
  y <- lift (df_getitem fcst comp_name) ;;
  a <- draw bar fcst_t y 1.00 "#0072B2" None ;;
  let artists := (artists ++ a)%list in
  date_axis_and_grid ;;
  set_xlabel "ds" ;;
  let plot_name := match plot_name with Some p => p | None => comp_name end in
  set_ylabel plot_name ;;
  (if multiplicative then set_y_as_percent else ret tt) ;;
  ret artists.

Definition plot_forecast_component (fcst : DataFrame) (comp_name : string)
           (plot_name : option string) (ax : option Axes)
           (multiplicative bar : bool) (rolling : option Z)
  : (exn + list Artist) * Axes :=
  plot_forecast_component_body fcst comp_name plot_name multiplicative bar
                               rolling (ax_or_new ax).

(** ** plot_multiforecast_component *)

(** [alpha_min + alpha_softness*(1.0-alpha_min) / (i + 1.0*alpha_softness)]
    with [alpha_min = 0.2] and [alpha_softness = 1.2]. *)
Definition multi_alpha (i : nat) : Q :=
  let alpha_min := 0.2 in
  let alpha_softness := 1.2 in
  alpha_min + alpha_softness * (1.0 - alpha_min)
              / (inject_Z (Z.of_nat i) + 1.0 * alpha_softness).

(** ['{}{}'.format(comp_name, n)] *)
Definition horizon_col (comp_name : string) (n : Z) : string :=
  comp_name ++ str_of_int n.

(** [a[mask]] for an array and a boolean series of the same frame. *)
Definition index_by_mask {A : Type} (xs : list A) (mask : list bool)
  : exn + list A :=
  if Nat.eqb (List.length xs) (List.length mask) then inr (mask_select xs mask)
  else inl IndexError.

(** One series of the overlay: the rows where the column is non-null. *)
Definition draw_notnull (bar : bool) (fcst_t : list Z) (y : Series)
           (color : string) (alpha : option Q) : M (list Artist) :=
  let mask := notnull y in
  t <- lift (index_by_mask fcst_t mask) ;;
  draw bar t (series_mask y mask) 1.00 color alpha.

(** [assert num_overplot <= len(col_names)]: comparing [None] with an int
    is a TypeError. *)
Definition assert_overplot (num_overplot : option Z) (ncols : nat) : M unit :=
  match num_overplot with
  | None => raise TypeError
  | Some n => if (n <=? Z.of_nat ncols)%Z then ret tt else raise AssertionError
  end.

Definition prefix_col_names (fcst : DataFrame) (comp_name : string)
  : list string :=
  filter (fun c => startswith c comp_name) (df_columns fcst).

Definition plot_multiforecast_component_body (fcst : DataFrame)
           (comp_name : string) (plot_name : option string)
           (multiplicative bar : bool) (focus : Z) (num_overplot : option Z)
  : M (list Artist) :=
  let artists := [] in
  col <- lift (df_getitem fcst "ds") ;;
  fcst_t <- lift (dt_to_pydatetime col) ;;
  let col_names := prefix_col_names fcst comp_name in
  assert_overplot num_overplot (List.length col_names) ;;
  artists <-
    match num_overplot with
    | Some n =>
        for_acc (rev (seq 0 (Z.to_nat n)))
          (fun i artists =>
             y <- lift (df_getitem fcst (horizon_col comp_name (Z.of_nat i + 1))) ;;
             a <- draw_notnull bar fcst_t y "#0072B2" (Some (multi_alpha i)) ;;
             ret (artists ++ a)%list)
          artists
    | None => ret artists
    end ;;
  artists <-
    (if (match num_overplot with None => true | Some _ => false end
         || (1 <? focus)%Z)%bool
     then
       y <- lift (df_getitem fcst (horizon_col comp_name focus)) ;;
       a <- draw_notnull bar fcst_t y "b" None ;;
       ret (artists ++ a)%list
     else ret artists) ;;
  date_axis_and_grid ;;
  set_xlabel "ds" ;;
  let plot_name := match plot_name with Some p => p | None => comp_name end in
  set_ylabel plot_name ;;
  (if multiplicative then set_y_as_percent else ret tt) ;;
  ret artists.

Definition plot_multiforecast_component (fcst : DataFrame) (comp_name : string)
           (plot_name : option string) (ax : option Axes)
           (multiplicative bar : bool) (focus : Z) (num_overplot : option Z)
  : (exn + list Artist) * Axes :=
  plot_multiforecast_component_body fcst comp_name plot_name multiplicative bar
                                    focus num_overplot (ax_or_new ax).

(** ** numpy arrays of weights *)

(** Arrays of dimension 0, 1 and 2.  A matrix carries its number of
    columns, so that an array of shape (0, l) exists; every row of a
    matrix has that length ([wf_ndarray]). *)
Inductive ndarray : Type :=
| Scalar (x : Q)
| Vector (v : list Q)
| Matrix (ncols : nat) (rows : list (list Q)).

Definition wf_ndarray (a : ndarray) : Prop :=
  match a with
  | Matrix ncols rows => Forall (fun r => List.length r = ncols) rows
  | _ => True
  end.

(** [a.shape[0]] *)
Definition shape0 (a : ndarray) : exn + nat :=
  match a with
  | Scalar _ => inl IndexError
  | Vector v => inr (List.length v)
  | Matrix _ rows => inr (List.length rows)
  end.

(** [len(a.shape)] *)
Definition ndim (a : ndarray) : nat :=
  match a with
  | Scalar _ => 0%nat
  | Vector _ => 1%nat
  | Matrix _ _ => 2%nat
  end.

(** [np.abs(a)] *)
Definition np_abs (a : ndarray) : ndarray :=
  match a with
  | Scalar x => Scalar (Qabs x)
  | Vector v => Vector (map Qabs v)
  | Matrix n rows => Matrix n (map (map Qabs) rows)
  end.

Fixpoint vec_add (u v : list Q) : list Q :=
  match u, v with
  | x :: u', y :: v' => (x + y) :: vec_add u' v'
  | _, _ => []
  end.

(** [np.sum(a, axis=0)] *)
Definition np_sum_axis0 (a : ndarray) : exn + ndarray :=
  match a with
  | Scalar _ => inl AxisError
  | Vector v => inr (Scalar (Qsum v))
  | Matrix n rows => inr (Vector (fold_right vec_add (repeat 0 n) rows))
  end.

(** [np.sum(a)] *)
Definition np_sum (a : ndarray) : Q :=
  match a with
  | Scalar x => x
  | Vector v => Qsum v
  | Matrix _ rows => Qsum (map Qsum rows)
  end.

(** Float division: dividing by zero gives nan or inf, a null cell here. *)
Definition fdiv (x d : Q) : option Q :=
  if Qeq_bool d 0 then None else Some (x / d).

(** The cells of an array of dimension at most 1, as bar heights (a
    scalar height is a single cell, broadcast by [ax_bar]). *)
Definition cells_div (a : ndarray) (d : Q) : exn + Series :=
  match a with
  | Scalar x => inr (Floats [fdiv x d])
  | Vector v => inr (Floats (map (fun x => fdiv x d) v))
  | Matrix _ _ => inl ValueError
  end.

Definition cells_raw (a : ndarray) : exn + Series :=
  match a with
  | Scalar x => inr (Floats [Some x])
  | Vector v => inr (Floats (map Some v))
  | Matrix _ _ => inl ValueError
  end.

(** [a[k, :]] on a matrix, with Python's wrap-around of negative
    indices. *)
Definition row_at (rows : list (list Q)) (k : Z) : exn + ndarray :=
  let n := Z.of_nat (List.length rows) in
  let k' := if (k <? 0)%Z then (k + n)%Z else k in
  if ((k' <? 0) || (n <=? k'))%Z then inl IndexError
  else match nth_error rows (Z.to_nat k') with
       | Some r => inr (Vector r)
       | None => inl IndexError
       end.

(** ** plot_lagged_weights *)

(** [list(range(1, 1 + n))[::-1]] *)
Definition lags_range (n : nat) : list Z :=
  rev (map Z.of_nat (seq 1 n)).

(** The values handed to the bar call when [focus is None]. *)
Definition relevance (weights : ndarray) : exn + Series :=
  match np_sum_axis0 (np_abs weights) with
  | inl e => inl e
  | inr w => cells_div w (np_sum w)
  end.

(** The values handed to the bar call for a focus horizon. *)
Definition focus_weights (weights : ndarray) (focus : Z) : exn + Series :=
  match weights with
  | Matrix _ rows =>
      match row_at rows (focus - 1) with
      | inl e => inl e
      | inr w => cells_raw w
      end
  | _ => cells_raw weights
  end.

Definition plot_lagged_weights_body (weights : ndarray) (comp_name : string)
           (focus : option Z) : M (list Artist) :=
  let artists := [] in
  n_lags <- lift (shape0 weights) ;;
  let lags := lags_range n_lags in
  artists <-
    match focus with
    | None =>
        w <- lift (relevance weights) ;;
        a <- ax_bar lags w 1.00 "#0072B2" None ;;
        ret (artists ++ a)%list
    | Some f =>
        w <- lift (focus_weights weights f) ;;
        a <- ax_bar lags w 0.80 "#0072B2" None ;;
        ret (artists ++ a)%list
    end ;;
  ax_grid_on ;;
  set_xlabel (comp_name ++ " lag number") ;;
  match focus with
  | None =>
      set_ylabel (comp_name ++ " relevance") ;;
      set_y_as_percent
  | Some f =>
      set_ylabel (comp_name ++ " weight (" ++ str_of_int f ++ ")-ahead")
  end ;;
  ret artists.

Definition plot_lagged_weights (weights : ndarray) (comp_name : string)
           (focus : option Z) (ax : option Axes) : (exn + list Artist) * Axes :=
  plot_lagged_weights_body weights comp_name focus (ax_or_new ax).

(** ** The fitted model, as far as this module reads it *)

Record SeasonConfig : Type := mkSeasonConfig {
  mode : string;
  periods : list (string * Q)       (* name -> period *)
}.

Record TimeNet : Type := mkTimeNet {
  ar_weights : ndarray;
  get_covar_weights : string -> ndarray;
  get_trend_deltas : list Q;
  trend_m0 : Q;
  trend_k0 : Q
}.

Record NeuralProphet : Type := mkNeuralProphet {
  n_changepoints : Z;
  season_config : option SeasonConfig;
  n_lags : Z;
  n_forecasts : Z;
  covar_config : option (list string);     (* the keys, in order *)
  model : TimeNet;
  ds_shift : Z;                            (* data_params['ds'].shift *)
  ds_scale : Z;                            (* data_params['ds'].scale *)
  predict_seasonal_components : DataFrame -> DataFrame
}.

(** ** plot_custom_season *)

(** [raise NotImplementedError]; the axes argument is the state of the
    monad and is left as it was. *)
Definition plot_custom_season (m : NeuralProphet) (comp_name : option string)
  : M (list Artist) :=
  raise NotImplementedError.

(** ** plot_trend_change and plot_trend_0 *)

(** [range(a, b)] over Python ints. *)
Definition py_range (a b : Z) : list Z :=
  map (fun k => (a + Z.of_nat k)%Z) (seq 0 (Z.to_nat (b - a))).

Definition plot_trend_change (m : NeuralProphet) (plot_name : string)
  : M (list Artist) :=
  let artists := [] in
  let cp_range := py_range 0 (1 + n_changepoints m) in
  let weights := get_trend_deltas (model m) in
  a <- ax_bar cp_range (Floats (map Some weights)) 1.00 "#0072B2" None ;;
  let artists := (artists ++ a)%list in
  ax_grid_on ;;
  set_xlabel "Trend Segment" ;;
  set_ylabel plot_name ;;
  ret artists.

Definition plot_trend_0 (m : NeuralProphet) (plot_name : string)
  : M (list Artist) :=
  let artists := [] in
  let t_start := ds_shift m in
  let t_end := (t_start + ds_scale m)%Z in
  fcst_t <- lift (dt_to_pydatetime (Datetimes [t_start; t_end])) ;;
  let trend_0 := trend_m0 (model m) in
  let trend_1 := trend_0 + trend_k0 (model m) in
  a <- ax_plot fcst_t (Floats [Some trend_0; Some trend_1])
               (Some "-") None "#0072B2" None ;;
  let artists := (artists ++ a)%list in
  date_axis_and_grid ;;
  set_xlabel "ds" ;;
  set_ylabel plot_name ;;
  ret artists.

(** ** plot_yearly and plot_weekly *)

Definition day_ns : Z := 86400000000000.

(** 2017-01-01, a Sunday, is day 17167 of the epoch. *)
Definition ts_2017_01_01 : Z := 17167 * day_ns.

(** pandas keeps a Timestamp and a Timedelta as a signed 64-bit count of
    nanoseconds (the least value is set aside for NaT). *)
Definition int64_max : Z := 9223372036854775807.

Definition in_ns_range (t : Z) : bool :=
  ((- int64_max <=? t) && (t <=? int64_max))%Z.

(** [pd.Timedelta(days=d)] *)
Definition timedelta_days (d : Z) : exn + Z :=
  if in_ns_range (d * day_ns) then inr (d * day_ns)%Z
  else inl OutOfBoundsError.

(** [pd.date_range(start=t, periods=n)], daily. *)
Definition date_range (t : Z) (n : nat) : list Z :=
  map (fun k => (t + Z.of_nat k * day_ns)%Z) (seq 0 n).

(** [index + delta]: every sum has to be a Timestamp again. *)
Definition shift_dates (ts : list Z) (delta : Z) : exn + list Z :=
  if forallb (fun t => in_ns_range (t + delta)) ts
  then inr (map (fun t => (t + delta)%Z) ts)
  else inl OutOfBoundsError.

(** [pd.date_range(start='2017-01-01', periods=n) + pd.Timedelta(days=start)] *)
Definition date_range_2017 (n : nat) (start : Z) : exn + list Z :=
  match timedelta_days start with
  | inl e => inl e
  | inr delta => shift_dates (date_range ts_2017_01_01 n) delta
  end.

(** [days.day_name()]; 1970-01-01 was a Thursday. *)
Definition day_name (t : Z) : string :=
  match ((t / day_ns + 3) mod 7)%Z with
  | 0%Z => "Monday" | 1%Z => "Tuesday" | 2%Z => "Wednesday"
  | 3%Z => "Thursday" | 4%Z => "Friday" | 5%Z => "Saturday"
  | _ => "Sunday"
  end.

(** [m.season_config.mode == 'multiplicative'] *)
Definition season_is_multiplicative (m : NeuralProphet) : exn + bool :=
  match season_config m with
  | None => inl AttributeError
  | Some cfg => inr (String.eqb (mode cfg) "multiplicative")
  end.

Definition plot_yearly (m : NeuralProphet) (yearly_start : Z)
           (comp_name : string) : M (list Artist) :=
  let artists := [] in
  days <- lift (date_range_2017 365 yearly_start) ;;
  let df_y : DataFrame := [("ds", Datetimes days)] in
  let seas := predict_seasonal_components m df_y in
  col <- lift (df_getitem df_y "ds") ;;
  t <- lift (dt_to_pydatetime col) ;;
  y <- lift (df_getitem seas comp_name) ;;
  a <- ax_plot t y (Some "-") None "#0072B2" None ;;
  let artists := (artists ++ a)%list in
  ax_grid_on ;;
  set_xformat XMonths ;;
  set_xlabel "Day of year" ;;
  set_ylabel ("Seasonality: " ++ comp_name) ;;
  mult <- lift (season_is_multiplicative m) ;;
  (if mult : bool then set_y_as_percent else ret tt) ;;
  ret artists.

Definition plot_weekly (m : NeuralProphet) (weekly_start : Z)
           (comp_name : string) : M (list Artist) :=
  let artists := [] in
  days <- lift (date_range_2017 7 weekly_start) ;;
  let df_w : DataFrame := [("ds", Datetimes days)] in
  let seas := predict_seasonal_components m df_w in
  let days := map day_name days in
  y <- lift (df_getitem seas comp_name) ;;
  a <- ax_plot (py_range 0 (Z.of_nat (List.length days))) y
               (Some "-") None "#0072B2" None ;;
  let artists := (artists ++ a)%list in
  ax_grid_on ;;
  set_xformat (XLabels days) ;;
  set_xlabel "Day of week" ;;
  set_ylabel ("Seasonality: " ++ comp_name) ;;
  mult <- lift (season_is_multiplicative m) ;;
  (if mult : bool then set_y_as_percent else ret tt) ;;
  ret artists.

(** ** plot_parameters *)

(** The descriptor dicts: [plot_name] is always there, the other keys
    only for some descriptors (a ['focus'] key may hold [None]). *)
Record ParamComp : Type := mkParamComp {
  pc_plot_name : string;
  pc_comp_name : option string;
  pc_weights : option ndarray;
  pc_focus : option (option Z)
}.

Definition dquote : string := String (ascii_of_nat 34) EmptyString.

(** ['COV "{}"'.format(name)] *)
Definition cov_name (name : string) : string :=
  "COV " ++ dquote ++ name ++ dquote.

Definition lagged_desc (comp_name : string) (w : ndarray) (focus : option Z)
  : ParamComp :=
  mkParamComp "lagged weights" (Some comp_name) (Some w) (Some focus).

Definition lagged_descs (comp_name : string) (w : ndarray)
           (forecast_in_focus : option Z) : list ParamComp :=
  lagged_desc comp_name w None ::
  match forecast_in_focus with
  | Some f => [lagged_desc comp_name w (Some f)]
  | None => []
  end.

Definition parameter_components (m : NeuralProphet)
           (forecast_in_focus : option Z) : list ParamComp :=
  let components :=
    ((if (0 <? n_changepoints m)%Z
      then [mkParamComp "Trend changepoints" None None None] else [])
     ++
     match season_config m with
     | Some cfg =>
         map (fun p => mkParamComp "seasonality" (Some (fst p)) None None)
             (periods cfg)
     | None => []
     end
     ++
     (if (0 <? n_lags m)%Z
      then lagged_descs "AR" (ar_weights (model m)) forecast_in_focus
      else [])
     ++
     match covar_config m with
     | Some names =>
         flat_map (fun name => lagged_descs (cov_name name)
                                 (get_covar_weights (model m) name)
                                 forecast_in_focus)
                  names
     | None => []
     end)%list in
  match components with
  | [] => [mkParamComp "Trend" None None None]
  | _ => components
  end.

Inductive SeasonRoute : Type := RouteWeekly | RouteYearly | RouteCustom.

(** [m.season_config.periods[name]['period']] *)
Fixpoint period_of (ps : list (string * Q)) (name : string) : exn + Q :=
  match ps with
  | [] => inl (KeyError name)
  | (n, p) :: rest => if String.eqb n name then inr p else period_of rest name
  end.

(** The [if / elif / else] over a seasonality's name and period; the
    period is looked up only when the name test fails. *)
Definition season_route (cfg : SeasonConfig) (name : string)
  : exn + SeasonRoute :=
  if String.eqb (lower name) "weekly" then inr RouteWeekly
  else
    match period_of (periods cfg) name with
    | inl e => inl e
    | inr p =>
        if Qeq_bool p 7 then inr RouteWeekly
        else if String.eqb (lower name) "yearly" then inr RouteYearly
        else if Qeq_bool p 365.25 then inr RouteYearly
        else inr RouteCustom
    end.

Definition get_key {A : Type} (key : string) (v : option A) : exn + A :=
  match v with
  | Some a => inr a
  | None => inl (KeyError key)
  end.

(** The body of the loop over [zip(axes, components)], run on the panel's
    axes; it answers whether the axes joins [multiplicative_axes]. *)
Definition render_panel (m : NeuralProphet) (weekly_start yearly_start : Z)
           (comp : ParamComp) : M bool :=
  let plot_name := lower (pc_plot_name comp) in
  if startswith plot_name "trend" then
    (if contains "changepoints" plot_name
     then _ <- plot_trend_change m (pc_plot_name comp) ;; ret false
     else _ <- plot_trend_0 m (pc_plot_name comp) ;; ret false)
  else if startswith plot_name "seasonality" then
    name <- lift (get_key "comp_name" (pc_comp_name comp)) ;;
    match season_config m with
    | None => raise AttributeError
    | Some cfg =>
        let mult := String.eqb (mode cfg) "multiplicative" in
        route <- lift (season_route cfg name) ;;
        match route with
        | RouteWeekly => _ <- plot_weekly m weekly_start name ;; ret mult
        | RouteYearly => _ <- plot_yearly m yearly_start name ;; ret mult
        | RouteCustom => _ <- plot_custom_season m (Some name) ;; ret mult
        end
    end
  else if String.eqb plot_name "lagged weights" then
    w <- lift (get_key "weights" (pc_weights comp)) ;;
    name <- lift (get_key "comp_name" (pc_comp_name comp)) ;;
    focus <- lift (get_key "focus" (pc_focus comp)) ;;
    _ <- plot_lagged_weights_body w name focus ;;
    ret false
  else ret false.

(** The loop itself: each descriptor is rendered on its own fresh axes
    (from [plt.subplots(npanel, 1)]); the first exception ends the call. *)
Fixpoint render_panels (m : NeuralProphet) (weekly_start yearly_start : Z)
         (panels : list (Axes * ParamComp)) : exn + list (Axes * bool) :=
  match panels with
  | [] => inr []
  | (ax, comp) :: rest =>
      match render_panel m weekly_start yearly_start comp ax with
      | (inl e, _) => inl e
      | (inr mult, ax') =>
          match render_panels m weekly_start yearly_start rest with
          | inl e => inl e
          | inr done => inr ((ax', mult) :: done)
          end
      end
  end.

Definition plot_parameters (m : NeuralProphet) (forecast_in_focus : option Z)
           (weekly_start yearly_start : Z) : exn + Figure :=
  let components := parameter_components m forecast_in_focus in
  let npanel := List.length components in
  let axes := repeat new_axes npanel in
  match render_panels m weekly_start yearly_start (combine axes components) with
  | inl e => inl e
  | inr panels =>
      (* fig.tight_layout(), then the percentage labels *)
      inr (mkFigure
             (map (fun p => if snd p : bool then set_y_as_percent_ax (fst p)
                            else fst p) panels)
             true)
  end.

(** ** Reference notions used in the statements *)

(** An ASCII character is a single byte below 128. *)
Definition is_ascii (c : ascii) : bool := (nat_of_ascii c <? 128)%nat.

Fixpoint all_ascii (s : string) : bool :=
  match s with
  | EmptyString => true
  | String c r => is_ascii c && all_ascii r
  end.

(** The string is empty or begins with an ASCII character. *)
Definition starts_ascii (s : string) : bool :=
  match s with
  | EmptyString => true
  | String c _ => is_ascii c
  end.

(** One of the letters a..z. *)
Definition is_lower_letter (c : ascii) : bool :=
  ((97 <=? nat_of_ascii c) && (nat_of_ascii c <=? 122))%nat.

Fixpoint lower_word (s : string) : bool :=
  match s with
  | EmptyString => true
  | String c r => is_lower_letter c && lower_word r
  end.

(** The capital of a letter a..z. *)
Definition upper_ascii (c : ascii) : ascii :=
  ascii_of_nat (nat_of_ascii c - 32).

(** The Kelvin sign U+212A, in UTF-8. *)
Definition kelvin_sign : string :=
  String "226" (String "132" (String "170" EmptyString)).

(** The ways to write the letter [c] when letter case does not count: the
    letter itself, its capital and, for k, the Kelvin sign. *)
Inductive spells : ascii -> string -> Prop :=
| spells_small c : spells c (String c EmptyString)
| spells_capital c : spells c (String (upper_ascii c) EmptyString)
| spells_kelvin : spells "k" kelvin_sign.

(** [name] is the word [word] (in the letters a..z) up to letter case:
    letter by letter, it is written in one of those ways. *)
Inductive ignoring_case : string -> string -> Prop :=
| ignoring_case_nil : ignoring_case EmptyString EmptyString
| ignoring_case_cons c chunk name word :
    spells c chunk ->
    ignoring_case name word ->
    ignoring_case (chunk ++ name) (String c word).

(** A forecast table: a well-formed frame with a timestamp column [ds] and
    an actual-value column [y]. *)
Definition forecast_table (fcst : DataFrame) : Prop :=
  wf_frame fcst /\
  (exists ts, df_find fcst "ds" = Some (Datetimes ts)) /\
  (exists ys, df_find fcst "y" = Some ys).

(** The frame has a datetime column [ds]. *)
Definition has_timestamps (fcst : DataFrame) : Prop :=
  exists ts, df_find fcst "ds" = Some (Datetimes ts).

(** The column of that name, for statements about columns known to exist. *)
Definition column (fcst : DataFrame) (name : string) : Series :=
  match df_find fcst name with
  | Some s => s
  | None => Floats []
  end.

(** The timestamps of the [ds] column. *)
Definition timestamps (fcst : DataFrame) : list Z :=
  match df_find fcst "ds" with
  | Some (Datetimes ts) => ts
  | _ => []
  end.

(** The axes after drawing the marks [ms] on top of what is there. *)
Definition with_marks (ax : Axes) (ms : list Mark) : Axes :=
  mkAxes (ax_marks ax ++ ms) (ax_xformat ax) (ax_grid ax)
         (ax_xlabel ax) (ax_ylabel ax) (ax_ypercent ax).

(** The marks of the composite forecast plot. *)
Definition overlay_mark (fcst : DataFrame) (i : nat) : Mark :=
  mkMark LineMark (timestamps fcst) (column fcst (yhat_name (Z.of_nat i + 1)))
         (Some "-") None "#0072B2"
         (Some (0.2 + 2.0 / (inject_Z (Z.of_nat i) + 2.5))) None.

Definition highlight_marks (fcst : DataFrame) (highlight : option Z)
  : list Mark :=
  match highlight with
  | Some h =>
      [mkMark LineMark (timestamps fcst) (column fcst (yhat_name h))
              (Some "-") None "b" None None;
       mkMark LineMark (timestamps fcst) (column fcst (yhat_name h))
              None (Some "x") "b" None None]
  | None => []
  end.


(** The forecast column names [yhat1 .. yhatk]. *)
Definition yhat_names (k : nat) : list string :=
  map (fun n => yhat_name (Z.of_nat n)) (seq 1 k).

(** The mark one [draw] call leaves on the axes. *)
Definition series_mark (bar : bool) (x : list Z) (y : Series) (width : Q)
           (color : string) (alpha : option Q) : Mark :=
  if bar then mkMark BarMark x y None None color alpha (Some width)
  else mkMark LineMark x y (Some "-") None color alpha None.

(** The (timestamp, value) pairs a mark shows. *)
Definition mark_pairs (m : Mark) : list (Z * option Q) :=
  combine (mark_x m) (series_cells (mark_y m)).

(** The rows of a column whose value is not null, with their timestamps. *)
Definition notnull_pairs (ts : list Z) (y : Series) : list (Z * option Q) :=
  filter (fun p => match snd p with Some _ => true | None => false end)
         (combine ts (series_cells y)).

(** The overlay series of horizon index [i] (column [comp_name(i+1)]) and
    the focused series of [plot_multiforecast_component]. *)
Definition horizon_mark (bar : bool) (fcst : DataFrame) (comp_name : string)
           (i : nat) : Mark :=
  let y := column fcst (horizon_col comp_name (Z.of_nat i + 1)) in
  series_mark bar (mask_select (timestamps fcst) (notnull y))
              (series_mask y (notnull y)) 1.00 "#0072B2"
              (Some (multi_alpha i)).

Definition focus_mark (bar : bool) (fcst : DataFrame) (comp_name : string)
           (focus : Z) : Mark :=
  let y := column fcst (horizon_col comp_name focus) in
  series_mark bar (mask_select (timestamps fcst) (notnull y))
              (series_mask y (notnull y)) 1.00 "b" None.

(** The axes decorations every component renderer ends with. *)
Definition decorated (ax : Axes) (ms : list Mark) (ylabel : string)
           (percent : bool) : Axes :=
  mkAxes (ax_marks ax ++ ms) XAutoDate true (Some "ds") (Some ylabel)
         (if percent then true else ax_ypercent ax).

(** The centred rolling mean, as the specification words it: the window
    of length [w] about row [j] holds the rows [j - w/2 .. j + (w-1)/2]
    that exist (for odd [w], [(w-1)/2] rows on either side); its samples
    are the values of those rows that are not null; the mean is their sum
    divided by their number, and is null when there is no sample. *)
Definition sample_at (xs : list (option Q)) (i : nat) : list Q :=
  match nth_error xs i with
  | Some (Some v) => [v]
  | _ => []
  end.

Definition window_samples (w : nat) (xs : list (option Q)) (j : nat) : list Q :=
  let first := (j - w / 2)%nat in
  let last := (j + (w - 1) / 2)%nat in
  flat_map (sample_at xs) (seq first (last + 1 - first)).

Definition average (samples : list Q) : option Q :=
  match samples with
  | [] => None
  | _ => Some (fold_left Qplus samples 0
               / inject_Z (Z.of_nat (List.length samples)))
  end.

(** Two cells hold the same number, or are both null. *)
Definition same_number (a b : option Q) : Prop :=
  match a, b with
  | Some x, Some y => x == y
  | None, None => True
  | _, _ => False
  end.

(** The same window cut out of the column by its row numbers, and the
    mean of a window in the model's terms: steps of the proof. *)
Definition centered_window (w : nat) (xs : list (option Q)) (j : nat)
  : list (option Q) :=
  map snd
      (filter (fun p => ((j - w / 2 <=? fst p) && (fst p <=? j + (w - 1) / 2))%nat)
              (combine (seq 0 (List.length xs)) xs)).

Definition mean_of_samples (samples : list Q) : option Q :=
  match samples with
  | [] => None
  | _ => Some (Qsum samples / inject_Z (Z.of_nat (List.length samples)))
  end.

Definition centered_mean (w : nat) (xs : list (option Q)) (j : nat) : option Q :=
  mean_of_samples (observations (centered_window w xs j)).

(** The descriptor [plot_parameters] builds for a seasonality. *)
Definition seasonality_desc (name : string) : ParamComp :=
  mkParamComp "seasonality" (Some name) None None.

(** The renderer a route stands for. *)
Definition season_renderer (m : NeuralProphet) (weekly_start yearly_start : Z)
           (route : SeasonRoute) (name : string) : M (list Artist) :=
  match route with
  | RouteWeekly => plot_weekly m weekly_start name
  | RouteYearly => plot_yearly m yearly_start name
  | RouteCustom => plot_custom_season m (Some name)
  end.

(** The model configures no seasonality, no covariate. *)
Definition no_seasonalities (m : NeuralProphet) : Prop :=
  match season_config m with
  | None => True
  | Some cfg => periods cfg = []
  end.

Definition no_covariates (m : NeuralProphet) : Prop :=
  match covar_config m with
  | None => True
  | Some names => names = []
  end.

(** The panel of the trend baseline: one line through
    (start, intercept) and (start + scale, intercept + slope). *)
Definition trend_baseline_axes (m : NeuralProphet) : Axes :=
  mkAxes
    [mkMark LineMark [ds_shift m; (ds_shift m + ds_scale m)%Z]
            (Floats [Some (trend_m0 (model m));
                     Some (trend_m0 (model m) + trend_k0 (model m))])
            (Some "-") None "#0072B2" None None]
    XAutoDate true (Some "ds") (Some "Trend") false.

(** ** Sample inputs *)

(** Five daily rows with one forecast column. *)
Definition sample_days : list Z :=
  map (fun k => (ts_2017_01_01 + k * day_ns)%Z) [0; 1; 2; 3; 4]%Z.

Definition sample_fcst : DataFrame :=
  [("ds", Datetimes sample_days);
   ("y", Floats [Some 1; Some 2; Some 3; Some 4; Some 5]);
   ("yhat1", Floats [Some 1.1; Some 2.1; Some 3.1; Some 4.1; Some 5.1])].

(** Four daily rows with the auto-regression component at two horizons;
    the rows at the series boundary hold no forecast. *)
Definition sample_ar : DataFrame :=
  [("ds", Datetimes (map (fun k => (ts_2017_01_01 + k * day_ns)%Z) [0; 1; 2; 3]%Z));
   ("ar1", Floats [None; Some 0.5; Some (-0.25); Some 0.75]);
   ("ar2", Floats [None; None; Some 0.4; Some (-0.1)])].

(** What the call raises when the [ds] column is missing or is not a
    datetime column, and [e] otherwise. *)
Definition ds_error_or (fcst : DataFrame) (e : exn) : exn :=
  match df_find fcst "ds" with
  | None => KeyError "ds"
  | Some (Floats _) => AttributeError
  | Some (Datetimes _) => e
  end.

(** Six daily rows of residuals, null at both ends of the series. *)
Definition sample_residuals : DataFrame :=
  [("ds", Datetimes (map (fun k => (ts_2017_01_01 + k * day_ns)%Z)
                         [0; 1; 2; 3; 4; 5]%Z));
   ("residuals", Floats [None; Some 1; Some 2; Some 6; Some 4; None])].

(** Learned weights for 3 forecast horizons (rows) and 4 lags (columns). *)
Definition sample_weights : ndarray :=
  Matrix 4 [[1; -2; 3; 4]; [1; 1; 1; 1]; [0; 0; 0; -1]].

(** Some entry of the matrix is not zero. *)
Definition has_nonzero (rows : list (list Q)) : Prop :=
  exists r x, In r rows /\ In x r /\ ~ x == 0.

(** A seasonality registry with a weekly, a yearly and a monthly entry. *)
Definition sample_seasons : SeasonConfig :=
  mkSeasonConfig "additive"
                 [("weekly", 7); ("yearly", 365.25); ("monthly", 30.5)].

(** A fitted model with a bare trend: no changepoints, seasonalities,
    lags or covariates. *)
Definition sample_trend_model : NeuralProphet :=
  mkNeuralProphet 0 None 0 1 None
                  (mkTimeNet (Matrix 0 []) (fun _ => Matrix 0 []) [0] 0.5 0.25)
                  ts_2017_01_01 (365 * day_ns) (fun _ => []).

(** ** Further sample inputs *)

(** A forecast table that also carries an uncertainty column: its name
    contains "yhat" without being one of the step-ahead forecasts. *)
Definition sample_fcst_bounds : DataFrame :=
  [("ds", Datetimes sample_days);
   ("y", Floats [Some 1; Some 2; Some 3; Some 4; Some 5]);
   ("yhat1", Floats [Some 1.1; Some 2.1; Some 3.1; Some 4.1; Some 5.1]);
   ("yhat_lower", Floats [Some 0.9; Some 1.9; Some 2.9; Some 3.9; Some 4.9])].

(** A forecast of future dates: there is no column of actual values. *)
Definition sample_future : DataFrame :=
  [("ds", Datetimes sample_days);
   ("yhat1", Floats [Some 1.1; Some 2.1; Some 3.1; Some 4.1; Some 5.1])].

(** The auto-regression component at one horizon only, beside another
    column whose name starts with "ar". *)
Definition sample_ar_total : DataFrame :=
  [("ds", Datetimes (map (fun k => (ts_2017_01_01 + k * day_ns)%Z) [0; 1; 2; 3]%Z));
   ("ar1", Floats [None; Some 0.5; Some (-0.25); Some 0.75]);
   ("ar_total", Floats [None; Some 0.5; Some 0.15; Some 0.65])].

(** Learned weights for 3 horizons and 3 lags, and a vector of weights. *)
Definition sample_square : ndarray :=
  Matrix 3 [[1; -2; 1]; [0.5; 0.25; -0.25]; [0; 0; -1]].

Definition sample_vector : ndarray := Vector [0.5; -1; 0.5].

(** [a[k]] along the first axis of a matrix, in Python's reading of the
    index: [k] counts from the start when it is not negative, from the end
    otherwise. *)
Definition py_index (len : nat) (k : Z) : option nat :=
  if ((0 <=? k) && (k <? Z.of_nat len))%Z then Some (Z.to_nat k)
  else if ((k <? 0) && (- Z.of_nat len <=? k))%Z then Some (Z.to_nat (k + Z.of_nat len))
  else None.

(** The axes after [plot_lagged_weights] drew the bars [m]. *)
Definition lagged_axes (ax : Axes) (m : Mark) (comp_name ylabel : string)
           (percent : bool) : Axes :=
  mkAxes (ax_marks ax ++ [m]) (ax_xformat ax) true
         (Some (comp_name ++ " lag number")) (Some ylabel)
         (if percent then true else ax_ypercent ax).

Definition lag_bars (n : nat) (heights : list (option Q)) (width : Q) : Mark :=
  mkMark BarMark (lags_range n) (Floats heights) None None "#0072B2" None
         (Some width).

(** Every entry of the matrix is zero. *)
Definition all_zero (rows : list (list Q)) : Prop :=
  Forall (fun r => Forall (fun x => x == 0) r) rows.

(** The day of the week [k] days after a Sunday. *)
Definition weekday (k : Z) : string :=
  match (k mod 7)%Z with
  | 0%Z => "Sunday" | 1%Z => "Monday" | 2%Z => "Tuesday"
  | 3%Z => "Wednesday" | 4%Z => "Thursday" | 5%Z => "Friday"
  | _ => "Saturday"
  end.

(** [n] consecutive days, the first one [start] days after 2017-01-01. *)
Definition shifted_days (n : nat) (start : Z) : list Z :=
  map (fun j => (ts_2017_01_01 + (Z.of_nat j + start) * day_ns)%Z) (seq 0 n).

(** The one-column frame of those days, which the seasonality renderers
    hand to the model. *)
Definition season_query (n : nat) (start : Z) : DataFrame :=
  [("ds", Datetimes (shifted_days n start))].

Definition sample_weekly_profile : Series :=
  Floats [Some 0.1; Some 0.2; Some 0.0; Some (-0.1);
          Some (-0.2); Some 0.05; Some (-0.05)].

Definition sample_yearly_profile : Series :=
  Floats (repeat (Some 0.1) 365).

(** A model with a weekly seasonality whose evaluator answers with a
    fixed weekly profile. *)
Definition sample_weekly_model : NeuralProphet :=
  mkNeuralProphet 0 (Some (mkSeasonConfig "multiplicative" [("weekly", 7)])) 0 1 None
    (mkTimeNet (Matrix 0 []) (fun _ => Matrix 0 []) [0] 0.5 0.25)
    ts_2017_01_01 (365 * day_ns)
    (fun _ => [("weekly", sample_weekly_profile)]).

(** A model with three changepoints and its four trend deltas. *)
Definition sample_changepoint_model : NeuralProphet :=
  mkNeuralProphet 3 None 0 1 None
    (mkTimeNet (Matrix 0 []) (fun _ => Matrix 0 []) [0.1; -0.2; 0.05; 0.3] 0.5 0.25)
    ts_2017_01_01 (365 * day_ns) (fun _ => []).

(** A model with a yearly seasonality whose evaluator answers with a flat
    profile of 365 days. *)
Definition sample_yearly_model : NeuralProphet :=
  mkNeuralProphet 0 (Some (mkSeasonConfig "additive" [("yearly", 365.25)])) 0 1 None
    (mkTimeNet (Matrix 0 []) (fun _ => Matrix 0 []) [0] 0.5 0.25)
    ts_2017_01_01 (365 * day_ns)
    (fun _ => [("yearly", sample_yearly_profile)]).

(** The axes after a seasonality renderer drew the line [mk]. *)
Definition season_axes (ax : Axes) (mk : Mark) (xformat : XAxisFormat)
           (xlabel comp_name : string) (percent : bool) : Axes :=
  mkAxes (ax_marks ax ++ [mk]) xformat true (Some xlabel)
         (Some ("Seasonality: " ++ comp_name))
         (if percent then true else ax_ypercent ax).

Definition season_line (x : list Z) (y : Series) : Mark :=
  mkMark LineMark x y (Some "-") None "#0072B2" None None.

(** The number of panels the configuration of a model asks of
    [plot_parameters]: one for the changepoints, one per seasonality, and
    for the auto-regression and for each covariate one panel of lagged
    weights, doubled when a forecast is in focus. *)
Definition panels_per_source (forecast_in_focus : option Z) : nat :=
  match forecast_in_focus with Some _ => 2%nat | None => 1%nat end.

Definition configured_panels (m : NeuralProphet) (forecast_in_focus : option Z)
  : nat :=
  ((if (0 <? n_changepoints m)%Z then 1 else 0)
   + match season_config m with
     | Some cfg => List.length (periods cfg)
     | None => 0
     end
   + (if (0 <? n_lags m)%Z then panels_per_source forecast_in_focus else 0)
   + match covar_config m with
     | Some names => List.length names * panels_per_source forecast_in_focus
     | None => 0
     end)%nat.

(** The panels of [plot_parameters] counted from numbers alone: one
    panel when there are changepoints, one per seasonality, and one panel
    of lagged weights when there are lags and one per covariate, these
    doubled when a forecast is in focus; never fewer than one. *)
Definition panel_count (changepoints seasonalities lags covariates : nat)
           (in_focus : bool) : nat :=
  let per_source := if in_focus then 2%nat else 1%nat in
  Nat.max 1 (Nat.min 1 changepoints + seasonalities
             + per_source * (Nat.min 1 lags + covariates))%nat.

Definition n_seasonalities (m : NeuralProphet) : nat :=
  match season_config m with
  | Some cfg => List.length (periods cfg)
  | None => 0%nat
  end.

Definition n_covariates (m : NeuralProphet) : nat :=
  match covar_config m with
  | Some names => List.length names
  | None => 0%nat
  end.

Definition is_given {A : Type} (v : option A) : bool :=
  match v with Some _ => true | None => false end.

(** WEEKLY, its K written with the Kelvin sign, registered with a
    period that is neither 7 nor 365.25. *)
Definition sample_kelvin_name : string := "WEE" ++ kelvin_sign ++ "LY".

Definition sample_kelvin_seasons : SeasonConfig :=
  mkSeasonConfig "additive" [(sample_kelvin_name, 30.5)].

(** A seasonal evaluator that answers every query with one value per
    queried day for a weekly and a yearly component. *)
Definition sample_seasonal_answer (q : DataFrame) : DataFrame :=
  match df_find q "ds" with
  | Some ds => [("weekly", Floats (repeat (Some 0.1) (series_len ds)));
                ("yearly", Floats (repeat (Some (-0.2)) (series_len ds)))]
  | None => []
  end.

(** A model with everything configured: three changepoints, a weekly and
    a yearly seasonality in multiplicative mode, auto-regression over 3
    lags for 3 forecasts, and one covariate. *)
Definition sample_full_model : NeuralProphet :=
  mkNeuralProphet 3
    (Some (mkSeasonConfig "multiplicative" [("weekly", 7); ("yearly", 365.25)]))
    3 3 (Some ["temp"])
    (mkTimeNet (Matrix 3 [[1; -2; 3]; [1; 1; 1]; [0; 0; -1]])
               (fun _ => Matrix 3 [[0.5; 0.5; 1]; [1; 0; 1]; [2; 1; 0]])
               [0.1; -0.2; 0.05; 0.3] 0.5 0.25)
    ts_2017_01_01 (365 * day_ns)%Z
    sample_seasonal_answer.

(** The axes has its grid on and carries these two axis labels. *)
Definition labelled (ax : Axes) (xlabel ylabel : string) : Prop :=
  ax_grid ax = true /\
  ax_xlabel ax = Some xlabel /\
  ax_ylabel ax = Some ylabel.

(** What a reader finds on the panel of a descriptor: the changepoint
    bars over the trend segments, the trend baseline over time, a
    seasonality over the days of the week or of the year, the relevance of
    the lags in percent, or the signed weights of the horizon in focus. *)
Inductive panel_shows : ParamComp -> Axes -> Prop :=
| shows_changepoints ax :
    labelled ax "Trend Segment" "Trend changepoints" ->
    ax_ypercent ax = false ->
    panel_shows (mkParamComp "Trend changepoints" None None None) ax
| shows_trend ax :
    labelled ax "ds" "Trend" ->
    ax_ypercent ax = false ->
    panel_shows (mkParamComp "Trend" None None None) ax
| shows_weekly name ax :
    labelled ax "Day of week" ("Seasonality: " ++ name) ->
    panel_shows (mkParamComp "seasonality" (Some name) None None) ax
| shows_yearly name ax :
    labelled ax "Day of year" ("Seasonality: " ++ name) ->
    panel_shows (mkParamComp "seasonality" (Some name) None None) ax
| shows_relevance name w ax :
    labelled ax (name ++ " lag number") (name ++ " relevance") ->
    ax_ypercent ax = true ->
    panel_shows (mkParamComp "lagged weights" (Some name) (Some w) (Some None)) ax
| shows_focus name w f ax :
    labelled ax (name ++ " lag number")
             (name ++ " weight (" ++ str_of_int f ++ ")-ahead") ->
    ax_ypercent ax = false ->
    panel_shows (mkParamComp "lagged weights" (Some name) (Some w)
                             (Some (Some f))) ax.

(** On return, the computation leaves the axes in a state with [Q]. *)
Definition leaves {A : Type} (c : M A) (Q : Axes -> Prop) : Prop :=
  forall ax a ax', c ax = (inr a, ax') -> Q ax'.

(** On return, the computation has kept [Q] if it held before. *)
Definition keeps {A : Type} (c : M A) (Q : Axes -> Prop) : Prop :=
  forall ax a ax', Q ax -> c ax = (inr a, ax') -> Q ax'.

(** A model with a monthly seasonality beside the weekly one, and a
    model with auto-regression over 4 lags for 3 forecasts. *)
Definition sample_monthly_model : NeuralProphet :=
  mkNeuralProphet 0 (Some sample_seasons) 0 1 None
    (mkTimeNet (Matrix 0 []) (fun _ => Matrix 0 []) [0] 0.5 0.25)
    ts_2017_01_01 (365 * day_ns)
    (fun _ => [("weekly", Floats [Some 0.1; Some 0.2; Some 0.0; Some (-0.1);
                                  Some (-0.2); Some 0.05; Some (-0.05)]);
               ("yearly", Floats (repeat (Some 0.1) 365))]).

Definition sample_ar_model : NeuralProphet :=
  mkNeuralProphet 0 None 4 3 None
    (mkTimeNet sample_weights (fun _ => Matrix 0 []) [0] 0.5 0.25)
    ts_2017_01_01 (365 * day_ns) (fun _ => []).

(** ** plot_components *)

(** The descriptor dicts of [plot_components]: [plot_name] and
    [comp_name] are always there, the keys [num_overplot], [bar] and
    [rolling] only for some descriptors. *)
Record FcstComp : Type := mkFcstComp {
  fc_plot_name : string;
  fc_comp_name : string;
  fc_num_overplot : option Z;
  fc_bar : option bool;
  fc_rolling : option Z
}.

(** [name in fcst]: the frame has a column of that name. *)
Definition df_has (fcst : DataFrame) (name : string) : bool :=
  existsb (String.eqb name) (df_columns fcst).

Definition season_comp (name : string) : FcstComp :=
  mkFcstComp (name ++ " seasonality") ("season_" ++ name) None None None.

Definition ar_comps (m : NeuralProphet) (forecast_in_focus : option Z)
  : list FcstComp :=
  mkFcstComp "Auto-Regression" "ar" (Some (n_forecasts m)) (Some true) None ::
  match forecast_in_focus with
  | Some f => [mkFcstComp ("AR Forecast " ++ str_of_int f)
                          ("ar" ++ str_of_int f) None None None]
  | None => []
  end.

Definition covar_comps (m : NeuralProphet) (forecast_in_focus : option Z)
           (name : string) : list FcstComp :=
  mkFcstComp ("Covariate " ++ dquote ++ name ++ dquote) ("covar_" ++ name)
             (Some (n_forecasts m)) (Some true) None ::
  match forecast_in_focus with
  | Some f => [mkFcstComp ("COV " ++ dquote ++ name ++ dquote ++ " Forecast "
                                  ++ str_of_int f)
                          ("covar_" ++ name ++ str_of_int f) None None None]
  | None => []
  end.

Definition forecast_components (m : NeuralProphet) (fcst : DataFrame)
           (forecast_in_focus : option Z) : list FcstComp :=
  ([mkFcstComp "Trend" "trend" None None None]
   ++
   match season_config m with
   | Some cfg => map (fun p => season_comp (fst p)) (periods cfg)
   | None => []
   end
   ++
   (if (0 <? n_lags m)%Z then ar_comps m forecast_in_focus else [])
   ++
   match covar_config m with
   | Some names => flat_map (covar_comps m forecast_in_focus) names
   | None => []
   end
   ++
   (if df_has fcst "residuals"
    then [mkFcstComp "Residuals" "residuals" None (Some true) (Some 7%Z)]
    else []))%list.

(** [plot_forecast_component(fcst=fcst, ax=ax, **comp)]: the function has
    no parameter [num_overplot], so a descriptor carrying that key is a
    TypeError at the call. *)
Definition call_forecast_component (fcst : DataFrame) (comp : FcstComp)
  : M (list Artist) :=
  match fc_num_overplot comp with
  | Some _ => raise TypeError
  | None =>
      plot_forecast_component_body fcst (fc_comp_name comp)
        (Some (fc_plot_name comp)) false
        (match fc_bar comp with Some b => b | None => false end)
        (fc_rolling comp)
  end.

(** [plot_multiforecast_component(fcst=fcst, ax=ax, **comp)]: no
    parameter [rolling]; [focus] keeps its default 1. *)
Definition call_multiforecast_component (fcst : DataFrame) (comp : FcstComp)
  : M (list Artist) :=
  match fc_rolling comp with
  | Some _ => raise TypeError
  | None =>
      plot_multiforecast_component_body fcst (fc_comp_name comp)
        (Some (fc_plot_name comp)) false
        (match fc_bar comp with Some b => b | None => false end)
        1 (fc_num_overplot comp)
  end.

Inductive CompRoute : Type :=
| RouteSingle | RouteSeasonal | RouteMulti | RouteNone.

(** The [if / elif / elif] over the lower-cased plot name. *)
Definition component_route (name : string) : CompRoute :=
  if (String.eqb name "trend" || String.eqb name "residuals"
      || (contains "ar" name && contains "forecast" name)
      || (contains "cov" name && contains "forecast" name))%bool
  then RouteSingle
  else if contains "season" name then RouteSeasonal
  else if (contains "auto-regression" name || contains "covariate" name)%bool
  then RouteMulti
  else RouteNone.

(** The body of the loop over [zip(axes, components)], run on the panel's
    axes; it answers whether the axes joins [multiplicative_axes]. *)
Definition render_component (m : NeuralProphet) (fcst : DataFrame)
           (comp : FcstComp) : M bool :=
  let name := lower (fc_plot_name comp) in
  match component_route name with
  | RouteSingle =>
      _ <- call_forecast_component fcst comp ;; ret false
  | RouteSeasonal =>
      match season_config m with
      | None => raise AttributeError
      | Some cfg =>
          let mult := String.eqb (mode cfg) "multiplicative" in
          _ <- call_forecast_component fcst comp ;; ret mult
      end
  | RouteMulti =>
      _ <- call_multiforecast_component fcst comp ;; ret false
  | RouteNone => ret false
  end.

Fixpoint render_components (m : NeuralProphet) (fcst : DataFrame)
         (panels : list (Axes * FcstComp)) : exn + list (Axes * bool) :=
  match panels with
  | [] => inr []
  | (ax, comp) :: rest =>
      match render_component m fcst comp ax with
      | (inl e, _) => inl e
      | (inr mult, ax') =>
          match render_components m fcst rest with
          | inl e => inl e
          | inr done => inr ((ax', mult) :: done)
          end
      end
  end.

Definition plot_components (m : NeuralProphet) (fcst : DataFrame)
           (forecast_in_focus : option Z) : exn + Figure :=
  let components := forecast_components m fcst forecast_in_focus in
  let npanel := List.length components in
  let axes := repeat new_axes npanel in
  match render_components m fcst (combine axes components) with
  | inl e => inl e
  | inr panels =>
      (* fig.tight_layout(), then the percentage labels *)
      inr (mkFigure
             (map (fun p => if snd p : bool then set_y_as_percent_ax (fst p)
                            else fst p) panels)
             true)
  end.

(** The number of panels [plot_components] lays out. *)
Definition component_panels (m : NeuralProphet) (fcst : DataFrame)
           (forecast_in_focus : option Z) : nat :=
  (1
   + match season_config m with
     | Some cfg => List.length (periods cfg)
     | None => 0
     end
   + (if (0 <? n_lags m)%Z then panels_per_source forecast_in_focus else 0)
   + match covar_config m with
     | Some names => List.length names * panels_per_source forecast_in_focus
     | None => 0
     end
   + (if df_has fcst "residuals" then 1 else 0))%nat.

(** A forecast table with its trend and residuals, and a model whose
    covariate is named after the forecast it comes from. *)
Definition sample_components_fcst : DataFrame :=
  [("ds", Datetimes (map (fun k => (ts_2017_01_01 + k * day_ns)%Z)
                         [0; 1; 2; 3; 4; 5]%Z));
   ("trend", Floats [Some 1; Some 1.5; Some 2; Some 2.5; Some 3; Some 3.5]);
   ("residuals", Floats [None; Some 1; Some 2; Some 6; Some 4; None])].

Definition sample_covar_model : NeuralProphet :=
  mkNeuralProphet 0 None 0 1 (Some ["wind_forecast"])
    (mkTimeNet (Matrix 0 []) (fun _ => Matrix 1 [[1]]) [0] 0.5 0.25)
    ts_2017_01_01 (365 * day_ns) (fun _ => []).

(** The panels of a component figure for a bare trend model: the trend
    line, and the residuals as bars over their rolling mean of window 7. *)
Definition trend_panel (fcst : DataFrame) (vs : list (option Q)) : Axes :=
  decorated new_axes
            [series_mark false (timestamps fcst) (Floats vs) 1.00 "#0072B2" None]
            "Trend" false.

Definition residuals_panel (fcst : DataFrame) (rs : list (option Q)) : Axes :=
  decorated new_axes
            [series_mark true (timestamps fcst) (Floats (rolling_center 7 1 rs))
                         1.00 "#0072B2" (Some 0.5);
             series_mark true (timestamps fcst) (Floats rs) 1.00 "#0072B2" None]
            "Residuals" false.

(** A drawing computation only appends: whatever the axes held stays, in
    place and in order, below what the computation draws, whether it
    returns or raises. *)
Definition appends {A : Type} (c : M A) : Prop :=
  forall ax, exists ms, ax_marks (snd (c ax)) = (ax_marks ax ++ ms)%list.

(** A forecast table with its trend and a weekly seasonal component. *)
Definition sample_season_fcst : DataFrame :=
  [("ds", Datetimes (map (fun k => (ts_2017_01_01 + k * day_ns)%Z)
                         [0; 1; 2; 3]%Z));
   ("trend", Floats [Some 1; Some 1.5; Some 2; Some 2.5]);
   ("season_weekly", Floats [Some 0.1; Some 0.2; Some 0.0; Some (-0.1)])].

(** * Proofs *)

(** ** Python strings *)

Lemma ascii_eqb_apart c k :
  is_ascii c = true -> is_ascii k = false -> Ascii.eqb c k = false.
Proof.
  intros Hc Hk; destruct (Ascii.eqb_spec c k); [subst; congruence|reflexivity].
Qed.

Lemma dotted_capital_i_lead c d :
  is_ascii c = true -> is_dotted_capital_i c d = false.
Proof.
  intros H; unfold is_dotted_capital_i.
  now rewrite (ascii_eqb_apart c "196" H eq_refl).
Qed.

Lemma dotted_capital_i_tail c d :
  is_ascii d = true -> is_dotted_capital_i c d = false.
Proof.
  intros H; unfold is_dotted_capital_i.
  rewrite (ascii_eqb_apart d "176" H eq_refl); apply andb_false_r.
Qed.

Lemma kelvin_sign_lead c1 c2 c3 :
  is_ascii c1 = true -> is_kelvin_sign c1 c2 c3 = false.
Proof.
  intros H; unfold is_kelvin_sign.
  now rewrite (ascii_eqb_apart c1 "226" H eq_refl).
Qed.

Lemma kelvin_sign_middle c1 c2 c3 :
  is_ascii c2 = true -> is_kelvin_sign c1 c2 c3 = false.
Proof.
  intros H; unfold is_kelvin_sign.
  rewrite (ascii_eqb_apart c2 "132" H eq_refl), andb_false_r; reflexivity.
Qed.

Lemma kelvin_sign_tail c1 c2 c3 :
  is_ascii c3 = true -> is_kelvin_sign c1 c2 c3 = false.
Proof.
  intros H; unfold is_kelvin_sign.
  rewrite (ascii_eqb_apart c3 "170" H eq_refl); apply andb_false_r.
Qed.

Lemma lower_cons_ascii c r :
  is_ascii c = true -> lower (String c r) = String (lower_ascii c) (lower r).
Proof.
  intros H; destruct r as [|c2 [|c3 r3]]; [reflexivity| |].
  - change (lower (String c (String c2 EmptyString)))
      with (if is_dotted_capital_i c c2
            then String "i"%char (String "204"%char (String "135"%char EmptyString))
            else String (lower_ascii c) (lower (String c2 EmptyString))).
    now rewrite dotted_capital_i_lead.
  - change (lower (String c (String c2 (String c3 r3))))
      with (if is_dotted_capital_i c c2
            then String "i"%char
                   (String "204"%char (String "135"%char (lower (String c3 r3))))
            else if is_kelvin_sign c c2 c3 then String "k"%char (lower r3)
                 else String (lower_ascii c) (lower (String c2 (String c3 r3)))).
    now rewrite dotted_capital_i_lead, kelvin_sign_lead.
Qed.

(** Lowering goes through a concatenation whose left part is ASCII. *)
Lemma lower_app_l a b :
  all_ascii a = true -> lower (a ++ b) = lower a ++ lower b.
Proof.
  induction a as [|c a IH]; [reflexivity|].
  intros H; apply andb_prop in H; destruct H as [Hc Ha].
  change (String c a ++ b) with (String c (a ++ b)).
  rewrite !lower_cons_ascii, IH by assumption; reflexivity.
Qed.

(** ... and through one whose right part begins with an ASCII character. *)
Lemma lower_app_r a b :
  starts_ascii b = true -> lower (a ++ b) = lower a ++ lower b.
Proof.
  intros Hb.
  assert (H : forall n a, (String.length a <= n)%nat ->
                          lower (a ++ b) = lower a ++ lower b).
  { clear a; induction n as [|n IH]; intros a Hn.
    - destruct a; [reflexivity|simpl in Hn; lia].
    - destruct a as [|c1 [|c2 r2]]; [reflexivity| |].
      + change (String c1 EmptyString ++ b) with (String c1 b).
        destruct b as [|d [|e b'']]; [reflexivity| |].
        * change (lower (String c1 (String d EmptyString)))
            with (if is_dotted_capital_i c1 d
                  then String "i"%char
                         (String "204"%char (String "135"%char EmptyString))
                  else String (lower_ascii c1) (lower (String d EmptyString))).
          now rewrite (dotted_capital_i_tail c1 d Hb).
        * change (lower (String c1 (String d (String e b''))))
            with (if is_dotted_capital_i c1 d
                  then String "i"%char
                         (String "204"%char
                                 (String "135"%char (lower (String e b''))))
                  else if is_kelvin_sign c1 d e then String "k"%char (lower b'')
                       else String (lower_ascii c1)
                                   (lower (String d (String e b'')))).
          now rewrite (dotted_capital_i_tail c1 d Hb), (kelvin_sign_middle c1 d e Hb).
      + assert (I1 : lower (String c2 r2 ++ b) = lower (String c2 r2) ++ lower b)
          by (apply IH; simpl in *; lia).
        assert (I2 : lower (r2 ++ b) = lower r2 ++ lower b)
          by (apply IH; simpl in *; lia).
        destruct r2 as [|c3 r3].
        * change (String c1 (String c2 EmptyString) ++ b)
            with (String c1 (String c2 b)).
          change (lower (String c1 (String c2 EmptyString)))
            with (if is_dotted_capital_i c1 c2
                  then String "i"%char
                         (String "204"%char (String "135"%char EmptyString))
                  else String (lower_ascii c1) (lower (String c2 EmptyString))).
          change (String c2 EmptyString ++ b) with (String c2 b) in I1.
          destruct b as [|d b'].
          -- change (lower (String c1 (String c2 EmptyString)))
               with (if is_dotted_capital_i c1 c2
                     then String "i"%char
                            (String "204"%char (String "135"%char EmptyString))
                     else String (lower_ascii c1) (lower (String c2 EmptyString))).
             destruct (is_dotted_capital_i c1 c2); reflexivity.
          -- change (lower (String c1 (String c2 (String d b'))))
               with (if is_dotted_capital_i c1 c2
                     then String "i"%char
                            (String "204"%char
                                    (String "135"%char (lower (String d b'))))
                     else if is_kelvin_sign c1 c2 d then String "k"%char (lower b')
                          else String (lower_ascii c1)
                                      (lower (String c2 (String d b')))).
             rewrite (kelvin_sign_tail c1 c2 d Hb).
             destruct (is_dotted_capital_i c1 c2); [reflexivity|].
             now rewrite I1.
        * assert (I3 : lower (r3 ++ b) = lower r3 ++ lower b)
            by (apply IH; simpl in *; lia).
          change (String c1 (String c2 (String c3 r3)) ++ b)
            with (String c1 (String c2 (String c3 (r3 ++ b)))).
          change (lower (String c1 (String c2 (String c3 (r3 ++ b)))))
            with (if is_dotted_capital_i c1 c2
                  then String "i"%char
                         (String "204"%char
                                 (String "135"%char (lower (String c3 (r3 ++ b)))))
                  else if is_kelvin_sign c1 c2 c3
                       then String "k"%char (lower (r3 ++ b))
                       else String (lower_ascii c1)
                                   (lower (String c2 (String c3 (r3 ++ b))))).
          change (lower (String c1 (String c2 (String c3 r3))))
            with (if is_dotted_capital_i c1 c2
                  then String "i"%char
                         (String "204"%char
                                 (String "135"%char (lower (String c3 r3))))
                  else if is_kelvin_sign c1 c2 c3
                       then String "k"%char (lower r3)
                       else String (lower_ascii c1)
                                   (lower (String c2 (String c3 r3)))).
          change (String c3 (r3 ++ b)) with (String c3 r3 ++ b).
          change (String c2 (String c3 r3 ++ b)) with (String c2 (String c3 r3) ++ b).
          destruct (is_dotted_capital_i c1 c2); [now rewrite I2|].
          destruct (is_kelvin_sign c1 c2 c3); [now rewrite I3|now rewrite I1]. }
  apply (H (String.length a)); lia.
Qed.

Lemma lower_letter_is_ascii c : is_lower_letter c = true -> is_ascii c = true.
Proof.
  unfold is_lower_letter, is_ascii; intros H.
  apply andb_prop in H; destruct H as [_ H].
  apply Nat.leb_le in H; apply Nat.ltb_lt; lia.
Qed.

Lemma lower_ascii_letter c1 c :
  is_lower_letter c = true ->
  lower_ascii c1 = c ->
  c1 = c \/ c1 = upper_ascii c.
Proof.
  intros H <-; revert H.
  destruct c1 as [[] [] [] [] [] [] [] []]; vm_compute; intros H;
    first [discriminate H | left; reflexivity | right; reflexivity].
Qed.

Lemma lower_ascii_small c : is_lower_letter c = true -> lower_ascii c = c.
Proof.
  destruct c as [[] [] [] [] [] [] [] []]; vm_compute; intros H;
    first [discriminate H | reflexivity].
Qed.

Lemma lower_ascii_capital c :
  is_lower_letter c = true ->
  lower_ascii (upper_ascii c) = c /\ is_ascii (upper_ascii c) = true.
Proof.
  destruct c as [[] [] [] [] [] [] [] []]; vm_compute; intros H;
    first [discriminate H | split; reflexivity].
Qed.

Lemma lower_spelling c chunk rest :
  is_lower_letter c = true ->
  spells c chunk ->
  lower (chunk ++ rest) = String c (lower rest).
Proof.
  intros Hc Hs; revert Hc; destruct Hs as [d|d|]; intros Hc.
  - change (String d EmptyString ++ rest) with (String d rest).
    rewrite lower_cons_ascii by now apply lower_letter_is_ascii.
    now rewrite lower_ascii_small.
  - destruct (lower_ascii_capital d Hc) as [Hl Ha].
    change (String (upper_ascii d) EmptyString ++ rest)
      with (String (upper_ascii d) rest).
    now rewrite lower_cons_ascii, Hl.
  - reflexivity.
Qed.

Lemma lower_first_letter c1 r1 c w :
  lower_word (String c w) = true ->
  lower (String c1 r1) = String c w ->
  exists chunk rest,
    String c1 r1 = chunk ++ rest /\ spells c chunk /\ lower rest = w.
Proof.
  intros Hw; simpl in Hw; apply andb_prop in Hw; destruct Hw as [Hc Hw].
  assert (Hone : forall r, lower_ascii c1 = c -> lower r = w ->
                   exists chunk rest,
                     String c1 r = chunk ++ rest /\ spells c chunk /\ lower rest = w).
  { intros r E1 E2; exists (String c1 EmptyString), r.
    split; [reflexivity|split; [|exact E2]].
    destruct (lower_ascii_letter c1 c Hc E1) as [->| ->]; constructor. }
  assert (Hdot : forall s,
             String "i"%char (String "204"%char s) = String c w -> False).
  { intros s [= <- <-]; discriminate Hw. }
  destruct r1 as [|c2 [|c3 r3]].
  - intros [= E1 E2]; now apply Hone.
  - change (lower (String c1 (String c2 EmptyString)))
      with (if is_dotted_capital_i c1 c2
            then String "i"%char (String "204"%char (String "135"%char EmptyString))
            else String (lower_ascii c1) (lower (String c2 EmptyString))).
    destruct (is_dotted_capital_i c1 c2); intros E.
    + destruct (Hdot _ E).
    + injection E as E1 E2; now apply Hone.
  - change (lower (String c1 (String c2 (String c3 r3))))
      with (if is_dotted_capital_i c1 c2
            then String "i"%char
                   (String "204"%char (String "135"%char (lower (String c3 r3))))
            else if is_kelvin_sign c1 c2 c3 then String "k"%char (lower r3)
                 else String (lower_ascii c1) (lower (String c2 (String c3 r3)))).
    destruct (is_dotted_capital_i c1 c2); [intros E; destruct (Hdot _ E)|].
    destruct (is_kelvin_sign c1 c2 c3) eqn:K; intros E.
    + injection E as E1 E2; subst c.
      unfold is_kelvin_sign in K.
      apply andb_prop in K; destruct K as [K K3].
      apply andb_prop in K; destruct K as [K1 K2].
      apply Ascii.eqb_eq in K1, K2, K3; subst c1 c2 c3.
      exists kelvin_sign, r3; split; [reflexivity|split; [constructor|exact E2]].
    + injection E as E1 E2; now apply Hone.
Qed.

(** [str.lower] gives the word exactly for its spellings up to letter
    case. *)
Lemma lower_ignoring_case word :
  lower_word word = true ->
  forall name, lower name = word <-> ignoring_case name word.
Proof.
  intros Hw name; split.
  - revert name; induction word as [|c w IH]; intros name E.
    + destruct name as [|c1 r1]; [constructor|].
      exfalso; revert E.
      destruct r1 as [|c2 [|c3 r3]]; [discriminate| |].
      * change (lower (String c1 (String c2 EmptyString)))
          with (if is_dotted_capital_i c1 c2
                then String "i"%char
                       (String "204"%char (String "135"%char EmptyString))
                else String (lower_ascii c1) (lower (String c2 EmptyString))).
        destruct (is_dotted_capital_i c1 c2); discriminate.
      * change (lower (String c1 (String c2 (String c3 r3))))
          with (if is_dotted_capital_i c1 c2
                then String "i"%char
                       (String "204"%char
                               (String "135"%char (lower (String c3 r3))))
                else if is_kelvin_sign c1 c2 c3 then String "k"%char (lower r3)
                     else String (lower_ascii c1)
                                 (lower (String c2 (String c3 r3)))).
        destruct (is_dotted_capital_i c1 c2); [discriminate|].
        destruct (is_kelvin_sign c1 c2 c3); discriminate.
    + destruct name as [|c1 r1]; [discriminate|].
      destruct (lower_first_letter c1 r1 c w Hw E)
        as (chunk & rest & -> & Hs & Hr).
      simpl in Hw; apply andb_prop in Hw; destruct Hw as [_ Hw].
      constructor; [exact Hs|now apply IH].
  - intros H; induction H as [|c chunk name word Hs H IH]; [reflexivity|].
    simpl in Hw; apply andb_prop in Hw; destruct Hw as [Hc Hw].
    rewrite (lower_spelling c chunk name Hc Hs), (IH Hw); reflexivity.
Qed.

(** ** The monad *)

Lemma bind_ok {A B : Type} (c : M A) (k : A -> M B) ax a ax' :
  c ax = (inr a, ax') -> bind c k ax = k a ax'.
Proof. intros H; unfold bind; now rewrite H. Qed.

Lemma bind_err {A B : Type} (c : M A) (k : A -> M B) ax e ax' :
  c ax = (inl e, ax') -> bind c k ax = (inl e, ax').
Proof. intros H; unfold bind; now rewrite H. Qed.

Lemma with_marks_nil ax : with_marks ax [] = ax.
Proof. destruct ax; unfold with_marks; simpl; now rewrite app_nil_r. Qed.

Lemma with_marks_app ax ms ms' :
  with_marks (with_marks ax ms) ms' = with_marks ax (ms ++ ms').
Proof. unfold with_marks; simpl; now rewrite app_assoc. Qed.

Lemma add_mark_run m ax : add_mark m ax = (inr tt, with_marks ax [m]).
Proof. reflexivity. Qed.

Lemma ax_plot_run x y ls mk c a ax :
  List.length x = series_len y ->
  ax_plot x y ls mk c a ax =
  (inr [Line2D (mkMark LineMark x y ls mk c a None)],
   with_marks ax [mkMark LineMark x y ls mk c a None]).
Proof.
  intros H; unfold ax_plot.
  rewrite H, Nat.eqb_refl; reflexivity.
Qed.

Lemma for_each_marks {A : Type} (mk : A -> Mark) (body : A -> M unit) xs :
  (forall x ax, In x xs -> body x ax = (inr tt, with_marks ax [mk x])) ->
  forall ax, for_each xs body ax = (inr tt, with_marks ax (map mk xs)).
Proof.
  induction xs as [|x xs IH]; intros Hb ax; simpl.
  - now rewrite with_marks_nil.
  - rewrite (bind_ok _ _ _ _ _ (Hb x ax (or_introl eq_refl))).
    rewrite IH by (intros; apply Hb; now right).
    now rewrite with_marks_app.
Qed.

(** ** Frames *)

Lemma df_find_in fcst name :
  In name (df_columns fcst) -> exists s, df_find fcst name = Some s.
Proof.
  induction fcst as [|[n s] rest IH]; simpl; [easy|].
  intros [->|H].
  - rewrite String.eqb_refl; eauto.
  - destruct (String.eqb n name); eauto.
Qed.

Lemma df_find_some_in fcst name s :
  df_find fcst name = Some s -> In (name, s) fcst.
Proof.
  induction fcst as [|[n s'] rest IH]; simpl; [easy|].
  destruct (String.eqb_spec n name) as [->|_].
  - intros [= ->]; now left.
  - intros H; right; auto.
Qed.

Lemma wf_frame_len fcst a b sa sb :
  wf_frame fcst ->
  df_find fcst a = Some sa -> df_find fcst b = Some sb ->
  series_len sa = series_len sb.
Proof.
  intros [_ [n Hn]] Ha Hb.
  rewrite Forall_forall in Hn.
  apply df_find_some_in in Ha, Hb.
  pose proof (Hn _ Ha) as Ea; pose proof (Hn _ Hb) as Eb.
  simpl in Ea, Eb; congruence.
Qed.

Lemma df_getitem_column fcst name :
  In name (df_columns fcst) -> df_getitem fcst name = inr (column fcst name).
Proof.
  intros H; destruct (df_find_in _ _ H) as [s Hs].
  unfold df_getitem, column; now rewrite Hs.
Qed.

(** ** plot *)

Lemma forecast_table_ds fcst :
  forecast_table fcst -> df_find fcst "ds" = Some (Datetimes (timestamps fcst)).
Proof.
  intros (_ & [ts Hts] & _); unfold timestamps; now rewrite Hts.
Qed.

Lemma yhat_names_in fcst k i :
  Permutation (yhat_col_names fcst) (yhat_names k) ->
  (i < k)%nat ->
  In (yhat_name (Z.of_nat i + 1)) (df_columns fcst).
Proof.
  intros P Hi.
  assert (Hin : In (yhat_name (Z.of_nat i + 1)) (yhat_names k)).
  { unfold yhat_names; apply in_map_iff; exists (S i); split.
    - f_equal; lia.
    - apply in_seq; lia. }
  apply (Permutation_in _ (Permutation_sym P)) in Hin.
  unfold yhat_col_names in Hin; now apply filter_In in Hin.
Qed.

Lemma timestamps_len fcst name :
  wf_frame fcst ->
  df_find fcst "ds" = Some (Datetimes (timestamps fcst)) ->
  In name (df_columns fcst) ->
  List.length (timestamps fcst) = series_len (column fcst name).
Proof.
  intros WF Hds Hin.
  destruct (df_find_in _ _ Hin) as [s Hs].
  unfold column; rewrite Hs.
  change (List.length (timestamps fcst))
    with (series_len (Datetimes (timestamps fcst))).
  eapply wf_frame_len; eauto.
Qed.

Lemma plot_line_column fcst name ls mk c a ax :
  forecast_table fcst -> In name (df_columns fcst) ->
  bind (lift (df_getitem fcst name))
       (fun y => bind (ax_plot (timestamps fcst) y ls mk c a)
                      (fun _ => ret tt)) ax =
  (inr tt, with_marks ax [mkMark LineMark (timestamps fcst) (column fcst name)
                                 ls mk c a None]).
Proof.
  intros FT Hin.
  rewrite (df_getitem_column _ _ Hin); unfold lift at 1, bind at 1.
  rewrite (bind_ok _ _ _ _ _ (ax_plot_run _ _ _ _ _ _ _
             (timestamps_len _ _ (proj1 FT) (forecast_table_ds _ FT) Hin))).
  reflexivity.
Qed.


Lemma plot_overlays_run fcst k ax :
  forecast_table fcst ->
  Permutation (yhat_col_names fcst) (yhat_names k) ->
  for_each (seq 0 (List.length (yhat_col_names fcst)))
    (fun i =>
       y <- lift (df_getitem fcst (yhat_name (Z.of_nat i + 1))) ;;
       _ <- ax_plot (timestamps fcst) y (Some "-") None "#0072B2"
                    (Some (plot_alpha i)) ;;
       ret tt) ax =
  (inr tt, with_marks ax (map (overlay_mark fcst) (seq 0 k))).
Proof.
  intros FT P.
  assert (Hk : List.length (yhat_col_names fcst) = k).
  { rewrite (Permutation_length P); unfold yhat_names.
    now rewrite length_map, length_seq. }
  rewrite Hk.
  apply (for_each_marks (overlay_mark fcst)).
  intros i ax1 Hi; apply in_seq in Hi.
  apply (plot_line_column fcst); [exact FT|].
  apply (yhat_names_in fcst k); [exact P | lia].
Qed.

(** A highlight index that names no column of the table is a KeyError,
    raised once the overlays are drawn. *)
Lemma plot_highlight_unknown fcst k ax xlabel ylabel h :
  forecast_table fcst ->
  Permutation (yhat_col_names fcst) (yhat_names k) ->
  df_find fcst (yhat_name h) = None ->
  plot fcst ax xlabel ylabel (Some h) =
  (inl (KeyError (yhat_name h)),
   with_marks (ax_or_new ax) (map (overlay_mark fcst) (seq 0 k))).
Proof.
  intros FT P Hh.
  unfold plot, plot_body.
  unfold df_getitem at 1; rewrite (forecast_table_ds _ FT).
  unfold lift at 1, bind at 1.
  unfold dt_to_pydatetime, lift at 1, bind at 1.
  rewrite (bind_ok _ _ _ _ _ (plot_overlays_run fcst k _ FT P)).
  unfold df_getitem at 1; rewrite Hh; reflexivity.
Qed.


Ltac nodup_strings :=
  repeat (constructor; [simpl; intuition discriminate|]); constructor.

Lemma sample_fcst_table : forecast_table sample_fcst.
Proof.
  repeat split.
  - nodup_strings.
  - exists 5%nat; repeat constructor.
  - eexists; reflexivity.
  - eexists; reflexivity.
Defined.


(** ** Masks and broadcasting *)

Lemma notnull_length y : List.length (notnull y) = series_len y.
Proof. destruct y; simpl; now rewrite length_map. Qed.

Lemma mask_select_length {A B : Type} (xs : list A) (ys : list B) mask :
  List.length xs = List.length ys ->
  List.length (mask_select xs mask) = List.length (mask_select ys mask).
Proof.
  revert ys mask; induction xs as [|x xs IH]; intros [|y ys] [|b mask] H;
    simpl in *; try reflexivity; try discriminate.
  injection H as H; destruct b; simpl; auto.
Qed.

Lemma series_mask_length (ts : list Z) y mask :
  List.length ts = series_len y ->
  List.length (mask_select ts mask) = series_len (series_mask y mask).
Proof. destruct y; simpl; apply mask_select_length. Qed.

Lemma broadcast_len_same n : broadcast_len n n = Some n.
Proof. unfold broadcast_len; now rewrite Nat.eqb_refl. Qed.

Lemma broadcast_to_same {A : Type} (xs : list A) :
  broadcast_to (List.length xs) xs = xs.
Proof. destruct xs as [|x [|x' xs]]; reflexivity. Qed.

Lemma series_broadcast_same y : series_broadcast (series_len y) y = y.
Proof. destruct y; simpl; now rewrite broadcast_to_same. Qed.

Lemma draw_run bar x y w c a ax :
  List.length x = series_len y ->
  exists arts,
    draw bar x y w c a ax = (inr arts, with_marks ax [series_mark bar x y w c a]).
Proof.
  intros L; unfold draw, series_mark; destruct bar.
  - unfold ax_bar; rewrite L, broadcast_len_same.
    rewrite series_broadcast_same, <- L, broadcast_to_same.
    eexists; reflexivity.
  - eexists; now apply ax_plot_run.
Qed.

Lemma draw_notnull_run bar ts y c a ax :
  List.length ts = series_len y ->
  exists arts,
    draw_notnull bar ts y c a ax =
    (inr arts,
     with_marks ax [series_mark bar (mask_select ts (notnull y))
                                (series_mask y (notnull y)) 1.00 c a]).
Proof.
  intros L; unfold draw_notnull, index_by_mask.
  rewrite notnull_length, L, Nat.eqb_refl.
  unfold lift at 1, bind at 1.
  apply draw_run, series_mask_length, L.
Qed.

Lemma for_acc_marks {A S : Type} (mk : A -> Mark) (body : A -> S -> M S) xs :
  (forall x s ax, In x xs ->
                  exists s', body x s ax = (inr s', with_marks ax [mk x])) ->
  forall s ax, exists s',
      for_acc xs body s ax = (inr s', with_marks ax (map mk xs)).
Proof.
  induction xs as [|x xs IH]; intros Hb s ax; simpl.
  - exists s; now rewrite with_marks_nil.
  - destruct (Hb x s ax (or_introl eq_refl)) as [s1 E1].
    rewrite (bind_ok _ _ _ _ _ E1).
    destruct (IH (fun y t a H => Hb y t a (or_intror H)) s1
                 (with_marks ax [mk x])) as [s2 E2].
    exists s2; rewrite E2; now rewrite with_marks_app.
Qed.

Lemma mask_pairs ts y :
  List.length ts = series_len y ->
  combine (mask_select ts (notnull y))
          (series_cells (series_mask y (notnull y))) = notnull_pairs ts y.
Proof.
  unfold notnull_pairs; destruct y as [ds|vs]; simpl.
  - revert ts; induction ds as [|d ds IH]; intros [|t ts] H;
      simpl in *; try reflexivity; try discriminate.
    injection H as H; f_equal; auto.
  - revert ts; induction vs as [|v vs IH]; intros [|t ts] H;
      simpl in *; try reflexivity; try discriminate.
    injection H as H; destruct v; simpl; [f_equal|]; auto.
Qed.

(** ** plot_multiforecast_component *)

Lemma has_timestamps_ds fcst :
  has_timestamps fcst -> df_find fcst "ds" = Some (Datetimes (timestamps fcst)).
Proof. intros [ts H]; unfold timestamps; now rewrite H. Qed.

Lemma draw_notnull_column bar fcst name c a ax :
  wf_frame fcst -> has_timestamps fcst -> In name (df_columns fcst) ->
  exists arts,
    draw_notnull bar (timestamps fcst) (column fcst name) c a ax =
    (inr arts,
     with_marks ax
       [series_mark bar
          (mask_select (timestamps fcst) (notnull (column fcst name)))
          (series_mask (column fcst name) (notnull (column fcst name)))
          1.00 c a]).
Proof.
  intros WF HT Hin.
  apply draw_notnull_run, timestamps_len; auto using has_timestamps_ds.
Qed.

Lemma multi_alpha_closed_form i :
  multi_alpha i == 0.2 + 1.2 * 0.8 / (inject_Z (Z.of_nat i) + 1.2).
Proof.
  unfold multi_alpha; cbv zeta.
  assert (H0 : 0 <= inject_Z (Z.of_nat i)).
  { change 0 with (inject_Z 0); rewrite <- Zle_Qle; lia. }
  field; lra.
Qed.

Lemma multi_alpha_decreasing i : multi_alpha (S i) < multi_alpha i.
Proof.
  rewrite !multi_alpha_closed_form.
  rewrite Nat2Z.inj_succ, <- Z.add_1_r, inject_Z_plus.
  assert (H0 : 0 <= inject_Z (Z.of_nat i)).
  { change 0 with (inject_Z 0); rewrite <- Zle_Qle; lia. }
  change (inject_Z 1) with 1.
  apply Qplus_lt_r.
  unfold Qdiv; apply Qmult_lt_l; [reflexivity|].
  apply -> Qinv_lt_contravar; lra.
Qed.

Section MultiForecast.

(** A call whose precondition holds: the table has its timestamps, the
    columns of the [n] overlaid horizons (and of the focus horizon, when
    one is drawn) exist, and [n] does not exceed the number of columns
    carrying the prefix. *)
Variables (fcst : DataFrame) (comp_name : string) (plot_name : option string).
Variables (ax : option Axes) (mult bar : bool) (focus : Z) (n : nat).
Hypothesis WF : wf_frame fcst.
Hypothesis HT : has_timestamps fcst.
Hypothesis Hcols :
  forall i, (i < n)%nat ->
            In (horizon_col comp_name (Z.of_nat i + 1)) (df_columns fcst).
Hypothesis Hn : (n <= List.length (prefix_col_names fcst comp_name))%nat.
Hypothesis Hfocus :
  (1 < focus)%Z -> In (horizon_col comp_name focus) (df_columns fcst).

Let overlays := map (horizon_mark bar fcst comp_name) (rev (seq 0 n)).
Let focused :=
  if (1 <? focus)%Z then [focus_mark bar fcst comp_name focus] else [].

Lemma multiforecast_run :
  exists artists,
    plot_multiforecast_component fcst comp_name plot_name ax mult bar focus
                                 (Some (Z.of_nat n)) =
    (inr artists,
     decorated (ax_or_new ax) (overlays ++ focused)
       (match plot_name with Some p => p | None => comp_name end) mult).
Proof.
  subst overlays focused.
  unfold plot_multiforecast_component, plot_multiforecast_component_body.
  unfold df_getitem at 1; rewrite (has_timestamps_ds _ HT).
  unfold lift at 1, bind at 1; unfold dt_to_pydatetime, lift at 1, bind at 1.
  unfold assert_overplot.
  destruct (Z.leb_spec (Z.of_nat n)
              (Z.of_nat (List.length (prefix_col_names fcst comp_name))));
    [|lia].
  unfold ret at 1, bind at 1.
  rewrite Nat2Z.id.
  destruct (for_acc_marks (horizon_mark bar fcst comp_name)
              (fun i artists =>
                 y <- lift (df_getitem fcst (horizon_col comp_name (Z.of_nat i + 1))) ;;
                 a <- draw_notnull bar (timestamps fcst) y "#0072B2"
                        (Some (multi_alpha i)) ;;
                 ret (artists ++ a)%list)
              (rev (seq 0 n))) with (s := @nil Artist) (ax := ax_or_new ax)
    as [arts1 E1].
  { intros i arts ax1 Hi.
    apply in_rev, in_seq in Hi.
    assert (Hin := Hcols i (proj2 Hi)).
    rewrite (df_getitem_column _ _ Hin); unfold lift at 1, bind at 1.
    destruct (draw_notnull_column bar fcst _ "#0072B2" (Some (multi_alpha i))
                ax1 WF HT Hin) as [a Ea].
    rewrite (bind_ok _ _ _ _ _ Ea); eexists; reflexivity. }
  rewrite (bind_ok _ _ _ _ _ E1); simpl orb.
  destruct (Z.ltb_spec 1 focus) as [Hf|Hf].
  - assert (Hin := Hfocus Hf).
    rewrite (df_getitem_column _ _ Hin); unfold lift at 1, bind at 1.
    destruct (draw_notnull_column bar fcst _ "b" None
                (with_marks (ax_or_new ax)
                   (map (horizon_mark bar fcst comp_name) (rev (seq 0 n))))
                WF HT Hin) as [a Ea].
    unfold bind at 1; unfold bind at 1; rewrite Ea.
    unfold ret at 1; rewrite with_marks_app.
    exists (arts1 ++ a)%list; destruct mult; reflexivity.
  - unfold ret at 1, bind at 1; rewrite app_nil_r.
    exists arts1; destruct mult; reflexivity.
Qed.

(** C3: the overlay loop of [plot_multiforecast_component] draws the
    horizons from index n-1 down to 0, so the horizon-0 series is the last
    overlay mark; the series of horizon index i has
    alpha = 0.2 + 1.2*0.8/(i+1.2), which strictly decreases in i. *)
Theorem multiforecast_alpha_and_order :
  (exists artists ax' later,
      plot_multiforecast_component fcst comp_name plot_name ax mult bar focus
                                   (Some (Z.of_nat n)) = (inr artists, ax') /\
      ax_marks ax' = (ax_marks (ax_or_new ax) ++ overlays ++ later)%list) /\
  (forall j, (j < n)%nat ->
             nth_error overlays j =
             Some (horizon_mark bar fcst comp_name (n - 1 - j))) /\
  ((1 <= n)%nat ->
   exists earlier,
     overlays = (earlier ++ [horizon_mark bar fcst comp_name 0])%list) /\
  (forall i, exists a,
      mark_alpha (horizon_mark bar fcst comp_name i) = Some a /\
      a == 0.2 + 1.2 * 0.8 / (inject_Z (Z.of_nat i) + 1.2)) /\
  (forall i, multi_alpha (S i) < multi_alpha i).
Proof.
  repeat split.
  - destruct multiforecast_run as [arts E].
    do 3 eexists; split; [exact E|reflexivity].
  - intros j Hj; subst overlays.
    rewrite nth_error_map.
    rewrite nth_error_rev, length_seq.
    destruct (Nat.ltb_spec j n); [|lia].
    rewrite nth_error_seq.
    destruct (Nat.ltb_spec (n - S j) n); [|lia].
    simpl; do 2 f_equal; lia.
  - intros Hpos; subst overlays.
    destruct n as [|n']; [lia|].
    simpl seq; simpl rev; rewrite map_app; simpl.
    eexists; reflexivity.
  - intros i; exists (multi_alpha i); split.
    + unfold horizon_mark, series_mark; now destruct bar.
    + apply multi_alpha_closed_form.
  - apply multi_alpha_decreasing.
Qed.

(** C9: every series [plot_multiforecast_component] draws, overlaid or
    focused, shows exactly the (timestamp, value) pairs of the rows where
    its column is not null: null rows are left out, and no pair drawn has
    a null value. *)
Theorem multiforecast_drops_null_rows :
  (exists artists ax',
      plot_multiforecast_component fcst comp_name plot_name ax mult bar focus
                                   (Some (Z.of_nat n)) = (inr artists, ax') /\
      ax_marks ax' = (ax_marks (ax_or_new ax) ++ overlays ++ focused)%list) /\
  (forall i, (i < n)%nat ->
             mark_pairs (horizon_mark bar fcst comp_name i) =
             notnull_pairs (timestamps fcst)
               (column fcst (horizon_col comp_name (Z.of_nat i + 1)))) /\
  ((1 < focus)%Z ->
   mark_pairs (focus_mark bar fcst comp_name focus) =
   notnull_pairs (timestamps fcst) (column fcst (horizon_col comp_name focus))) /\
  Forall (fun m => Forall (fun p => snd p <> None) (mark_pairs m))
         (overlays ++ focused).
Proof.
  assert (Hpairs : forall name c a,
             In name (df_columns fcst) ->
             mark_pairs
               (series_mark bar
                  (mask_select (timestamps fcst) (notnull (column fcst name)))
                  (series_mask (column fcst name) (notnull (column fcst name)))
                  1.00 c a) =
             notnull_pairs (timestamps fcst) (column fcst name)).
  { intros name c a Hin.
    rewrite <- mask_pairs
      by (apply timestamps_len; auto using has_timestamps_ds).
    unfold series_mark; now destruct bar. }
  assert (Hnn : forall ts y,
             Forall (fun p : Z * option Q => snd p <> None) (notnull_pairs ts y)).
  { intros ts y; apply Forall_forall; intros [t [v|]] Hin.
    - simpl; discriminate.
    - unfold notnull_pairs in Hin; apply filter_In in Hin.
      destruct Hin as [_ Hin]; discriminate. }
  split; [|split; [|split]].
  - destruct multiforecast_run as [arts E].
    do 2 eexists; split; [exact E|reflexivity].
  - intros i Hi; apply Hpairs; auto.
  - intros H; apply Hpairs; auto.
  - apply Forall_app; split.
    + subst overlays; apply Forall_forall; intros m Hm.
      apply in_map_iff in Hm; destruct Hm as (i & <- & Hi).
      apply in_rev, in_seq in Hi.
      unfold horizon_mark; rewrite Hpairs by (apply Hcols; lia); apply Hnn.
    + subst focused; destruct (Z.ltb_spec 1 focus); constructor; [|constructor].
      unfold focus_mark; rewrite Hpairs by auto; apply Hnn.
Qed.

End MultiForecast.

Lemma sample_ar_wf : wf_frame sample_ar.
Proof.
  split.
  - nodup_strings.
  - exists 4%nat; repeat constructor.
Defined.

Lemma sample_ar_timestamps : has_timestamps sample_ar.
Proof. eexists; reflexivity. Defined.

Lemma sample_ar_columns :
  forall i, (i < 2)%nat ->
            In (horizon_col "ar" (Z.of_nat i + 1)) (df_columns sample_ar).
Proof.
  intros [|[|i]] H; simpl; auto; lia.
Defined.

Lemma multiforecast_alpha_and_order_witness :
  nth_error (map (horizon_mark false sample_ar "ar") (rev (seq 0 2))) 1 =
  Some (horizon_mark false sample_ar "ar" 0).
Proof.
  refine (proj1 (proj2 (multiforecast_alpha_and_order
                          sample_ar "ar" None None false false 1 2
                          sample_ar_wf sample_ar_timestamps sample_ar_columns
                          _ _)) 1%nat _).
  - simpl; lia.
  - intros H; lia.
  - lia.
Defined.

Lemma multiforecast_drops_null_rows_witness :
  mark_pairs (horizon_mark true sample_ar "ar" 1) =
  [((ts_2017_01_01 + 2 * day_ns)%Z, Some 0.4);
   ((ts_2017_01_01 + 3 * day_ns)%Z, Some (-0.1))].
Proof.
  rewrite (proj1 (proj2 (multiforecast_drops_null_rows
                           sample_ar "ar" None None false true 2 2
                           sample_ar_wf sample_ar_timestamps sample_ar_columns
                           (le_n 2) (fun _ => or_intror (or_intror (or_introl eq_refl)))))
                 1%nat (le_n 2)).
  reflexivity.
Defined.

(** C4: when the requested overlay count exceeds the number of columns
    whose name starts with the component prefix, the call fails at once
    (with the AssertionError of the precondition, on a table that has its
    timestamps) and the axes hold exactly what they held before. *)
Theorem multiforecast_overplot_precondition :
  forall fcst comp_name plot_name ax mult bar focus n,
    (Z.of_nat (List.length (prefix_col_names fcst comp_name)) < n)%Z ->
    plot_multiforecast_component fcst comp_name plot_name ax mult bar focus
                                 (Some n) =
    (inl (ds_error_or fcst AssertionError), ax_or_new ax).
Proof.
  intros fcst comp_name plot_name ax mult bar focus n Hn.
  unfold plot_multiforecast_component, plot_multiforecast_component_body,
    ds_error_or, df_getitem.
  destruct (df_find fcst "ds") as [[ts|vs]|]; try reflexivity.
  unfold lift at 1, bind at 1; unfold dt_to_pydatetime, lift at 1, bind at 1.
  unfold assert_overplot.
  destruct (Z.leb_spec n
              (Z.of_nat (List.length (prefix_col_names fcst comp_name))));
    [lia|reflexivity].
Qed.

Lemma multiforecast_overplot_precondition_witness :
  plot_multiforecast_component sample_ar "ar" None None false true 1 (Some 3%Z) =
  (inl AssertionError, new_axes).
Proof.
  apply (multiforecast_overplot_precondition sample_ar "ar" None None false true
                                             1 3).
  simpl; lia.
Defined.

(** C5: with [num_overplot = None] the call always fails before anything
    is drawn: on a table that has its timestamps the overlay-count
    assertion compares None with an integer (TypeError), so the
    only-plot-focus branch is never reached. *)
Theorem multiforecast_none_overplot_fails :
  forall fcst comp_name plot_name ax mult bar focus,
    plot_multiforecast_component fcst comp_name plot_name ax mult bar focus None =
    (inl (ds_error_or fcst TypeError), ax_or_new ax).
Proof.
  intros fcst comp_name plot_name ax mult bar focus.
  unfold plot_multiforecast_component, plot_multiforecast_component_body,
    ds_error_or, df_getitem.
  destruct (df_find fcst "ds") as [[ts|vs]|]; reflexivity.
Qed.

(** ** Rolling mean *)

Lemma index_range_slice {A : Type} (xs : list A) a b s :
  map snd (filter (fun p => ((a <=? fst p) && (fst p <=? b))%nat)
                  (combine (seq s (List.length xs)) xs)) =
  firstn (b + 1 - Nat.max a s) (skipn (a - s) xs).
Proof.
  revert s; induction xs as [|x xs IH]; intros s; simpl.
  - now rewrite skipn_nil, firstn_nil.
  - destruct (Nat.leb_spec a s) as [Has|Has]; simpl.
    + replace (a - s)%nat with 0%nat by lia; simpl.
      destruct (Nat.leb_spec s b) as [Hsb|Hsb]; simpl.
      * rewrite IH.
        replace (a - S s)%nat with 0%nat by lia; simpl.
        replace (b + 1 - Nat.max a s)%nat with (S (b + 1 - Nat.max a (S s)))
          by lia.
        reflexivity.
      * rewrite IH.
        replace (b + 1 - Nat.max a s)%nat with 0%nat by lia.
        replace (b + 1 - Nat.max a (S s))%nat with 0%nat by lia.
        reflexivity.
    + rewrite IH.
      replace (a - s)%nat with (S (a - S s)) by lia; simpl.
      do 2 f_equal; lia.
Qed.

Lemma observations_app u v :
  observations (u ++ v) = (observations u ++ observations v)%list.
Proof.
  induction u as [|[x|] u IH]; simpl; auto; now rewrite IH.
Qed.

Lemma observations_nulls l :
  Forall (fun c => c = None) l -> observations l = [].
Proof. induction 1 as [|c l -> _ IH]; simpl; auto. Qed.

Lemma Forall_firstn_keep {A : Type} (P : A -> Prop) n l :
  Forall P l -> Forall P (firstn n l).
Proof.
  intros H; revert n; induction H; intros [|n]; simpl; constructor; auto.
Qed.

Lemma trailing_on_padded w xs pad j :
  (1 <= w)%nat -> (j < List.length xs)%nat ->
  Forall (fun c => c = None) pad ->
  observations (trailing_window w (xs ++ pad) (j + center_offset w)) =
  observations (centered_window w xs j).
Proof.
  intros Hw Hj Hpad.
  unfold trailing_window, centered_window, center_offset.
  rewrite index_range_slice, Nat.max_0_r, Nat.sub_0_r.
  assert (Hsplit : (w / 2 + (w - 1) / 2 + 1 = w)%nat).
  { pose proof (Nat.div_mod_eq w 2); pose proof (Nat.div_mod_eq (w - 1) 2).
    pose proof (Nat.mod_upper_bound w 2); pose proof (Nat.mod_upper_bound (w - 1) 2).
    destruct (Nat.eq_dec (w mod 2) 0) as [E|E].
    - assert ((w - 1) mod 2 = 1)%nat.
      { replace (w - 1)%nat with (1 + (w / 2 - 1) * 2)%nat by lia.
        now rewrite Nat.Div0.mod_add. }
      lia.
    - assert ((w - 1) mod 2 = 0)%nat.
      { replace (w - 1)%nat with (0 + (w / 2) * 2)%nat by lia.
        now rewrite Nat.Div0.mod_add. }
      lia. }
  replace (j + (w - 1) / 2 + 1 - w)%nat with (j - w / 2)%nat by lia.
  rewrite skipn_app, firstn_app, observations_app.
  replace (j - w / 2 - List.length xs)%nat with 0%nat by lia.
  rewrite (observations_nulls (firstn _ (skipn 0 pad))), app_nil_r.
  - reflexivity.
  - simpl skipn; now apply Forall_firstn_keep.
Qed.

Lemma nanmean_samples win :
  nanmean 1 win = mean_of_samples (observations win).
Proof.
  unfold nanmean, mean_of_samples.
  destruct (observations win); reflexivity.
Qed.

Lemma rolling_center_length w xs :
  List.length (rolling_center w 1 xs) = List.length xs.
Proof.
  unfold rolling_center, rolling_trailing.
  rewrite length_skipn, length_map, length_seq, length_app, repeat_length.
  lia.
Qed.

Lemma rolling_center_nth w xs j :
  (1 <= w)%nat -> (j < List.length xs)%nat ->
  nth_error (rolling_center w 1 xs) j = Some (centered_mean w xs j).
Proof.
  intros Hw Hj.
  unfold rolling_center, rolling_trailing, centered_mean.
  rewrite nth_error_skipn, nth_error_map, nth_error_seq.
  rewrite length_app, repeat_length.
  destruct (Nat.ltb_spec (center_offset w + j)
                         (List.length xs + center_offset w)); [|lia].
  simpl; f_equal.
  rewrite nanmean_samples, Nat.add_comm.
  f_equal; apply trailing_on_padded; auto.
  clear; induction (center_offset w); simpl; constructor; auto.
Qed.

(** ** plot_forecast_component *)

Lemma observations_slice xs a k :
  observations (firstn k (skipn a xs)) = flat_map (sample_at xs) (seq a k).
Proof.
  revert a; induction k as [|k IH]; intros a; [reflexivity|].
  simpl seq; simpl flat_map.
  rewrite <- IH; unfold sample_at.
  rewrite <- (Nat.add_0_r a) at 2; rewrite <- nth_error_skipn.
  change (S a) with (1 + a)%nat; rewrite <- skipn_skipn.
  destruct (skipn a xs) as [|[v|] rest]; simpl;
    rewrite ?firstn_nil; reflexivity.
Qed.

Lemma fold_left_Qplus l a : fold_left Qplus l a == a + Qsum l.
Proof.
  revert a; induction l as [|x l IH]; intros a; simpl.
  - now rewrite Qplus_0_r.
  - rewrite IH; apply Qplus_assoc || (rewrite Qplus_assoc; reflexivity).
Qed.

Lemma centered_mean_average w xs j :
  same_number (centered_mean w xs j) (average (window_samples w xs j)).
Proof.
  unfold centered_mean, centered_window, window_samples; cbv zeta.
  rewrite index_range_slice, Nat.max_0_r, Nat.sub_0_r, observations_slice.
  destruct (flat_map _ _) as [|v l]; simpl; [exact I|].
  rewrite fold_left_Qplus, Qplus_0_l; reflexivity.
Qed.

(** C6: given a rolling window [w], [plot_forecast_component] first draws
    the underlay (alpha 0.5) and then the raw series on top; at every row
    index the underlay equals the centred rolling mean of the component
    column with window [w] and minimum period 1: the sum of the non-null
    values in the rows [j - w/2 .. j + (w-1)/2] divided by their number
    (at the edges, however many samples fall in the window), null when
    there is none.  Windows 1, 3 and 7 are instances. *)
Theorem forecast_component_rolling_underlay :
  forall fcst comp_name plot_name ax mult bar w vs,
    wf_frame fcst ->
    has_timestamps fcst ->
    df_find fcst comp_name = Some (Floats vs) ->
    (1 <= w)%Z ->
    exists artists underlay,
      plot_forecast_component fcst comp_name plot_name ax mult bar (Some w) =
      (inr artists,
       decorated (ax_or_new ax)
         [series_mark bar (timestamps fcst) (Floats underlay) 1.00 "#0072B2"
                      (Some 0.5);
          series_mark bar (timestamps fcst) (Floats vs) 1.00 "#0072B2" None]
         (match plot_name with Some p => p | None => comp_name end) mult) /\
      List.length underlay = List.length vs /\
      forall j, (j < List.length vs)%nat ->
                exists u,
                  nth_error underlay j = Some u /\
                  same_number u (average (window_samples (Z.to_nat w) vs j)).
Proof.
  intros fcst comp_name plot_name ax mult bar w vs WF HT Hcol Hw.
  assert (Hin : In comp_name (df_columns fcst)).
  { apply df_find_some_in in Hcol.
    unfold df_columns; apply in_map_iff; now exists (comp_name, Floats vs). }
  assert (L : List.length (timestamps fcst) = List.length vs).
  { rewrite (timestamps_len fcst comp_name WF (has_timestamps_ds _ HT) Hin).
    unfold column; now rewrite Hcol. }
  destruct (draw_run bar (timestamps fcst)
              (Floats (rolling_center (Z.to_nat w) 1 vs)) 1.00 "#0072B2"
              (Some 0.5) (ax_or_new ax)) as [a1 E1].
  { simpl; now rewrite rolling_center_length. }
  destruct (draw_run bar (timestamps fcst) (Floats vs) 1.00 "#0072B2" None
              (with_marks (ax_or_new ax)
                 [series_mark bar (timestamps fcst)
                    (Floats (rolling_center (Z.to_nat w) 1 vs)) 1.00 "#0072B2"
                    (Some 0.5)])) as [a2 E2]; [exact L|].
  exists (a1 ++ a2)%list, (rolling_center (Z.to_nat w) 1 vs).
  split; [|split].
  - unfold plot_forecast_component, plot_forecast_component_body.
    unfold df_getitem; rewrite (has_timestamps_ds _ HT), Hcol.
    unfold lift at 1, bind at 1; unfold dt_to_pydatetime, lift at 1, bind at 1.
    unfold rolling_mean.
    destruct (Z.ltb_spec w 1); [lia|].
    unfold bind at 1; unfold bind at 1; unfold lift at 1.
    unfold bind at 1; unfold lift at 1.
    unfold bind at 1; rewrite E1.
    unfold ret at 1; unfold lift at 1, bind at 1.
    unfold bind at 1; rewrite E2.
    rewrite with_marks_app.
    destruct mult; reflexivity.
  - apply rolling_center_length.
  - intros j Hj; exists (centered_mean (Z.to_nat w) vs j); split.
    + apply rolling_center_nth; [lia|exact Hj].
    + apply centered_mean_average.
Qed.

Lemma sample_residuals_wf : wf_frame sample_residuals.
Proof.
  split.
  - nodup_strings.
  - exists 6%nat; repeat constructor.
Defined.

Lemma forecast_component_rolling_underlay_witness :
  exists artists underlay u,
    fst (plot_forecast_component sample_residuals "residuals" None None
                                 false true (Some 3%Z)) = inr artists /\
    nth_error underlay 4 = Some u /\
    same_number u (Some 5).
Proof.
  destruct (forecast_component_rolling_underlay
              sample_residuals "residuals" None None false true 3
              [None; Some 1; Some 2; Some 6; Some 4; None]
              sample_residuals_wf
              (ex_intro _ _ eq_refl) eq_refl)
    as (artists & underlay & E & _ & Hn).
  - lia.
  - destruct (Hn 4%nat) as (u & Hu & Hsame); [simpl; lia|].
    exists artists, underlay, u; split; [now rewrite E|split; [exact Hu|]].
    destruct u as [x|]; [|exact Hsame].
    simpl in Hsame |- *; rewrite Hsame; reflexivity.
Defined.

(** ** plot_lagged_weights *)

Lemma Qsum_nonneg l : Forall (fun x => 0 <= x) l -> 0 <= Qsum l.
Proof.
  induction 1 as [|x l Hx _ IH]; simpl; [apply Qle_refl|].
  change 0 with (0 + 0); now apply Qplus_le_compat.
Qed.

Lemma Qsum_pos l x :
  Forall (fun y => 0 <= y) l -> In x l -> 0 < x -> 0 < Qsum l.
Proof.
  induction 1 as [|y l Hy Hl IH]; simpl; [easy|].
  intros [->|Hin] Hx.
  - pose proof (Qsum_nonneg _ Hl); lra.
  - specialize (IH Hin Hx); lra.
Qed.

Lemma vec_add_length u v :
  List.length u = List.length v -> List.length (vec_add u v) = List.length v.
Proof.
  revert v; induction u as [|x u IH]; intros [|y v] H; simpl in *;
    try discriminate; auto.
Qed.

Lemma Qsum_vec_add u v :
  List.length u = List.length v -> Qsum (vec_add u v) == Qsum u + Qsum v.
Proof.
  revert v; induction u as [|x u IH]; intros [|y v] H; simpl in *;
    try discriminate; [lra|].
  rewrite IH by congruence; lra.
Qed.

Lemma Qsum_zeros n : Qsum (repeat 0 n) == 0.
Proof. induction n; simpl; [reflexivity|]; rewrite IHn; lra. Qed.

Lemma column_sums_length n rows :
  Forall (fun r => List.length r = n) rows ->
  List.length (fold_right vec_add (repeat 0 n) rows) = n.
Proof.
  induction 1 as [|r rows Hr _ IH]; simpl; [apply repeat_length|].
  rewrite vec_add_length; congruence.
Qed.

Lemma column_sums_total n rows :
  Forall (fun r => List.length r = n) rows ->
  Qsum (fold_right vec_add (repeat 0 n) rows) == Qsum (map Qsum rows).
Proof.
  intros H; induction H as [|r rows Hr Hrows IH]; simpl; [apply Qsum_zeros|].
  rewrite Qsum_vec_add, IH; [reflexivity|].
  now rewrite column_sums_length.
Qed.

Lemma vec_add_nonneg u v :
  Forall (fun x => 0 <= x) u -> Forall (fun x => 0 <= x) v ->
  Forall (fun x => 0 <= x) (vec_add u v).
Proof.
  intros Hu; revert v; induction Hu as [|x u Hx _ IH]; intros v Hv; simpl;
    [constructor|].
  destruct Hv as [|y v Hy Hv]; constructor; [lra|auto].
Qed.

Lemma abs_row_nonneg r : Forall (fun x => 0 <= x) (map Qabs r).
Proof. induction r; simpl; constructor; auto using Qabs_nonneg. Qed.

Lemma column_sums_nonneg n rows :
  Forall (fun x => 0 <= x)
         (fold_right vec_add (repeat 0 n) (map (map Qabs) rows)).
Proof.
  induction rows as [|r rows IH]; simpl.
  - induction n; simpl; constructor; auto; apply Qle_refl.
  - apply vec_add_nonneg; auto using abs_row_nonneg.
Qed.

Lemma abs_total_pos rows :
  has_nonzero rows -> 0 < Qsum (map Qsum (map (map Qabs) rows)).
Proof.
  intros (r & x & Hr & Hx & Hnz).
  apply (Qsum_pos _ (Qsum (map Qabs r))).
  - apply Forall_forall; intros t Ht.
    apply in_map_iff in Ht; destruct Ht as (r' & <- & Hr').
    apply in_map_iff in Hr'; destruct Hr' as (r0 & <- & _).
    apply Qsum_nonneg, abs_row_nonneg.
  - apply in_map, in_map, Hr.
  - apply (Qsum_pos _ (Qabs x)).
    + apply abs_row_nonneg.
    + now apply in_map.
    + destruct (Qlt_le_dec 0 (Qabs x)) as [H|H]; [exact H|].
      exfalso; apply Hnz; revert H.
      apply Qabs_case; intros Hs Hle; lra.
Qed.

Lemma Qsum_scaled v d :
  ~ d == 0 -> Qsum (map (fun x => x / d) v) == Qsum v / d.
Proof.
  intros Hd; induction v as [|x v IH]; simpl.
  - now field.
  - rewrite IH; now field.
Qed.

(** The values [plot_lagged_weights] computes for the bar call when no
    focus is given: one per lag (column), non-negative, summing to one. *)
Lemma relevance_normalized n rows :
  wf_ndarray (Matrix n rows) -> has_nonzero rows ->
  exists v,
    relevance (Matrix n rows) = inr (Floats (map Some v)) /\
    List.length v = n /\
    Forall (fun x => 0 <= x) v /\
    Qsum v == 1.
Proof.
  intros WF NZ; simpl in WF.
  set (cs := fold_right vec_add (repeat 0 n) (map (map Qabs) rows)).
  assert (WF' : Forall (fun r => List.length r = n) (map (map Qabs) rows)).
  { apply Forall_forall; intros r Hr.
    apply in_map_iff in Hr; destruct Hr as (r0 & <- & Hr0).
    rewrite Forall_forall in WF; rewrite length_map; auto. }
  assert (Hpos : 0 < Qsum cs).
  { unfold cs; rewrite (column_sums_total _ _ WF'); now apply abs_total_pos. }
  assert (Hnz : ~ Qsum cs == 0) by lra.
  exists (map (fun x => x / Qsum cs) cs); repeat split.
  - unfold relevance; simpl; fold cs.
    rewrite map_map; f_equal; f_equal.
    apply map_ext; intros x; unfold fdiv.
    destruct (Qeq_bool (Qsum cs) 0) eqn:E; [|reflexivity].
    now apply Qeq_bool_iff in E.
  - rewrite length_map; unfold cs; now apply column_sums_length.
  - apply Forall_forall; intros y Hy.
    apply in_map_iff in Hy; destruct Hy as (x & <- & Hx).
    pose proof (column_sums_nonneg n rows) as Hn; rewrite Forall_forall in Hn.
    apply Qle_shift_div_l; [exact Hpos|].
    rewrite Qmult_0_l; now apply Hn.
  - rewrite Qsum_scaled by exact Hnz; now field.
Qed.

Lemma lags_range_length n : List.length (lags_range n) = n.
Proof. unfold lags_range; now rewrite length_rev, length_map, length_seq. Qed.

Lemma broadcast_len_mismatch h l :
  h <> l -> h <> 1%nat -> l <> 1%nat -> broadcast_len h l = None.
Proof.
  intros H1 H2 H3; unfold broadcast_len.
  destruct (Nat.eqb_spec h l); [easy|].
  destruct (Nat.eqb_spec h 1); [easy|].
  destruct (Nat.eqb_spec l 1); easy.
Qed.

(** The lag axis is read from [shape[0]], the number of horizons: on a
    matrix whose two dimensions differ (and are not 1) the positions and
    the values of the bars cannot be matched, and nothing is drawn. *)
Lemma lagged_weights_relevance_mismatch n rows comp_name ax :
  wf_ndarray (Matrix n rows) -> has_nonzero rows ->
  List.length rows <> n -> List.length rows <> 1%nat -> n <> 1%nat ->
  plot_lagged_weights (Matrix n rows) comp_name None ax =
  (inl ValueError, ax_or_new ax).
Proof.
  intros WF NZ H1 H2 H3.
  destruct (relevance_normalized n rows WF NZ) as (v & E & L & _).
  unfold plot_lagged_weights, plot_lagged_weights_body; simpl shape0.
  unfold lift at 1, bind at 1; rewrite E.
  unfold bind at 1; unfold bind at 1; unfold lift at 1.
  unfold bind at 1, ax_bar; simpl series_len.
  rewrite lags_range_length; unfold series_len; rewrite length_map, L.
  now rewrite broadcast_len_mismatch.
Qed.

(** C2: on learned weights for 3 horizons and 4 lags (some entries
    non-zero) and no focus, the value array computed has length 4, but the
    lag positions are taken from the 3 horizons, so the bar call is
    refused and nothing is plotted. *)
Theorem lagged_weights_relevance_3x4 :
  plot_lagged_weights sample_weights "AR" None None =
  (inl ValueError, new_axes) /\
  shape0 sample_weights = inr 3%nat /\
  exists v, relevance sample_weights = inr (Floats v) /\ List.length v = 4%nat.
Proof.
  split; [reflexivity|split; [reflexivity|]].
  eexists; split; reflexivity.
Qed.

Lemma focus_weights_row n rows f r :
  (1 <= f <= Z.of_nat (List.length rows))%Z ->
  nth_error rows (Z.to_nat (f - 1)) = Some r ->
  focus_weights (Matrix n rows) f = inr (Floats (map Some r)).
Proof.
  intros Hf Hr; unfold focus_weights, row_at.
  destruct (Z.ltb_spec (f - 1) 0); [lia|].
  destruct (Z.ltb_spec (f - 1) 0); [lia|].
  destruct (Z.leb_spec (Z.of_nat (List.length rows)) (f - 1)); [lia|].
  simpl; now rewrite Hr.
Qed.

(** With a focus horizon the same lag axis is used: on a matrix whose
    dimensions differ the focused row is computed but cannot be drawn. *)
Lemma lagged_weights_focus_mismatch n rows comp_name f ax :
  wf_ndarray (Matrix n rows) ->
  (1 <= f <= Z.of_nat (List.length rows))%Z ->
  List.length rows <> n -> List.length rows <> 1%nat -> n <> 1%nat ->
  plot_lagged_weights (Matrix n rows) comp_name (Some f) ax =
  (inl ValueError, ax_or_new ax).
Proof.
  intros WF Hf H1 H2 H3; simpl in WF.
  destruct (nth_error rows (Z.to_nat (f - 1))) as [r|] eqn:Hr.
  2:{ apply nth_error_None in Hr; lia. }
  assert (L : List.length r = n).
  { rewrite Forall_forall in WF; apply WF; eapply nth_error_In; eauto. }
  unfold plot_lagged_weights, plot_lagged_weights_body; simpl shape0.
  unfold lift at 1, bind at 1; rewrite (focus_weights_row n rows f r Hf Hr).
  unfold bind at 1; unfold bind at 1; unfold lift at 1.
  unfold bind at 1, ax_bar.
  rewrite lags_range_length; unfold series_len; rewrite length_map, L.
  now rewrite broadcast_len_mismatch.
Qed.

(** On a square matrix the focused row is drawn as it is, signed and not
    normalised, against the lag numbers in reverse order. *)
Lemma lagged_weights_focus_square n rows comp_name f ax :
  wf_ndarray (Matrix n rows) ->
  List.length rows = n ->
  (1 <= f <= Z.of_nat n)%Z ->
  exists r artists,
    nth_error rows (Z.to_nat (f - 1)) = Some r /\
    plot_lagged_weights (Matrix n rows) comp_name (Some f) ax =
    (inr artists,
     mkAxes (ax_marks (ax_or_new ax) ++
             [mkMark BarMark (lags_range n) (Floats (map Some r)) None None
                     "#0072B2" None (Some 0.80)])
            (ax_xformat (ax_or_new ax)) true
            (Some (comp_name ++ " lag number"))
            (Some (comp_name ++ " weight (" ++ str_of_int f ++ ")-ahead"))
            (ax_ypercent (ax_or_new ax))).
Proof.
  intros WF Hsq Hf; simpl in WF.
  destruct (nth_error rows (Z.to_nat (f - 1))) as [r|] eqn:Hr.
  2:{ apply nth_error_None in Hr; lia. }
  assert (L : List.length r = n).
  { rewrite Forall_forall in WF; apply WF; eapply nth_error_In; eauto. }
  exists r; eexists; split; [reflexivity|].
  unfold plot_lagged_weights, plot_lagged_weights_body; simpl shape0.
  unfold lift at 1, bind at 1.
  rewrite (focus_weights_row n rows f r) by (auto; lia).
  unfold bind at 1; unfold bind at 1; unfold lift at 1.
  unfold bind at 1, ax_bar.
  rewrite lags_range_length; unfold series_len; rewrite length_map, L, Hsq.
  rewrite broadcast_len_same.
  replace (series_broadcast n (Floats (map Some r))) with (Floats (map Some r))
    by (rewrite <- (series_broadcast_same (Floats (map Some r))) at 1;
        simpl; now rewrite length_map, L).
  replace (broadcast_to n (lags_range n)) with (lags_range n)
    by (rewrite <- (broadcast_to_same (lags_range n)) at 1;
        now rewrite lags_range_length).
  reflexivity.
Qed.

(** C7: on learned weights for 3 horizons and 4 lags with focus 2, the
    values selected are the row at index 1, raw and signed, but the lag
    positions are taken from the 3 horizons, so the bar call is refused
    and the row is not plotted. *)
Theorem lagged_weights_focus_3x4 :
  plot_lagged_weights sample_weights "AR" (Some 2%Z) None =
  (inl ValueError, new_axes) /\
  focus_weights sample_weights 2 = inr (Floats [Some 1; Some 1; Some 1; Some 1]).
Proof. split; reflexivity. Qed.

(** ** plot_parameters *)

Lemma render_seasonality m ws ys cfg name route ax :
  season_config m = Some cfg ->
  season_route cfg name = inr route ->
  render_panel m ws ys (seasonality_desc name) ax =
  bind (season_renderer m ws ys route name)
       (fun _ => ret (String.eqb (mode cfg) "multiplicative")) ax.
Proof.
  intros Hcfg Hroute.
  unfold render_panel, seasonality_desc; simpl.
  rewrite Hcfg; unfold lift at 1, bind at 1; unfold bind at 1, lift at 1.
  rewrite Hroute; now destruct route.
Qed.

Lemma period_of_in ps name p :
  NoDup (map fst ps) -> In (name, p) ps -> period_of ps name = inr p.
Proof.
  induction ps as [|[n q] rest IH]; simpl; [easy|].
  intros Hnd Hin; inversion Hnd as [|? ? Hn Hrest]; subst.
  destruct Hin as [[= -> ->]|Hin].
  - now rewrite String.eqb_refl.
  - destruct (String.eqb_spec n name) as [->|_]; [|now apply IH].
    exfalso; apply Hn.
    change name with (fst (name, p)); now apply in_map.
Qed.

Lemma season_route_cases cfg name p :
  NoDup (map fst (periods cfg)) ->
  In (name, p) (periods cfg) ->
  let weekly := ignoring_case name "weekly" \/ p == 7 in
  let yearly := ignoring_case name "yearly" \/ p == 365.25 in
  (season_route cfg name = inr RouteWeekly <-> weekly) /\
  (season_route cfg name = inr RouteYearly <-> ~ weekly /\ yearly) /\
  (season_route cfg name = inr RouteCustom <-> ~ weekly /\ ~ yearly).
Proof.
  intros Hnd Hin weekly yearly.
  pose proof (period_of_in _ _ _ Hnd Hin) as Hp.
  assert (Hroute :
    season_route cfg name =
    inr (if String.eqb (lower name) "weekly" then RouteWeekly
         else if Qeq_bool p 7 then RouteWeekly
         else if String.eqb (lower name) "yearly" then RouteYearly
         else if Qeq_bool p 365.25 then RouteYearly
         else RouteCustom)).
  { unfold season_route; rewrite Hp.
    destruct (String.eqb (lower name) "weekly"); [reflexivity|].
    destruct (Qeq_bool p 7); [reflexivity|].
    destruct (String.eqb (lower name) "yearly"); [reflexivity|].
    destruct (Qeq_bool p 365.25); reflexivity. }
  assert (Sw : reflect (ignoring_case name "weekly")
                       (String.eqb (lower name) "weekly")).
  { destruct (String.eqb_spec (lower name) "weekly") as [E|E]; constructor.
    - now apply (lower_ignoring_case "weekly" eq_refl).
    - intros H; apply E; now apply (lower_ignoring_case "weekly" eq_refl). }
  assert (Sy : reflect (ignoring_case name "yearly")
                       (String.eqb (lower name) "yearly")).
  { destruct (String.eqb_spec (lower name) "yearly") as [E|E]; constructor.
    - now apply (lower_ignoring_case "yearly" eq_refl).
    - intros H; apply E; now apply (lower_ignoring_case "yearly" eq_refl). }
  subst weekly yearly.
  pose proof (Qeq_bool_iff p 7) as Q7.
  pose proof (Qeq_bool_iff p 365.25) as Qy.
  rewrite Hroute; clear Hroute.
  repeat split.
  - destruct Sw; [now left|].
    destruct (Qeq_bool p 7); [right; now apply Q7|].
    destruct Sy; [discriminate|].
    destruct (Qeq_bool p 365.25); discriminate.
  - intros [H|H].
    + destruct Sw; [reflexivity|contradiction].
    + apply Q7 in H; rewrite H; now destruct (String.eqb (lower name) "weekly").
  - destruct Sw; [discriminate|].
    destruct (Qeq_bool p 7); [discriminate|].
    intros [Hw|Hw]; [contradiction|]; apply Q7 in Hw; discriminate.
  - destruct Sw; [discriminate|].
    destruct (Qeq_bool p 7); [discriminate|].
    destruct Sy; [now left|].
    destruct (Qeq_bool p 365.25); [right; now apply Qy|discriminate].
  - intros [Hnw Hy].
    destruct Sw; [exfalso; apply Hnw; now left|].
    destruct (Qeq_bool p 7) eqn:E7;
      [exfalso; apply Hnw; right; now apply Q7|].
    destruct Sy; [reflexivity|].
    destruct Hy as [Hy|Hy]; [contradiction|].
    apply Qy in Hy; now rewrite Hy.
  - destruct Sw; [discriminate|].
    destruct (Qeq_bool p 7); [discriminate|].
    intros [Hw|Hw]; [contradiction|]; apply Q7 in Hw; discriminate.
  - destruct Sw; [discriminate|].
    destruct (Qeq_bool p 7); [discriminate|].
    destruct Sy; [discriminate|].
    destruct (Qeq_bool p 365.25); [discriminate|].
    intros [Hy|Hy]; [contradiction|]; apply Qy in Hy; discriminate.
  - intros [Hnw Hny].
    destruct Sw; [exfalso; apply Hnw; now left|].
    destruct (Qeq_bool p 7) eqn:E7;
      [exfalso; apply Hnw; right; now apply Q7|].
    destruct Sy; [exfalso; apply Hny; now left|].
    destruct (Qeq_bool p 365.25) eqn:Ey;
      [exfalso; apply Hny; right; now apply Qy|].
    reflexivity.
Qed.

(** C8: for a seasonality registered under [name] with period [p], the
    dispatcher takes the weekly renderer iff the name is "weekly" up to
    letter case or the period is 7; otherwise the yearly renderer iff the
    name is "yearly" up to letter case or the period is 365.25; otherwise
    the custom renderer.  The panel is drawn by the renderer chosen, with
    the start day of that renderer, and the custom renderer raises
    NotImplementedError on every input, drawing nothing. *)
Theorem seasonality_routing :
  forall cfg name p,
    NoDup (map fst (periods cfg)) ->
    In (name, p) (periods cfg) ->
    let weekly := ignoring_case name "weekly" \/ p == 7 in
    let yearly := ignoring_case name "yearly" \/ p == 365.25 in
    (season_route cfg name = inr RouteWeekly <-> weekly) /\
    (season_route cfg name = inr RouteYearly <-> ~ weekly /\ yearly) /\
    (season_route cfg name = inr RouteCustom <-> ~ weekly /\ ~ yearly) /\
    (forall m ws ys ax,
        season_config m = Some cfg ->
        let mult := String.eqb (mode cfg) "multiplicative" in
        (weekly ->
         render_panel m ws ys (seasonality_desc name) ax =
         bind (plot_weekly m ws name) (fun _ => ret mult) ax) /\
        (~ weekly -> yearly ->
         render_panel m ws ys (seasonality_desc name) ax =
         bind (plot_yearly m ys name) (fun _ => ret mult) ax) /\
        (~ weekly -> ~ yearly ->
         render_panel m ws ys (seasonality_desc name) ax =
         (inl NotImplementedError, ax))) /\
    (forall m comp_name ax,
        plot_custom_season m comp_name ax = (inl NotImplementedError, ax)).
Proof.
  intros cfg name p Hnd Hin weekly yearly.
  destruct (season_route_cases cfg name p Hnd Hin) as (Hw & Hy & Hc).
  fold weekly yearly in Hw, Hy, Hc.
  split; [exact Hw|split; [exact Hy|split; [exact Hc|split]]].
  - intros m ws ys ax Hcfg mult; repeat split.
    + intros H; apply Hw in H.
      now rewrite (render_seasonality m ws ys cfg name RouteWeekly ax Hcfg H).
    + intros H1 H2; assert (H : season_route cfg name = inr RouteYearly)
        by (apply Hy; now split).
      now rewrite (render_seasonality m ws ys cfg name RouteYearly ax Hcfg H).
    + intros H1 H2; assert (H : season_route cfg name = inr RouteCustom)
        by (apply Hc; now split).
      now rewrite (render_seasonality m ws ys cfg name RouteCustom ax Hcfg H).
  - reflexivity.
Qed.

Lemma seasonality_routing_witness :
  NoDup (map fst (periods sample_seasons)) /\
  In ("monthly", 30.5) (periods sample_seasons) /\
  season_route sample_seasons "monthly" = inr RouteCustom /\
  render_panel sample_monthly_model 0 0 (seasonality_desc "monthly") new_axes =
  (inl NotImplementedError, new_axes) /\
  season_route sample_kelvin_seasons sample_kelvin_name = inr RouteWeekly.
Proof.
  assert (Hnd : NoDup (map fst (periods sample_seasons))).
  { repeat constructor; simpl; intros H;
      repeat (destruct H as [H|H]; [discriminate H|]); exact H. }
  assert (Hin : In ("monthly", 30.5) (periods sample_seasons))
    by (simpl; auto).
  assert (Hnw : ~ (ignoring_case "monthly" "weekly" \/ 30.5 == 7)).
  { intros [H|H]; [|discriminate H].
    apply (lower_ignoring_case "weekly" eq_refl) in H; discriminate H. }
  assert (Hny : ~ (ignoring_case "monthly" "yearly" \/ 30.5 == 365.25)).
  { intros [H|H]; [|discriminate H].
    apply (lower_ignoring_case "yearly" eq_refl) in H; discriminate H. }
  destruct (seasonality_routing sample_seasons "monthly" 30.5 Hnd Hin)
    as (_ & _ & Hc & Hr & _).
  split; [exact Hnd|split; [exact Hin|split; [|split]]].
  - apply Hc; now split.
  - now apply (Hr sample_monthly_model 0%Z 0%Z new_axes eq_refl).
  - apply (proj1 (seasonality_routing sample_kelvin_seasons sample_kelvin_name
                                      30.5 (NoDup_cons _ (@in_nil _ _) (NoDup_nil _))
                                      (or_introl eq_refl))).
    left.
    exact (ignoring_case_cons _ _ _ _ (spells_capital "w")
            (ignoring_case_cons _ _ _ _ (spells_capital "e")
              (ignoring_case_cons _ _ _ _ (spells_capital "e")
                (ignoring_case_cons _ _ _ _ spells_kelvin
                  (ignoring_case_cons _ _ _ _ (spells_capital "l")
                    (ignoring_case_cons _ _ _ _ (spells_capital "y")
                      ignoring_case_nil)))))).
Defined.

Lemma render_panels_length m ws ys panels done :
  render_panels m ws ys panels = inr done ->
  List.length done = List.length panels.
Proof.
  revert done; induction panels as [|[ax comp] rest IH]; intros done; simpl.
  - now intros [= <-].
  - destruct (render_panel m ws ys comp ax) as [[e|mult] ax']; [discriminate|].
    destruct (render_panels m ws ys rest) as [e|done']; [discriminate|].
    intros [= <-]; simpl; f_equal; now apply IH.
Qed.

Lemma parameter_components_nonempty m fif : parameter_components m fif <> [].
Proof.
  unfold parameter_components.
  match goal with |- match ?l with _ => _ end <> _ => destruct l end;
    discriminate.
Qed.

(** C10: the descriptor list of [plot_parameters] is never empty, so a
    figure it returns has at least one panel; when the model has zero
    changepoints, no seasonality, zero lags and no covariate, the list is
    the single "Trend" descriptor and the call returns one panel holding
    the two-point trend baseline. *)
Theorem parameters_trend_fallback :
  (forall m fif, parameter_components m fif <> []) /\
  (forall m fif ws ys fig,
      plot_parameters m fif ws ys = inr fig ->
      (1 <= List.length (fig_axes fig))%nat) /\
  (forall m fif ws ys,
      n_changepoints m = 0%Z -> no_seasonalities m ->
      n_lags m = 0%Z -> no_covariates m ->
      parameter_components m fif = [mkParamComp "Trend" None None None] /\
      plot_parameters m fif ws ys = inr (mkFigure [trend_baseline_axes m] true)).
Proof.
  split; [exact parameter_components_nonempty|split].
  - intros m fif ws ys fig; unfold plot_parameters.
    destruct (render_panels m ws ys _) as [e|panels] eqn:E; [discriminate|].
    intros [= <-]; simpl.
    apply render_panels_length in E.
    rewrite length_map, E, length_combine, repeat_length, Nat.min_id.
    pose proof (parameter_components_nonempty m fif).
    destruct (parameter_components m fif); simpl; [contradiction|lia].
  - intros m fif ws ys Hcp Hseas Hlags Hcov.
    assert (Hc : parameter_components m fif = [mkParamComp "Trend" None None None]).
    { unfold parameter_components, no_seasonalities, no_covariates in *.
      rewrite Hcp, Hlags; simpl.
      destruct (season_config m) as [cfg|]; [rewrite Hseas|];
        (destruct (covar_config m) as [names|]; [rewrite Hcov|]); reflexivity. }
    split; [exact Hc|].
    unfold plot_parameters; rewrite Hc; reflexivity.
Qed.

Lemma parameters_trend_fallback_witness :
  plot_parameters sample_trend_model None 0 0 =
  inr (mkFigure [trend_baseline_axes sample_trend_model] true).
Proof.
  apply (proj2 (proj2 parameters_trend_fallback)); reflexivity || exact I.
Defined.

(** * Further properties of the renderers *)

(** ** plot: what is drawn before a column is found missing *)

Lemma for_each_marks_until {A : Type} (mk : A -> Mark) (body : A -> M unit)
      xs x rest e :
  (forall y ax, In y xs -> body y ax = (inr tt, with_marks ax [mk y])) ->
  (forall ax, body x ax = (inl e, ax)) ->
  forall ax,
    for_each (xs ++ x :: rest) body ax = (inl e, with_marks ax (map mk xs)).
Proof.
  intros Hok Herr; induction xs as [|y xs IH]; intros ax; simpl.
  - rewrite (bind_err _ _ _ _ _ (Herr ax)); now rewrite with_marks_nil.
  - rewrite (bind_ok _ _ _ _ _ (Hok y ax (or_introl eq_refl))).
    rewrite IH by (intros; apply Hok; now right).
    now rewrite with_marks_app.
Qed.

Lemma line_column_run fcst name ls mk c a ax :
  wf_frame fcst -> has_timestamps fcst -> In name (df_columns fcst) ->
  bind (lift (df_getitem fcst name))
       (fun y => bind (ax_plot (timestamps fcst) y ls mk c a)
                      (fun _ => ret tt)) ax =
  (inr tt, with_marks ax [mkMark LineMark (timestamps fcst) (column fcst name)
                                 ls mk c a None]).
Proof.
  intros WF HT Hin.
  rewrite (df_getitem_column _ _ Hin); unfold lift at 1, bind at 1.
  rewrite (bind_ok _ _ _ _ _ (ax_plot_run _ _ _ _ _ _ _
             (timestamps_len _ _ WF (has_timestamps_ds _ HT) Hin))).
  reflexivity.
Qed.

Lemma overlay_body_run fcst i ax :
  wf_frame fcst -> has_timestamps fcst ->
  In (yhat_name (Z.of_nat i + 1)) (df_columns fcst) ->
  bind (lift (df_getitem fcst (yhat_name (Z.of_nat i + 1))))
       (fun y => bind (ax_plot (timestamps fcst) y (Some "-") None "#0072B2"
                               (Some (plot_alpha i)))
                      (fun _ => ret tt)) ax =
  (inr tt, with_marks ax [overlay_mark fcst i]).
Proof. intros; now apply line_column_run. Qed.

Lemma highlight_run fcst highlight ax :
  wf_frame fcst -> has_timestamps fcst ->
  match highlight with
  | Some h => In (yhat_name h) (df_columns fcst)
  | None => True
  end ->
  match highlight with
  | Some h =>
      bind (lift (df_getitem fcst (yhat_name h)))
        (fun y => bind (ax_plot (timestamps fcst) y (Some "-") None "b" None)
           (fun _ => bind (lift (df_getitem fcst (yhat_name h)))
              (fun y' => bind (ax_plot (timestamps fcst) y' None (Some "x") "b" None)
                 (fun _ => ret tt))))
  | None => ret tt
  end ax = (inr tt, with_marks ax (highlight_marks fcst highlight)).
Proof.
  intros WF HT Hh; destruct highlight as [h|]; simpl.
  - rewrite (df_getitem_column _ _ Hh).
    pose proof (timestamps_len _ _ WF (has_timestamps_ds _ HT) Hh) as L.
    unfold lift at 1, bind at 1.
    rewrite (bind_ok _ _ _ _ _ (ax_plot_run _ _ _ _ _ _ _ L)).
    unfold lift at 1, bind at 1.
    rewrite (bind_ok _ _ _ _ _ (ax_plot_run _ _ _ _ _ _ _ L)).
    unfold ret; now rewrite with_marks_app.
  - unfold ret; now rewrite with_marks_nil.
Qed.

(** X1: [plot] counts the forecasts by the columns whose name contains
    "yhat" but reads them by the names yhat1, yhat2, ...: when the count
    reaches past the first name that is no column, the call raises
    KeyError for that name, and the axes keep the overlays drawn until
    then (and nothing else). *)
Theorem plot_forecast_column_missing :
  forall fcst ax xlabel ylabel highlight i,
    wf_frame fcst ->
    has_timestamps fcst ->
    (i < List.length (yhat_col_names fcst))%nat ->
    (forall j, (j < i)%nat ->
               In (yhat_name (Z.of_nat j + 1)) (df_columns fcst)) ->
    df_find fcst (yhat_name (Z.of_nat i + 1)) = None ->
    plot fcst ax xlabel ylabel highlight =
    (inl (KeyError (yhat_name (Z.of_nat i + 1))),
     with_marks (ax_or_new ax) (map (overlay_mark fcst) (seq 0 i))).
Proof.
  intros fcst ax xlabel ylabel highlight i WF HT Hi Hbefore Hmiss.
  unfold plot, plot_body.
  unfold df_getitem at 1; rewrite (has_timestamps_ds _ HT).
  unfold lift at 1, bind at 1.
  unfold dt_to_pydatetime, lift at 1, bind at 1.
  replace (seq 0 (List.length (yhat_col_names fcst)))
    with (seq 0 i ++ i :: seq (S i) (List.length (yhat_col_names fcst) - S i))%list.
  2:{ replace (List.length (yhat_col_names fcst))
        with (i + S (List.length (yhat_col_names fcst) - S i))%nat at 2 by lia.
      rewrite seq_app; reflexivity. }
  erewrite (bind_err (for_each _ _)); [reflexivity|].
  apply (for_each_marks_until (overlay_mark fcst)).
  - intros j ax1 Hj; apply in_seq in Hj.
    apply overlay_body_run; auto; apply Hbefore; lia.
  - intros ax1; unfold df_getitem; rewrite Hmiss; reflexivity.
Qed.

Lemma sample_fcst_bounds_wf : wf_frame sample_fcst_bounds.
Proof.
  split.
  - nodup_strings.
  - exists 5%nat; repeat constructor.
Defined.

Lemma plot_forecast_column_missing_witness :
  plot sample_fcst_bounds None "ds" "y" None =
  (inl (KeyError "yhat2"),
   with_marks new_axes [overlay_mark sample_fcst_bounds 0]).
Proof.
  apply (plot_forecast_column_missing sample_fcst_bounds None "ds" "y" None 1).
  - exact sample_fcst_bounds_wf.
  - eexists; reflexivity.
  - simpl; lia.
  - intros [|j] Hj; [simpl; auto|lia].
  - reflexivity.
Defined.

(** X2: a highlight index that names no column of the table makes [plot]
    raise KeyError for it once the overlays are drawn: the axes keep the
    k overlay lines, without the actual values or the axis formatting. *)
Theorem plot_highlight_missing :
  forall fcst k ax xlabel ylabel h,
    forecast_table fcst ->
    Permutation (yhat_col_names fcst) (yhat_names k) ->
    df_find fcst (yhat_name h) = None ->
    plot fcst ax xlabel ylabel (Some h) =
    (inl (KeyError (yhat_name h)),
     with_marks (ax_or_new ax) (map (overlay_mark fcst) (seq 0 k))).
Proof.
  intros fcst k ax xlabel ylabel h FT P Hh.
  now apply plot_highlight_unknown.
Qed.

Lemma plot_highlight_missing_witness :
  plot sample_fcst None "ds" "y" (Some 2%Z) =
  (inl (KeyError "yhat2"), with_marks new_axes [overlay_mark sample_fcst 0]).
Proof.
  apply (plot_highlight_missing sample_fcst 1 None "ds" "y" 2).
  - exact sample_fcst_table.
  - apply Permutation_refl.
  - reflexivity.
Defined.

(** X3: the actual values are read last: on a table without a [y]
    column whose forecasts are all there, [plot] raises KeyError "y"
    after drawing the overlays and the highlight, which stay on the
    axes. *)
Theorem plot_missing_actuals :
  forall fcst k ax xlabel ylabel highlight,
    wf_frame fcst ->
    has_timestamps fcst ->
    Permutation (yhat_col_names fcst) (yhat_names k) ->
    match highlight with
    | Some h => (1 <= h <= Z.of_nat k)%Z
    | None => True
    end ->
    df_find fcst "y" = None ->
    plot fcst ax xlabel ylabel highlight =
    (inl (KeyError "y"),
     with_marks (ax_or_new ax)
       (map (overlay_mark fcst) (seq 0 k) ++ highlight_marks fcst highlight)).
Proof.
  intros fcst k ax xlabel ylabel highlight WF HT P Hh Hy.
  assert (Hk : List.length (yhat_col_names fcst) = k).
  { rewrite (Permutation_length P); unfold yhat_names.
    now rewrite length_map, length_seq. }
  unfold plot, plot_body.
  unfold df_getitem at 1; rewrite (has_timestamps_ds _ HT).
  unfold lift at 1, bind at 1.
  unfold dt_to_pydatetime, lift at 1, bind at 1.
  rewrite Hk.
  erewrite (bind_ok (for_each _ _)); cycle 1.
  { apply (for_each_marks (overlay_mark fcst)).
    intros i ax1 Hi; apply in_seq in Hi.
    apply overlay_body_run; auto.
    apply (yhat_names_in fcst k); [exact P|lia]. }
  assert (Hin : match highlight with
                | Some h => In (yhat_name h) (df_columns fcst)
                | None => True
                end).
  { destruct highlight as [h|]; [|exact I].
    replace h with (Z.of_nat (Z.to_nat (h - 1)) + 1)%Z by lia.
    apply (yhat_names_in fcst k); [exact P|lia]. }
  rewrite (bind_ok _ _ _ _ _ (highlight_run fcst highlight _ WF HT Hin)).
  unfold df_getitem; rewrite Hy.
  unfold lift at 1, bind at 1; now rewrite with_marks_app.
Qed.

Lemma sample_future_wf : wf_frame sample_future.
Proof.
  split.
  - nodup_strings.
  - exists 5%nat; repeat constructor.
Defined.

Lemma plot_missing_actuals_witness :
  fst (plot sample_future None "ds" "y" (Some 1%Z)) = inl (KeyError "y").
Proof.
  rewrite (plot_missing_actuals sample_future 1 None "ds" "y" (Some 1%Z)).
  - reflexivity.
  - exact sample_future_wf.
  - eexists; reflexivity.
  - apply Permutation_refl.
  - lia.
  - reflexivity.
Defined.

(** ** plot_forecast_component: marks and artists *)

Lemma series_cells_length y : List.length (series_cells y) = series_len y.
Proof. destruct y; simpl; [now rewrite length_map|reflexivity]. Qed.

Lemma draw_run_count bar x y w c a ax :
  List.length x = series_len y ->
  exists arts,
    draw bar x y w c a ax = (inr arts, with_marks ax [series_mark bar x y w c a]) /\
    List.length arts = if bar then List.length x else 1%nat.
Proof.
  intros L; unfold draw, series_mark; destruct bar.
  - unfold ax_bar; rewrite L, broadcast_len_same.
    rewrite series_broadcast_same, <- L, broadcast_to_same.
    eexists; split; [reflexivity|].
    rewrite length_map, length_combine, series_cells_length, <- L.
    apply Nat.min_id.
  - eexists; split; [now apply ax_plot_run|reflexivity].
Qed.

(** X4: [plot_forecast_component] on a float column draws one mark for
    the raw series, and one more beneath it when a rolling window is
    given; the artists it returns are one per mark for lines and one per
    row and mark for bars.  The y label is the plot name, or the column
    name when none is given, and the y axis reads as percentages when
    [multiplicative] is set. *)
Theorem forecast_component_artists :
  forall fcst comp_name plot_name ax mult bar rolling vs,
    wf_frame fcst ->
    has_timestamps fcst ->
    df_find fcst comp_name = Some (Floats vs) ->
    match rolling with Some w => (1 <= w)%Z | None => True end ->
    let passes := match rolling with Some _ => 2%nat | None => 1%nat end in
    exists artists ax',
      plot_forecast_component fcst comp_name plot_name ax mult bar rolling =
      (inr artists, ax') /\
      List.length (ax_marks ax') =
      (List.length (ax_marks (ax_or_new ax)) + passes)%nat /\
      List.length artists =
      (passes * (if bar then List.length vs else 1))%nat /\
      ax_ylabel ax' =
      Some (match plot_name with Some p => p | None => comp_name end) /\
      ax_ypercent ax' = (mult || ax_ypercent (ax_or_new ax))%bool.
Proof.
  intros fcst comp_name plot_name ax mult bar rolling vs WF HT Hcol Hw passes.
  assert (Hin : In comp_name (df_columns fcst)).
  { apply df_find_some_in in Hcol.
    unfold df_columns; apply in_map_iff; now exists (comp_name, Floats vs). }
  assert (L : List.length (timestamps fcst) = List.length vs).
  { rewrite (timestamps_len fcst comp_name WF (has_timestamps_ds _ HT) Hin).
    unfold column; now rewrite Hcol. }
  unfold plot_forecast_component, plot_forecast_component_body.
  unfold df_getitem; rewrite (has_timestamps_ds _ HT), Hcol.
  unfold lift at 1, bind at 1; unfold dt_to_pydatetime, lift at 1, bind at 1.
  destruct rolling as [w|]; subst passes.
  - unfold rolling_mean.
    destruct (Z.ltb_spec w 1); [lia|].
    destruct (draw_run_count bar (timestamps fcst)
                (Floats (rolling_center (Z.to_nat w) 1 vs)) 1.00 "#0072B2"
                (Some 0.5) (ax_or_new ax)) as (a1 & E1 & C1).
    { simpl; now rewrite rolling_center_length. }
    destruct (draw_run_count bar (timestamps fcst) (Floats vs) 1.00 "#0072B2"
                None
                (with_marks (ax_or_new ax)
                   [series_mark bar (timestamps fcst)
                      (Floats (rolling_center (Z.to_nat w) 1 vs)) 1.00
                      "#0072B2" (Some 0.5)])) as (a2 & E2 & C2); [exact L|].
    unfold bind at 1; unfold bind at 1; unfold lift at 1.
    unfold bind at 1; unfold lift at 1.
    unfold bind at 1; rewrite E1.
    unfold ret at 1; unfold lift at 1, bind at 1.
    unfold bind at 1; rewrite E2.
    rewrite with_marks_app.
    exists (a1 ++ a2)%list.
    exists (decorated (ax_or_new ax)
              [series_mark bar (timestamps fcst)
                 (Floats (rolling_center (Z.to_nat w) 1 vs)) 1.00 "#0072B2"
                 (Some 0.5);
               series_mark bar (timestamps fcst) (Floats vs) 1.00 "#0072B2" None]
              (match plot_name with Some p => p | None => comp_name end) mult).
    split; [destruct mult; reflexivity|].
    split; [|split; [|split]].
    + simpl; rewrite length_app; simpl; lia.
    + rewrite length_app, C1, C2; destruct bar; lia.
    + reflexivity.
    + now destruct mult.
  - destruct (draw_run_count bar (timestamps fcst) (Floats vs) 1.00 "#0072B2"
                None (ax_or_new ax)) as (a2 & E2 & C2); [exact L|].
    unfold ret at 1, bind at 1; unfold lift at 1, bind at 1.
    unfold bind at 1; rewrite E2.
    exists a2.
    exists (decorated (ax_or_new ax)
              [series_mark bar (timestamps fcst) (Floats vs) 1.00 "#0072B2" None]
              (match plot_name with Some p => p | None => comp_name end) mult).
    split; [destruct mult; reflexivity|].
    split; [|split; [|split]].
    + simpl; rewrite length_app; simpl; lia.
    + rewrite C2; destruct bar; lia.
    + reflexivity.
    + now destruct mult.
Qed.

Lemma forecast_component_artists_witness :
  exists artists ax',
    plot_forecast_component sample_residuals "residuals" (Some "Residuals") None
                            false true (Some 7%Z) = (inr artists, ax') /\
    List.length artists = 12%nat.
Proof.
  destruct (forecast_component_artists
              sample_residuals "residuals" (Some "Residuals") None false true
              (Some 7%Z) [None; Some 1; Some 2; Some 6; Some 4; None]
              sample_residuals_wf (ex_intro _ _ eq_refl) eq_refl)
    as (artists & ax' & E & _ & C & _).
  - lia.
  - exists artists, ax'; split; [exact E|exact C].
Defined.

(** ** plot_multiforecast_component: edges of the overlay loop *)

(** X5: the precondition counts the columns carrying the prefix, not the
    horizon columns themselves: when it holds but the column of the last
    horizon [n] is missing, the call raises KeyError for that column at
    the first turn of the loop, and nothing is drawn. *)
Theorem multiforecast_horizon_column_missing :
  forall fcst comp_name plot_name ax mult bar focus n,
    has_timestamps fcst ->
    (1 <= n)%nat ->
    (n <= List.length (prefix_col_names fcst comp_name))%nat ->
    df_find fcst (horizon_col comp_name (Z.of_nat n)) = None ->
    plot_multiforecast_component fcst comp_name plot_name ax mult bar focus
                                 (Some (Z.of_nat n)) =
    (inl (KeyError (horizon_col comp_name (Z.of_nat n))), ax_or_new ax).
Proof.
  intros fcst comp_name plot_name ax mult bar focus n HT Hpos Hn Hmiss.
  unfold plot_multiforecast_component, plot_multiforecast_component_body.
  unfold df_getitem at 1; rewrite (has_timestamps_ds _ HT).
  unfold lift at 1, bind at 1; unfold dt_to_pydatetime, lift at 1, bind at 1.
  unfold assert_overplot.
  destruct (Z.leb_spec (Z.of_nat n)
              (Z.of_nat (List.length (prefix_col_names fcst comp_name))));
    [|lia].
  unfold ret at 1, bind at 1.
  rewrite Nat2Z.id.
  destruct n as [|n']; [lia|].
  rewrite seq_S, rev_app_distr; simpl rev; simpl app; simpl for_acc.
  replace (Z.of_nat n' + 1)%Z with (Z.of_nat (S n')) by lia.
  unfold df_getitem at 1; rewrite Hmiss.
  reflexivity.
Qed.

Lemma multiforecast_horizon_column_missing_witness :
  plot_multiforecast_component sample_ar_total "ar" None None false true 1
                               (Some 2%Z) =
  (inl (KeyError "ar2"), new_axes).
Proof.
  apply (multiforecast_horizon_column_missing
           sample_ar_total "ar" None None false true 1 2).
  - eexists; reflexivity.
  - lia.
  - simpl; lia.
  - reflexivity.
Defined.

(** X6: an overlay count of zero or less passes the precondition and
    draws no series: with a focus of at most 1 the call returns no artist
    and only sets the date axis, the grid and the labels. *)
Theorem multiforecast_nothing_to_overlay :
  forall fcst comp_name plot_name ax mult bar focus n,
    has_timestamps fcst ->
    (n <= 0)%Z ->
    (focus <= 1)%Z ->
    plot_multiforecast_component fcst comp_name plot_name ax mult bar focus
                                 (Some n) =
    (inr [],
     decorated (ax_or_new ax) []
       (match plot_name with Some p => p | None => comp_name end) mult).
Proof.
  intros fcst comp_name plot_name ax mult bar focus n HT Hn Hf.
  unfold plot_multiforecast_component, plot_multiforecast_component_body.
  unfold df_getitem at 1; rewrite (has_timestamps_ds _ HT).
  unfold lift at 1, bind at 1; unfold dt_to_pydatetime, lift at 1, bind at 1.
  unfold assert_overplot.
  destruct (Z.leb_spec n
              (Z.of_nat (List.length (prefix_col_names fcst comp_name))));
    [|lia].
  unfold ret at 1, bind at 1.
  replace (Z.to_nat n) with 0%nat by lia; simpl for_acc.
  destruct (Z.ltb_spec 1 focus); [lia|].
  unfold decorated; rewrite app_nil_r.
  destruct mult; reflexivity.
Qed.

Lemma multiforecast_nothing_to_overlay_witness :
  plot_multiforecast_component sample_ar "ar" None None false true 1 (Some 0%Z) =
  (inr [], decorated new_axes [] "ar" false).
Proof.
  apply (multiforecast_nothing_to_overlay sample_ar "ar" None None false true 1 0).
  - exact sample_ar_timestamps.
  - lia.
  - lia.
Defined.

(** ** plot_lagged_weights: which arrays it can draw, and what it draws *)

Lemma ax_bar_run x h w c a ax :
  List.length x = series_len h ->
  ax_bar x h w c a ax =
  (inr (map (fun p => Rectangle (fst p) (snd p)) (combine x (series_cells h))),
   with_marks ax [mkMark BarMark x h None None c a (Some w)]).
Proof.
  intros L; unfold ax_bar.
  rewrite L, broadcast_len_same, series_broadcast_same, <- L, broadcast_to_same.
  reflexivity.
Qed.

Lemma relevance_length n rows :
  wf_ndarray (Matrix n rows) ->
  exists vs, relevance (Matrix n rows) = inr (Floats vs) /\ List.length vs = n.
Proof.
  intros WF; simpl in WF.
  eexists; split; [reflexivity|].
  rewrite length_map; apply column_sums_length.
  apply Forall_forall; intros r Hr.
  apply in_map_iff in Hr; destruct Hr as (r0 & <- & Hr0).
  rewrite Forall_forall in WF; rewrite length_map; auto.
Qed.

Lemma row_at_index rows k :
  row_at rows k =
  match py_index (List.length rows) k with
  | Some i => match nth_error rows i with
              | Some r => inr (Vector r)
              | None => inl IndexError
              end
  | None => inl IndexError
  end.
Proof.
  unfold row_at, py_index.
  destruct (Z.ltb_spec k 0) as [Hk|Hk].
  - destruct (Z.leb_spec 0 k); [lia|]; simpl.
    destruct (Z.ltb_spec (k + Z.of_nat (List.length rows)) 0);
      destruct (Z.leb_spec (- Z.of_nat (List.length rows)) k); try lia; simpl.
    + reflexivity.
    + destruct (Z.leb_spec (Z.of_nat (List.length rows))
                           (k + Z.of_nat (List.length rows))); [lia|reflexivity].
  - destruct (Z.leb_spec 0 k); [|lia]; simpl.
    destruct (Z.ltb_spec k 0); [lia|]; simpl.
    destruct (Z.leb_spec (Z.of_nat (List.length rows)) k);
      destruct (Z.ltb_spec k (Z.of_nat (List.length rows))); try lia;
      reflexivity.
Qed.

Lemma py_index_bound len k i : py_index len k = Some i -> (i < len)%nat.
Proof.
  unfold py_index.
  destruct (Z.leb_spec 0 k); destruct (Z.ltb_spec k (Z.of_nat len)); simpl;
    try (intros [= <-]; lia);
    destruct (Z.ltb_spec k 0);
    destruct (Z.leb_spec (- Z.of_nat len) k); simpl;
    try discriminate; intros [= <-]; lia.
Qed.

Lemma lags_range_nth n j :
  (j < n)%nat -> nth_error (lags_range n) j = Some (Z.of_nat (n - j)).
Proof.
  intros Hj; unfold lags_range.
  rewrite nth_error_rev, length_map, length_seq.
  destruct (Nat.ltb_spec j n); [|lia].
  rewrite nth_error_map, nth_error_seq.
  destruct (Nat.ltb_spec (n - S j) n); [|lia].
  simpl; do 2 f_equal; lia.
Qed.

(** X7: without a focus, the values [plot_lagged_weights] computes from
    a matrix with a non-zero entry are one per lag (column): the column
    sums of the absolute weights over all horizons, divided by their
    total; they are non-negative and sum to one. *)
Theorem relevance_values_normalized :
  forall n rows,
    wf_ndarray (Matrix n rows) ->
    has_nonzero rows ->
    exists v,
      relevance (Matrix n rows) = inr (Floats (map Some v)) /\
      List.length v = n /\
      Forall (fun x => 0 <= x) v /\
      Qsum v == 1.
Proof. intros n rows WF NZ; now apply relevance_normalized. Qed.

Lemma sample_weights_nonzero :
  has_nonzero [[1; -2; 3; 4]; [1; 1; 1; 1]; [0; 0; 0; -1]].
Proof.
  exists [1; 1; 1; 1], 1; repeat split.
  - right; left; reflexivity.
  - left; reflexivity.
  - discriminate.
Defined.

Lemma relevance_values_normalized_witness :
  exists v,
    relevance sample_weights = inr (Floats (map Some v)) /\ Qsum v == 1.
Proof.
  destruct (relevance_values_normalized
              4 [[1; -2; 3; 4]; [1; 1; 1; 1]; [0; 0; 0; -1]])
    as (v & E & _ & _ & S).
  - repeat constructor.
  - exact sample_weights_nonzero.
  - exists v; split; [exact E|exact S].
Defined.

(** X8: when every weight is zero the total is zero and the division
    yields no number: each of the values computed for the bars is null. *)
Theorem relevance_of_zero_weights :
  forall n rows,
    wf_ndarray (Matrix n rows) ->
    all_zero rows ->
    relevance (Matrix n rows) = inr (Floats (repeat None n)).
Proof.
  intros n rows WF Z0; simpl in WF.
  set (cs := fold_right vec_add (repeat 0 n) (map (map Qabs) rows)).
  assert (WF' : Forall (fun r => List.length r = n) (map (map Qabs) rows)).
  { apply Forall_forall; intros r Hr.
    apply in_map_iff in Hr; destruct Hr as (r0 & <- & Hr0).
    rewrite Forall_forall in WF; rewrite length_map; auto. }
  assert (Htot : Qsum cs == 0).
  { unfold cs; rewrite (column_sums_total _ _ WF').
    clear WF WF' cs; induction Z0 as [|r rows Hr _ IH]; simpl; [reflexivity|].
    rewrite IH.
    assert (Hz : Qsum (map Qabs r) == 0).
    { clear IH; induction Hr as [|x r Hx _ IHr]; simpl; [reflexivity|].
      rewrite IHr, Hx; reflexivity. }
    rewrite Hz; reflexivity. }
  unfold relevance; simpl; fold cs.
  do 2 f_equal.
  assert (L : List.length cs = n) by (unfold cs; now apply column_sums_length).
  unfold fdiv.
  apply Qeq_bool_iff in Htot; rewrite Htot.
  rewrite <- L; clear; induction cs; simpl; congruence.
Qed.

Lemma relevance_of_zero_weights_witness :
  relevance (Matrix 2 [[0; 0]; [0; 0]; [0; 0]]) = inr (Floats [None; None]).
Proof.
  apply (relevance_of_zero_weights 2 [[0; 0]; [0; 0]; [0; 0]]).
  - repeat constructor.
  - repeat constructor.
Defined.

(** X9: on a square matrix with a non-zero entry and no focus, the
    normalised values are drawn as bars of width 1, the j-th value at lag
    number n - j (the lag numbers run from n down to 1), one rectangle
    per lag is returned, and the y axis is labelled as a relevance in
    percentages. *)
Theorem lagged_weights_relevance_square :
  forall n rows comp_name ax,
    wf_ndarray (Matrix n rows) ->
    has_nonzero rows ->
    List.length rows = n ->
    exists v artists,
      relevance (Matrix n rows) = inr (Floats (map Some v)) /\
      plot_lagged_weights (Matrix n rows) comp_name None ax =
      (inr artists,
       lagged_axes (ax_or_new ax) (lag_bars n (map Some v) 1.00) comp_name
                   (comp_name ++ " relevance") true) /\
      List.length artists = n /\
      forall j, (j < n)%nat ->
                nth_error (lags_range n) j = Some (Z.of_nat (n - j)).
Proof.
  intros n rows comp_name ax WF NZ Hsq.
  destruct (relevance_normalized n rows WF NZ) as (v & E & L & _).
  exists v; eexists; split; [exact E|split; [|split]].
  - unfold plot_lagged_weights, plot_lagged_weights_body; simpl shape0.
    unfold lift at 1, bind at 1; rewrite E, Hsq.
    unfold bind at 1; unfold bind at 1; unfold lift at 1.
    unfold bind at 1.
    rewrite ax_bar_run
      by (rewrite lags_range_length; simpl; now rewrite length_map).
    reflexivity.
  - rewrite ?app_nil_l, length_map, length_combine, lags_range_length.
    simpl; rewrite length_map, L; apply Nat.min_id.
  - intros j Hj; now apply lags_range_nth.
Qed.

Lemma sample_square_nonzero :
  has_nonzero [[1; -2; 1]; [0.5; 0.25; -0.25]; [0; 0; -1]].
Proof.
  exists [1; -2; 1], 1; repeat split.
  - left; reflexivity.
  - left; reflexivity.
  - discriminate.
Defined.

Lemma lagged_weights_relevance_square_witness :
  exists artists ax',
    plot_lagged_weights sample_square "AR" None None = (inr artists, ax') /\
    List.length artists = 3%nat.
Proof.
  destruct (lagged_weights_relevance_square
              3 [[1; -2; 1]; [0.5; 0.25; -0.25]; [0; 0; -1]] "AR" None)
    as (v & artists & _ & E & C & _).
  - repeat constructor.
  - exact sample_square_nonzero.
  - reflexivity.
  - exists artists; eexists; split; [exact E|exact C].
Defined.

Lemma lagged_mismatch_run :
  forall n rows comp_name focus ax,
    wf_ndarray (Matrix n rows) ->
    List.length rows <> n ->
    List.length rows <> 1%nat ->
    n <> 1%nat ->
    match focus with
    | Some f => py_index (List.length rows) (f - 1) <> None
    | None => True
    end ->
    plot_lagged_weights (Matrix n rows) comp_name focus ax =
    (inl ValueError, ax_or_new ax).
Proof.
  intros n rows comp_name focus ax WF H1 H2 H3 Hf.
  assert (Hvals : exists vs,
             match focus with
             | None => relevance (Matrix n rows)
             | Some f => focus_weights (Matrix n rows) f
             end = inr (Floats vs) /\ List.length vs = n).
  { destruct focus as [f|]; [|now apply relevance_length].
    unfold focus_weights; rewrite row_at_index.
    destruct (py_index (List.length rows) (f - 1)) as [i|] eqn:Ei;
      [|contradiction].
    destruct (nth_error rows i) as [r|] eqn:Er.
    - exists (map Some r); split; [reflexivity|].
      rewrite length_map; simpl in WF; rewrite Forall_forall in WF.
      apply WF; eapply nth_error_In; eauto.
    - apply nth_error_None in Er; apply py_index_bound in Ei; lia. }
  destruct Hvals as (vs & E & L).
  unfold plot_lagged_weights, plot_lagged_weights_body; simpl shape0.
  unfold lift at 1, bind at 1.
  destruct focus as [f|]; rewrite E;
    unfold bind at 1; unfold bind at 1; unfold lift at 1;
    unfold bind at 1, ax_bar;
    rewrite lags_range_length; unfold series_len; rewrite L;
    now rewrite broadcast_len_mismatch.
Qed.

(** X10: the lag positions come from the first dimension of the matrix
    (the horizons) and the values from the second (the lags): whenever
    the two differ and neither is 1, the bar call is refused with
    ValueError and nothing is drawn, with no focus as with a focus that
    indexes a row. *)
Theorem lagged_weights_shape_mismatch :
  forall n rows comp_name focus ax,
    wf_ndarray (Matrix n rows) ->
    List.length rows <> n ->
    List.length rows <> 1%nat ->
    n <> 1%nat ->
    match focus with
    | Some f => py_index (List.length rows) (f - 1) <> None
    | None => True
    end ->
    plot_lagged_weights (Matrix n rows) comp_name focus ax =
    (inl ValueError, ax_or_new ax).
Proof. exact lagged_mismatch_run. Qed.

Lemma lagged_weights_shape_mismatch_witness :
  plot_lagged_weights sample_weights "AR" (Some 3%Z) None =
  (inl ValueError, new_axes).
Proof.
  apply (lagged_weights_shape_mismatch
           4 [[1; -2; 3; 4]; [1; 1; 1; 1]; [0; 0; 0; -1]] "AR" (Some 3%Z) None).
  - repeat constructor.
  - simpl; lia.
  - simpl; lia.
  - lia.
  - simpl; discriminate.
Defined.

(** X11: with a focus [f] on a square matrix, the bars are the row of
    index [f - 1] as Python reads it, raw and signed, at width 0.8: row
    [f - 1] for [1 <= f <= n], and, counted from the end, row
    [n + f - 1] for [-n < f <= 0] (a focus of 0 shows the last
    horizon). *)
Theorem lagged_weights_focus_row :
  forall n rows comp_name f ax i,
    wf_ndarray (Matrix n rows) ->
    List.length rows = n ->
    py_index n (f - 1) = Some i ->
    exists r artists,
      nth_error rows i = Some r /\
      plot_lagged_weights (Matrix n rows) comp_name (Some f) ax =
      (inr artists,
       lagged_axes (ax_or_new ax) (lag_bars n (map Some r) 0.80) comp_name
                   (comp_name ++ " weight (" ++ str_of_int f ++ ")-ahead")
                   false) /\
      List.length artists = n.
Proof.
  intros n rows comp_name f ax i WF Hsq Hi; simpl in WF.
  destruct (nth_error rows i) as [r|] eqn:Er.
  2:{ apply nth_error_None in Er; apply py_index_bound in Hi; lia. }
  assert (L : List.length r = n).
  { rewrite Forall_forall in WF; apply WF; eapply nth_error_In; eauto. }
  exists r; eexists; split; [reflexivity|split].
  - unfold plot_lagged_weights, plot_lagged_weights_body; simpl shape0.
    unfold lift at 1, bind at 1.
    unfold focus_weights; rewrite row_at_index, Hsq, Hi, Er; simpl cells_raw.
    unfold bind at 1; unfold bind at 1; unfold lift at 1.
    unfold bind at 1.
    rewrite ax_bar_run
      by (rewrite lags_range_length; simpl; now rewrite length_map).
    reflexivity.
  - rewrite ?app_nil_l, length_map, length_combine, lags_range_length.
    simpl; rewrite length_map, L; apply Nat.min_id.
Qed.

Lemma lagged_weights_focus_row_witness :
  exists artists,
    plot_lagged_weights sample_square "AR" (Some 0%Z) None =
    (inr artists,
     lagged_axes new_axes (lag_bars 3 [Some 0; Some 0; Some (-1)] 0.80) "AR"
                 "AR weight (0)-ahead" false).
Proof.
  destruct (lagged_weights_focus_row
              3 [[1; -2; 1]; [0.5; 0.25; -0.25]; [0; 0; -1]] "AR" 0 None 2)
    as (r & artists & Er & E & _).
  - repeat constructor.
  - reflexivity.
  - reflexivity.
  - injection Er as <-; exists artists; exact E.
Defined.

(** X12: a focus whose row index [f - 1] lies outside the matrix, in
    either direction, raises IndexError before anything is drawn. *)
Theorem lagged_weights_focus_out_of_range :
  forall n rows comp_name f ax,
    py_index (List.length rows) (f - 1) = None ->
    plot_lagged_weights (Matrix n rows) comp_name (Some f) ax =
    (inl IndexError, ax_or_new ax).
Proof.
  intros n rows comp_name f ax Hf.
  unfold plot_lagged_weights, plot_lagged_weights_body; simpl shape0.
  unfold lift at 1, bind at 1.
  unfold focus_weights; rewrite row_at_index, Hf.
  reflexivity.
Qed.

Lemma lagged_weights_focus_out_of_range_witness :
  plot_lagged_weights sample_weights "AR" (Some 4%Z) None =
  (inl IndexError, new_axes).
Proof.
  apply (lagged_weights_focus_out_of_range
           4 [[1; -2; 3; 4]; [1; 1; 1; 1]; [0; 0; 0; -1]] "AR" 4 None).
  reflexivity.
Defined.

(** X13: for a vector of weights and no focus, the sum over the first
    axis is a single number [s], divided by itself: the bar call is given
    one height for all lags, so every lag is drawn with the same height
    [s / s], which is 1 unless all weights are zero. *)
Theorem lagged_weights_vector_relevance :
  forall v comp_name ax,
    let n := List.length v in
    let s := Qsum (map Qabs v) in
    exists artists,
      plot_lagged_weights (Vector v) comp_name None ax =
      (inr artists,
       lagged_axes (ax_or_new ax) (lag_bars n (repeat (fdiv s s) n) 1.00)
                   comp_name (comp_name ++ " relevance") true) /\
      List.length artists = n /\
      (~ s == 0 -> exists q, fdiv s s = Some q /\ q == 1).
Proof.
  intros v comp_name ax n s.
  assert (Hx : broadcast_to n (lags_range n) = lags_range n).
  { rewrite <- (lags_range_length n) at 1; apply broadcast_to_same. }
  assert (Hb : exists k, broadcast_len (List.length (lags_range n)) 1 = Some k
                         /\ k = n).
  { rewrite lags_range_length; unfold broadcast_len.
    destruct (Nat.eqb_spec n 1) as [->|]; simpl; eauto. }
  destruct Hb as (k & Hb & ->).
  eexists; split; [|split].
  - unfold plot_lagged_weights, plot_lagged_weights_body; simpl shape0.
    fold n; unfold lift at 1, bind at 1.
    unfold relevance; simpl; fold s.
    unfold bind at 1; unfold bind at 1; unfold lift at 1.
    unfold bind at 1, ax_bar.
    change (series_len (Floats [fdiv s s])) with 1%nat.
    rewrite Hb; simpl series_broadcast; rewrite Hx.
    reflexivity.
  - rewrite ?app_nil_l, length_map, length_combine, lags_range_length.
    simpl; rewrite repeat_length; apply Nat.min_id.
  - intros Hs; unfold fdiv.
    destruct (Qeq_bool s 0) eqn:E; [apply Qeq_bool_iff in E; contradiction|].
    eexists; split; [reflexivity|now field].
Qed.

Lemma lagged_weights_vector_relevance_witness :
  exists artists q,
    plot_lagged_weights sample_vector "AR" None None =
    (inr artists,
     lagged_axes new_axes (lag_bars 3 [Some q; Some q; Some q] 1.00) "AR"
                 "AR relevance" true) /\ q == 1.
Proof.
  destruct (lagged_weights_vector_relevance [0.5; -1; 0.5] "AR" None)
    as (artists & E & _ & Hq).
  destruct Hq as (q & Eq & Hq1); [discriminate|].
  exists artists, q; split; [|exact Hq1].
  unfold sample_vector; rewrite E.
  cbn [List.length repeat]; rewrite Eq; reflexivity.
Defined.

(** X14: for a vector of weights, a focus only shows in the label: the
    bars are the weights themselves, signed, the j-th at lag number
    n - j, whatever the focus. *)
Theorem lagged_weights_vector_focus :
  forall v comp_name f ax,
    let n := List.length v in
    exists artists,
      plot_lagged_weights (Vector v) comp_name (Some f) ax =
      (inr artists,
       lagged_axes (ax_or_new ax) (lag_bars n (map Some v) 0.80) comp_name
                   (comp_name ++ " weight (" ++ str_of_int f ++ ")-ahead")
                   false) /\
      List.length artists = n.
Proof.
  intros v comp_name f ax n.
  eexists; split.
  - unfold plot_lagged_weights, plot_lagged_weights_body; simpl shape0.
    fold n; unfold lift at 1, bind at 1; simpl focus_weights.
    unfold bind at 1; unfold bind at 1; unfold lift at 1.
    unfold bind at 1.
    rewrite ax_bar_run
      by (rewrite lags_range_length; simpl; now rewrite length_map).
    reflexivity.
  - rewrite ?app_nil_l, length_map, length_combine, lags_range_length.
    simpl; rewrite length_map; apply Nat.min_id.
Qed.

(** ** plot_trend_change *)

Lemma py_range_length a b : List.length (py_range a b) = Z.to_nat (b - a).
Proof. unfold py_range; now rewrite length_map, length_seq. Qed.

Lemma py_range_nth a b j :
  (j < Z.to_nat (b - a))%nat ->
  nth_error (py_range a b) j = Some (a + Z.of_nat j)%Z.
Proof.
  intros Hj; unfold py_range.
  rewrite nth_error_map, nth_error_seq.
  destruct (Nat.ltb_spec j (Z.to_nat (b - a))); [reflexivity|lia].
Qed.

(** X15: when the model holds one trend delta per segment
    (n_changepoints + 1 of them), [plot_trend_change] draws them as bars
    of width 1 over the segment indices 0 .. n_changepoints, returns one
    rectangle per delta and labels the x axis "Trend Segment"; with any
    other number of deltas (more than one) the bar call is refused and
    nothing is drawn. *)
Theorem trend_change_bars :
  forall m plot_name ax,
    let deltas := get_trend_deltas (model m) in
    let segments := py_range 0 (1 + n_changepoints m) in
    (Z.of_nat (List.length deltas) = (1 + n_changepoints m)%Z ->
     exists artists,
       plot_trend_change m plot_name ax =
       (inr artists,
        mkAxes (ax_marks ax ++
                [mkMark BarMark segments (Floats (map Some deltas)) None None
                        "#0072B2" None (Some 1.00)])
               (ax_xformat ax) true (Some "Trend Segment") (Some plot_name)
               (ax_ypercent ax)) /\
       List.length artists = List.length deltas /\
       forall j, (j < List.length deltas)%nat ->
                 nth_error segments j = Some (Z.of_nat j)) /\
    (List.length deltas <> Z.to_nat (1 + n_changepoints m) ->
     (1 < List.length deltas)%nat ->
     Z.to_nat (1 + n_changepoints m) <> 1%nat ->
     plot_trend_change m plot_name ax = (inl ValueError, ax)).
Proof.
  intros m plot_name ax deltas segments; split.
  - intros Hlen.
    assert (L : List.length segments = List.length deltas).
    { unfold segments; rewrite py_range_length; lia. }
    eexists; split; [|split].
    + unfold plot_trend_change; fold deltas segments.
      assert (L' : List.length segments = series_len (Floats (map Some deltas)))
        by (simpl; now rewrite length_map).
      rewrite (bind_ok _ _ _ _ _ (ax_bar_run _ _ 1.00 "#0072B2" None ax L')).
      reflexivity.
    + rewrite ?app_nil_l, length_map, length_combine, L.
      simpl; rewrite length_map; apply Nat.min_id.
    + intros j Hj; unfold segments.
      rewrite py_range_nth by lia; f_equal.
  - intros Hne Hd Hs.
    unfold plot_trend_change; fold deltas segments.
    unfold bind at 1, ax_bar.
    unfold segments; rewrite py_range_length; unfold series_len.
    rewrite length_map, Z.sub_0_r.
    unfold broadcast_len.
    destruct (Nat.eqb_spec (Z.to_nat (1 + n_changepoints m)) (List.length deltas));
      [congruence|].
    destruct (Nat.eqb_spec (Z.to_nat (1 + n_changepoints m)) 1); [contradiction|].
    destruct (Nat.eqb_spec (List.length deltas) 1); [lia|].
    reflexivity.
Qed.

Lemma trend_change_bars_witness :
  exists artists ax',
    plot_trend_change sample_changepoint_model "Trend changepoints" new_axes =
    (inr artists, ax') /\ List.length artists = 4%nat.
Proof.
  destruct (proj1 (trend_change_bars sample_changepoint_model
                                     "Trend changepoints" new_axes))
    as (artists & E & C & _).
  - reflexivity.
  - exists artists; eexists; split; [exact E|exact C].
Defined.

(** ** plot_weekly and plot_yearly *)

Lemma day_name_from_sunday k :
  day_name (ts_2017_01_01 + k * day_ns) = weekday k.
Proof.
  unfold day_name, weekday, ts_2017_01_01.
  rewrite <- Z.mul_add_distr_r, Z.div_mul by discriminate.
  replace (17167 + k + 3)%Z with (k + 6 + 2452 * 7)%Z by lia.
  rewrite Z_mod_plus_full, <- Zplus_mod_idemp_l.
  pose proof (Z.mod_pos_bound k 7 eq_refl) as Hr.
  remember (k mod 7)%Z as r eqn:Er; clear Er.
  assert (Hc : (r = 0 \/ r = 1 \/ r = 2 \/ r = 3 \/ r = 4 \/ r = 5 \/ r = 6)%Z)
    by lia.
  destruct Hc as [->|[->|[->|[->|[->|[->| ->]]]]]]; reflexivity.
Qed.

Lemma date_range_2017_in_bounds n start :
  (-106751 <= start)%Z ->
  (17167 + Z.of_nat n + start <= 106752)%Z ->
  date_range_2017 n start = inr (shifted_days n start).
Proof.
  intros Hlo Hhi; unfold date_range_2017, timedelta_days.
  assert (Hd : in_ns_range (start * day_ns) = true).
  { unfold in_ns_range, day_ns, int64_max.
    apply andb_true_intro; split; apply Z.leb_le; lia. }
  rewrite Hd; unfold shift_dates.
  assert (Hs : forallb (fun t => in_ns_range (t + start * day_ns))
                       (date_range ts_2017_01_01 n) = true).
  { apply forallb_forall; intros t Hin.
    unfold date_range in Hin; apply in_map_iff in Hin.
    destruct Hin as (k & <- & Hk); apply in_seq in Hk.
    unfold in_ns_range, ts_2017_01_01, day_ns, int64_max.
    apply andb_true_intro; split; apply Z.leb_le; lia. }
  rewrite Hs; f_equal.
  unfold date_range, shifted_days; rewrite map_map.
  apply map_ext; intros j.
  generalize ts_2017_01_01 day_ns; intros t d; ring.
Qed.

Lemma date_range_2017_out_of_bounds n start :
  (start < -106751 \/ 106751 < start)%Z ->
  date_range_2017 n start = inl OutOfBoundsError.
Proof.
  intros Hout; unfold date_range_2017, timedelta_days.
  assert (Hd : in_ns_range (start * day_ns) = false).
  { unfold in_ns_range, day_ns, int64_max.
    apply andb_false_iff; rewrite !Z.leb_gt; lia. }
  now rewrite Hd.
Qed.

Lemma shifted_days_length n start : List.length (shifted_days n start) = n.
Proof. unfold shifted_days; now rewrite length_map, length_seq. Qed.

Lemma shifted_days_nth n start j :
  (j < n)%nat ->
  nth_error (shifted_days n start) j =
  Some (ts_2017_01_01 + (Z.of_nat j + start) * day_ns)%Z.
Proof.
  intros Hj; unfold shifted_days.
  rewrite nth_error_map, nth_error_seq.
  destruct (Nat.ltb_spec j n); [|lia].
  reflexivity.
Qed.

Lemma shifted_days_day_names n start :
  map day_name (shifted_days n start) =
  map (fun j => weekday (Z.of_nat j + start)) (seq 0 n).
Proof.
  unfold shifted_days; rewrite map_map.
  apply map_ext; intros j.
  apply day_name_from_sunday.
Qed.

(** X16: for a start that pandas can add to the seven days from
    2017-01-01 (from -106751 up to 89578 days), and a seasonal evaluator
    that answers the 7-day query with 7 values for the component,
    [plot_weekly] draws them as one line over the positions 0..6 and
    labels position j with the day of the week j + weekly_start days after
    a Sunday: a start of 0 begins the week on Sunday, 1 on Monday, and so
    on.  The y axis reads as percentages exactly when the seasonality mode
    is multiplicative.  A start beyond 106751 days either way is no
    Timedelta: the call raises before the model is asked and before
    anything is drawn. *)
Theorem weekly_line_and_labels :
  forall m weekly_start comp_name ax,
    ((-106751 <= weekly_start <= 89578)%Z ->
     forall cfg y,
       season_config m = Some cfg ->
       df_find (predict_seasonal_components m (season_query 7 weekly_start))
               comp_name = Some y ->
       series_len y = 7%nat ->
       let mk := season_line [0; 1; 2; 3; 4; 5; 6]%Z y in
       let labels :=
         map (fun j => weekday (Z.of_nat j + weekly_start)) (seq 0 7) in
       plot_weekly m weekly_start comp_name ax =
       (inr [Line2D mk],
        season_axes ax mk (XLabels labels) "Day of week" comp_name
                    (String.eqb (mode cfg) "multiplicative"))) /\
    ((weekly_start < -106751 \/ 106751 < weekly_start)%Z ->
     exists e, plot_weekly m weekly_start comp_name ax = (inl e, ax)).
Proof.
  intros m weekly_start comp_name ax; split.
  - intros Hr cfg y Hcfg Hy Hlen mk labels.
    unfold plot_weekly.
    rewrite (date_range_2017_in_bounds 7 weekly_start) by lia.
    unfold lift at 1, bind at 1.
    change [("ds", Datetimes (shifted_days 7 weekly_start))]
      with (season_query 7 weekly_start).
    unfold df_getitem; rewrite Hy.
    unfold lift at 1, bind at 1.
    rewrite shifted_days_day_names; fold labels.
    assert (Hx : py_range 0 (Z.of_nat (List.length labels)) =
                 [0; 1; 2; 3; 4; 5; 6]%Z) by reflexivity.
    rewrite Hx.
    rewrite (bind_ok _ _ _ _ _
               (ax_plot_run [0; 1; 2; 3; 4; 5; 6]%Z y (Some "-") None "#0072B2"
                            None ax (eq_sym Hlen))).
    unfold season_is_multiplicative; rewrite Hcfg.
    destruct (String.eqb (mode cfg) "multiplicative"); reflexivity.
  - intros Hout; exists OutOfBoundsError.
    unfold plot_weekly.
    now rewrite (date_range_2017_out_of_bounds 7 weekly_start Hout).
Qed.

Lemma weekly_line_and_labels_witness :
  (-106751 <= 1 <= 89578)%Z /\
  plot_weekly sample_weekly_model 1 "weekly" new_axes =
  (inr [Line2D (season_line [0; 1; 2; 3; 4; 5; 6]%Z sample_weekly_profile)],
   season_axes new_axes
               (season_line [0; 1; 2; 3; 4; 5; 6]%Z sample_weekly_profile)
               (XLabels ["Monday"; "Tuesday"; "Wednesday"; "Thursday";
                         "Friday"; "Saturday"; "Sunday"])
               "Day of week" "weekly" true).
Proof.
  assert (Hr : (-106751 <= 1 <= 89578)%Z) by lia.
  split; [exact Hr|].
  exact (proj1 (weekly_line_and_labels sample_weekly_model 1 "weekly" new_axes)
               Hr (mkSeasonConfig "multiplicative" [("weekly", 7)])
               sample_weekly_profile eq_refl eq_refl eq_refl).
Defined.

(** X17: for a start that pandas can add to the 365 days from 2017-01-01
    (from -106751 up to 89220 days), and a seasonal evaluator that answers
    the 365-day query with 365 values for the component, [plot_yearly]
    draws them as one line over 365 consecutive days, the j-th being
    j + yearly_start days after 2017-01-01, with month ticks; the y axis
    reads as percentages exactly when the seasonality mode is
    multiplicative.  A start beyond 106751 days either way is no
    Timedelta: the call raises before the model is asked and before
    anything is drawn. *)
Theorem yearly_line_and_dates :
  forall m yearly_start comp_name ax,
    ((-106751 <= yearly_start <= 89220)%Z ->
     forall cfg y,
       season_config m = Some cfg ->
       df_find (predict_seasonal_components m (season_query 365 yearly_start))
               comp_name = Some y ->
       series_len y = 365%nat ->
       let days := shifted_days 365 yearly_start in
       let mk := season_line days y in
       plot_yearly m yearly_start comp_name ax =
       (inr [Line2D mk],
        season_axes ax mk XMonths "Day of year" comp_name
                    (String.eqb (mode cfg) "multiplicative")) /\
       List.length days = 365%nat /\
       forall j, (j < 365)%nat ->
                 nth_error days j =
                 Some (ts_2017_01_01 + (Z.of_nat j + yearly_start) * day_ns)%Z) /\
    ((yearly_start < -106751 \/ 106751 < yearly_start)%Z ->
     exists e, plot_yearly m yearly_start comp_name ax = (inl e, ax)).
Proof.
  intros m yearly_start comp_name ax; split.
  - intros Hr cfg y Hcfg Hy Hlen days mk.
    assert (Ld : List.length days = 365%nat) by apply shifted_days_length.
    split; [|split; [exact Ld|]].
    + unfold plot_yearly.
      rewrite (date_range_2017_in_bounds 365 yearly_start) by lia.
      unfold lift at 1, bind at 1; fold days.
      change [("ds", Datetimes days)] with (season_query 365 yearly_start).
      change (df_getitem (season_query 365 yearly_start) "ds")
        with (@inr exn Series (Datetimes days)).
      unfold lift at 1, bind at 1; unfold dt_to_pydatetime, lift at 1, bind at 1.
      unfold df_getitem; rewrite Hy.
      unfold lift at 1, bind at 1.
      rewrite (bind_ok _ _ _ _ _ (ax_plot_run days y (Some "-") None "#0072B2"
                                               None ax (eq_trans Ld (eq_sym Hlen)))).
      unfold season_is_multiplicative; rewrite Hcfg.
      destruct (String.eqb (mode cfg) "multiplicative"); reflexivity.
    + intros j Hj; now apply shifted_days_nth.
  - intros Hout; exists OutOfBoundsError.
    unfold plot_yearly.
    now rewrite (date_range_2017_out_of_bounds 365 yearly_start Hout).
Qed.

Lemma yearly_line_and_dates_witness :
  (-106751 <= 31 <= 89220)%Z /\
  plot_yearly sample_yearly_model 31 "yearly" new_axes =
  (inr [Line2D (season_line (shifted_days 365 31) sample_yearly_profile)],
   season_axes new_axes (season_line (shifted_days 365 31) sample_yearly_profile)
               XMonths "Day of year" "yearly" false) /\
  nth_error (shifted_days 365 31) 0 = Some (17198 * day_ns)%Z.
Proof.
  assert (Hr : (-106751 <= 31 <= 89220)%Z) by lia.
  split; [exact Hr|].
  destruct (proj1 (yearly_line_and_dates sample_yearly_model 31 "yearly" new_axes)
                  Hr (mkSeasonConfig "additive" [("yearly", 365.25)])
                  sample_yearly_profile eq_refl eq_refl eq_refl)
    as (E & _ & Hn).
  split; [exact E|].
  rewrite (Hn 0%nat) by lia; reflexivity.
Defined.

(** ** plot_parameters: panels and failures *)

Lemma lagged_descs_length name w fif :
  List.length (lagged_descs name w fif) = panels_per_source fif.
Proof. now destruct fif. Qed.

Lemma flat_map_const_length {A B : Type} (f : A -> list B) k l :
  (forall a, List.length (f a) = k) ->
  List.length (flat_map f l) = (List.length l * k)%nat.
Proof.
  intros Hf; induction l as [|a l IH]; simpl; [reflexivity|].
  now rewrite length_app, Hf, IH.
Qed.

Lemma parameter_components_length m fif :
  List.length (parameter_components m fif) =
  Nat.max 1 (configured_panels m fif).
Proof.
  unfold parameter_components.
  match goal with
  | |- List.length (match ?l with _ => _ end) = _ =>
      assert (Hl : List.length l = configured_panels m fif);
      [|destruct l; cbn [List.length] in *; lia]
  end.
  unfold configured_panels.
  rewrite !length_app.
  destruct (0 <? n_changepoints m)%Z; destruct (season_config m);
    destruct (0 <? n_lags m)%Z; destruct (covar_config m);
    rewrite ?length_map, ?lagged_descs_length,
      ?(flat_map_const_length _ (panels_per_source fif))
      by (intros; apply lagged_descs_length);
    simpl; lia.
Qed.

Lemma configured_panels_count m fif :
  Nat.max 1 (configured_panels m fif) =
  panel_count (Z.to_nat (n_changepoints m)) (n_seasonalities m)
              (Z.to_nat (n_lags m)) (n_covariates m) (is_given fif).
Proof.
  unfold configured_panels, panel_count, n_seasonalities, n_covariates,
    panels_per_source, is_given.
  destruct (Z.ltb_spec 0 (n_changepoints m)); destruct (season_config m);
    destruct (Z.ltb_spec 0 (n_lags m)); destruct (covar_config m);
    destruct fif; cbv zeta; lia.
Qed.

(** X18: the number of panels follows from four numbers of the model and
    from whether a forecast is in focus: [plot_parameters] builds one
    descriptor for the changepoints (when there are any), one per
    seasonality, and one panel of lagged weights for the auto-regression
    (when there are lags) and for each covariate, each doubled when a
    forecast is in focus; when that makes none, the single trend panel.
    A figure it returns has exactly that many panels. *)
Theorem parameters_panel_count :
  forall m fif ws ys,
    let expected :=
      panel_count (Z.to_nat (n_changepoints m)) (n_seasonalities m)
                  (Z.to_nat (n_lags m)) (n_covariates m) (is_given fif) in
    List.length (parameter_components m fif) = expected /\
    forall fig,
      plot_parameters m fif ws ys = inr fig ->
      List.length (fig_axes fig) = expected.
Proof.
  intros m fif ws ys expected.
  assert (Hlen : List.length (parameter_components m fif) = expected).
  { unfold expected; rewrite <- configured_panels_count.
    apply parameter_components_length. }
  split; [exact Hlen|].
  intros fig; unfold plot_parameters.
  destruct (render_panels m ws ys _) as [e|panels] eqn:E; [discriminate|].
  intros [= <-]; simpl.
  apply render_panels_length in E.
  rewrite length_map, E, length_combine, repeat_length, Nat.min_id.
  exact Hlen.
Qed.

Lemma parameters_panel_count_witness :
  exists fig,
    plot_parameters sample_full_model (Some 2%Z) 1 0 = inr fig /\
    List.length (fig_axes fig) = panel_count 3 2 3 1 true /\
    panel_count 3 2 3 1 true = 7%nat.
Proof.
  pose (fig := match plot_parameters sample_full_model (Some 2%Z) 1 0 with
               | inr f => f
               | inl _ => mkFigure [] false
               end).
  assert (E : plot_parameters sample_full_model (Some 2%Z) 1 0 = inr fig)
    by (vm_compute; reflexivity).
  exists fig; split; [exact E|split; [|reflexivity]].
  exact (proj2 (parameters_panel_count sample_full_model (Some 2%Z) 1 0) fig E).
Defined.

Lemma combine_repeat_snd {A B : Type} (a : A) (l : list B) :
  map snd (combine (repeat a (List.length l)) l) = l.
Proof. induction l; simpl; congruence. Qed.

Lemma render_panels_fails m ws ys comp panels :
  (forall ax, exists e ax', render_panel m ws ys comp ax = (inl e, ax')) ->
  In comp (map snd panels) ->
  exists e, render_panels m ws ys panels = inl e.
Proof.
  intros Hfail; induction panels as [|[ax c] rest IH]; simpl; [easy|].
  intros [->|Hin].
  - destruct (Hfail ax) as (e & ax' & ->); eauto.
  - destruct (render_panel m ws ys c ax) as [[e|mult] ax']; [eauto|].
    destruct (IH Hin) as [e ->]; eauto.
Qed.

Lemma parameters_fail_on m fif ws ys comp :
  (forall ax, exists e ax', render_panel m ws ys comp ax = (inl e, ax')) ->
  In comp (parameter_components m fif) ->
  exists e, plot_parameters m fif ws ys = inl e.
Proof.
  intros Hfail Hin; unfold plot_parameters.
  destruct (render_panels_fails m ws ys comp
              (combine (repeat new_axes (List.length (parameter_components m fif)))
                       (parameter_components m fif)) Hfail) as [e ->].
  - now rewrite combine_repeat_snd.
  - eauto.
Qed.

Ltac in_raw_components :=
  unfold parameter_components;
  match goal with
  | |- In ?c (match ?l with _ => _ end) =>
      let H := fresh "Hraw" in
      assert (H : In c l); [|destruct l; [contradiction|exact H]]
  end.

Lemma seasonality_in_components m fif cfg name :
  season_config m = Some cfg ->
  In name (map fst (periods cfg)) ->
  In (seasonality_desc name) (parameter_components m fif).
Proof.
  intros Hcfg Hin; in_raw_components.
  apply in_or_app; right; apply in_or_app; left.
  rewrite Hcfg.
  apply in_map_iff in Hin; destruct Hin as ([n p] & <- & Hp).
  apply in_map_iff; exists (n, p); split; [reflexivity|exact Hp].
Qed.

Lemma ar_in_components m fif :
  (0 < n_lags m)%Z ->
  In (lagged_desc "AR" (ar_weights (model m)) None) (parameter_components m fif).
Proof.
  intros Hlags; in_raw_components.
  apply in_or_app; right; apply in_or_app; right; apply in_or_app; left.
  destruct (Z.ltb_spec 0 (n_lags m)); [|lia].
  left; reflexivity.
Qed.

(** X19: a seasonality that is neither weekly nor yearly leaves
    [plot_parameters] without a figure: whenever the model registers a
    seasonality whose name is neither "weekly" nor "yearly" up to letter
    case and whose period is neither 7 nor 365.25, the call ends in an
    exception, whatever else is configured. *)
Theorem parameters_custom_season_fails :
  forall m fif ws ys cfg name p,
    season_config m = Some cfg ->
    NoDup (map fst (periods cfg)) ->
    In (name, p) (periods cfg) ->
    ~ ignoring_case name "weekly" -> ~ p == 7 ->
    ~ ignoring_case name "yearly" -> ~ p == 365.25 ->
    exists e, plot_parameters m fif ws ys = inl e.
Proof.
  intros m fif ws ys cfg name p Hcfg Hnd Hin Hw Hw' Hy Hy'.
  assert (Hroute : season_route cfg name = inr RouteCustom).
  { apply (season_route_cases cfg name p Hnd Hin); split; intros [H|H]; auto. }
  apply (parameters_fail_on m fif ws ys (seasonality_desc name)).
  - intros ax; exists NotImplementedError, ax.
    now rewrite (render_seasonality m ws ys cfg name RouteCustom ax Hcfg Hroute).
  - apply (seasonality_in_components m fif cfg); [exact Hcfg|].
    change name with (fst (name, p)); now apply in_map.
Qed.

Lemma parameters_custom_season_fails_witness :
  exists e, plot_parameters sample_monthly_model None 0 0 = inl e.
Proof.
  apply (parameters_custom_season_fails sample_monthly_model None 0 0
                                        sample_seasons "monthly" 30.5).
  - reflexivity.
  - repeat constructor; simpl; intros H;
      repeat (destruct H as [H|H]; [discriminate H|]); exact H.
  - simpl; auto.
  - intros H; apply (lower_ignoring_case "weekly" eq_refl) in H; discriminate H.
  - discriminate.
  - intros H; apply (lower_ignoring_case "yearly" eq_refl) in H; discriminate H.
  - discriminate.
Defined.

(** X20: the auto-regression weights have one row per forecast and one
    column per lag; whenever the model has lags and those two numbers
    differ (neither being 1), the lagged-weights panel cannot be drawn
    and [plot_parameters] ends in an exception instead of a figure. *)
Theorem parameters_ar_shape_fails :
  forall m fif ws ys n rows,
    (0 < n_lags m)%Z ->
    ar_weights (model m) = Matrix n rows ->
    wf_ndarray (Matrix n rows) ->
    List.length rows <> n ->
    List.length rows <> 1%nat ->
    n <> 1%nat ->
    exists e, plot_parameters m fif ws ys = inl e.
Proof.
  intros m fif ws ys n rows Hlags Hw WF H1 H2 H3.
  apply (parameters_fail_on m fif ws ys (lagged_desc "AR" (Matrix n rows) None)).
  - intros ax; exists ValueError, ax.
    unfold render_panel, lagged_desc; simpl.
    unfold lift at 1, bind at 1; unfold lift at 1, bind at 1.
    unfold lift at 1, bind at 1.
    pose proof (lagged_mismatch_run n rows "AR" None (Some ax) WF H1 H2 H3 I)
      as E.
    unfold plot_lagged_weights in E; simpl ax_or_new in E.
    unfold bind at 1; now rewrite E.
  - rewrite <- Hw; now apply ar_in_components.
Qed.

Lemma parameters_ar_shape_fails_witness :
  exists e, plot_parameters sample_ar_model (Some 1%Z) 0 0 = inl e.
Proof.
  apply (parameters_ar_shape_fails
           sample_ar_model (Some 1%Z) 0 0
           4 [[1; -2; 3; 4]; [1; 1; 1; 1]; [0; 0; 0; -1]]).
  - reflexivity.
  - reflexivity.
  - repeat constructor.
  - simpl; lia.
  - simpl; lia.
  - lia.
Defined.

Lemma render_panels_nth m ws ys panels done i ax0 comp :
  render_panels m ws ys panels = inr done ->
  nth_error panels i = Some (ax0, comp) ->
  exists mult ax',
    render_panel m ws ys comp ax0 = (inr mult, ax') /\
    nth_error done i = Some (ax', mult).
Proof.
  revert done i; induction panels as [|[ax c] rest IH]; intros done i; simpl.
  - intros _ H; destruct i; discriminate.
  - destruct (render_panel m ws ys c ax) as [[e|mult] ax'] eqn:E; [discriminate|].
    destruct (render_panels m ws ys rest) as [e|done'] eqn:E'; [discriminate|].
    intros [= <-]; destruct i as [|i]; simpl.
    + intros [= <- <-]; eauto.
    + intros Hi; apply (IH done' i eq_refl Hi).
Qed.

Lemma combine_repeat_nth {A B : Type} (a : A) (l : list B) i b :
  nth_error l i = Some b ->
  nth_error (combine (repeat a (List.length l)) l) i = Some (a, b).
Proof.
  revert i; induction l as [|x l IH]; intros [|i]; simpl; try discriminate.
  - now intros [= ->].
  - apply IH.
Qed.

Lemma parameters_panel_nth m fif ws ys fig i comp :
  plot_parameters m fif ws ys = inr fig ->
  nth_error (parameter_components m fif) i = Some comp ->
  exists mult ax',
    render_panel m ws ys comp new_axes = (inr mult, ax') /\
    nth_error (fig_axes fig) i =
    Some (if mult : bool then set_y_as_percent_ax ax' else ax').
Proof.
  unfold plot_parameters.
  destruct (render_panels m ws ys _) as [e|done] eqn:E; [discriminate|].
  intros [= <-] Hi.
  destruct (render_panels_nth _ _ _ _ _ i new_axes comp E
              (combine_repeat_nth new_axes _ i comp Hi))
    as (mult & ax' & Er & Hd).
  exists mult, ax'; split; [exact Er|].
  simpl; rewrite nth_error_map, Hd; reflexivity.
Qed.

(** ** What a renderer leaves on the axes it returns *)

Lemma keeps_ret {A : Type} (a : A) Q : keeps (ret a) Q.
Proof. intros ax b ax' H [= _ <-]; exact H. Qed.

Lemma keeps_raise {A : Type} e Q : keeps (@raise A e) Q.
Proof. intros ax b ax' _ H; discriminate H. Qed.

Lemma keeps_lift {A : Type} (r : exn + A) Q : keeps (lift r) Q.
Proof. intros ax b ax' H [= _ <-]; exact H. Qed.

Lemma keeps_modify f (Q : Axes -> Prop) :
  (forall ax, Q ax -> Q (f ax)) -> keeps (modify f) Q.
Proof. intros Hf ax b ax' H [= _ <-]; now apply Hf. Qed.

Lemma keeps_bind {A B : Type} (c : M A) (k : A -> M B) Q :
  keeps c Q -> (forall a, keeps (k a) Q) -> keeps (bind c k) Q.
Proof.
  intros Hc Hk ax b ax' H; unfold bind.
  destruct (c ax) as [[e|a] ax1] eqn:E; [discriminate|].
  apply (Hk a ax1 b ax'), (Hc ax a ax1 H E).
Qed.

Lemma leaves_raise {A : Type} e Q : leaves (@raise A e) Q.
Proof. intros ax b ax' H; discriminate H. Qed.

Lemma leaves_modify f (Q : Axes -> Prop) :
  (forall ax, Q (f ax)) -> leaves (modify f) Q.
Proof. intros Hf ax b ax' [= _ <-]; apply Hf. Qed.

Lemma leaves_bind_first {A B : Type} (c : M A) (k : A -> M B) Q :
  leaves c Q -> (forall a, keeps (k a) Q) -> leaves (bind c k) Q.
Proof.
  intros Hc Hk ax b ax'; unfold bind.
  destruct (c ax) as [[e|a] ax1] eqn:E; [discriminate|].
  apply (Hk a ax1 b ax'), (Hc ax a ax1 E).
Qed.

Lemma leaves_bind_last {A B : Type} (c : M A) (k : A -> M B) Q :
  (forall a, leaves (k a) Q) -> leaves (bind c k) Q.
Proof.
  intros Hk ax b ax'; unfold bind.
  destruct (c ax) as [[e|a] ax1]; [discriminate|].
  apply (Hk a ax1 b ax').
Qed.

Lemma leaves_labelled {A : Type} (c : M A) xlabel ylabel :
  leaves c (fun ax => ax_grid ax = true) ->
  leaves c (fun ax => ax_xlabel ax = Some xlabel) ->
  leaves c (fun ax => ax_ylabel ax = Some ylabel) ->
  leaves c (fun ax => labelled ax xlabel ylabel).
Proof. intros H1 H2 H3 ax a ax' H; repeat split; eauto. Qed.

Ltac keeps_step :=
  match goal with
  | |- keeps (bind _ _) _ => apply keeps_bind; [|intros ?]
  | |- keeps (ret _) _ => apply keeps_ret
  | |- keeps (raise _) _ => apply keeps_raise
  | |- keeps (lift _) _ => apply keeps_lift
  | |- keeps (modify _) _ =>
      apply keeps_modify; let H := fresh in intros ? H; exact H
  | |- keeps (if ?b then _ else _) _ => destruct b
  | |- keeps (match ?x with _ => _ end) _ => destruct x
  end.

Ltac unfold_drawing :=
  cbv zeta;
  unfold ax_plot, ax_bar, date_axis_and_grid, set_xformat, ax_grid_on,
    set_xlabel, set_ylabel, set_y_as_percent, add_mark;
  cbv zeta.

Ltac keeps_tac := unfold_drawing; repeat keeps_step.

Ltac leaves_step :=
  match goal with
  | |- leaves (modify _) _ => apply leaves_modify; intros ?; reflexivity
  | |- leaves (raise _) _ => apply leaves_raise
  | |- leaves (bind _ _) _ =>
      first [ apply leaves_bind_first;
              [solve [repeat leaves_step]|intros ?; solve [repeat keeps_step]]
            | apply leaves_bind_last; intros ? ]
  | |- leaves (if ?b then _ else _) _ => destruct b
  | |- leaves (match ?x with _ => _ end) _ => destruct x
  end.

Ltac leaves_tac := unfold_drawing; repeat leaves_step.

Lemma trend_change_labelled m p :
  leaves (plot_trend_change m p) (fun ax => labelled ax "Trend Segment" p).
Proof. apply leaves_labelled; unfold plot_trend_change; leaves_tac. Qed.

Lemma trend_change_no_percent m p :
  keeps (plot_trend_change m p) (fun ax => ax_ypercent ax = false).
Proof. unfold plot_trend_change; keeps_tac. Qed.

Lemma trend_0_labelled m p :
  leaves (plot_trend_0 m p) (fun ax => labelled ax "ds" p).
Proof. apply leaves_labelled; unfold plot_trend_0; leaves_tac. Qed.

Lemma trend_0_no_percent m p :
  keeps (plot_trend_0 m p) (fun ax => ax_ypercent ax = false).
Proof. unfold plot_trend_0; keeps_tac. Qed.

Lemma weekly_labelled m s c :
  leaves (plot_weekly m s c)
         (fun ax => labelled ax "Day of week" ("Seasonality: " ++ c)).
Proof. apply leaves_labelled; unfold plot_weekly; leaves_tac. Qed.

Lemma yearly_labelled m s c :
  leaves (plot_yearly m s c)
         (fun ax => labelled ax "Day of year" ("Seasonality: " ++ c)).
Proof. apply leaves_labelled; unfold plot_yearly; leaves_tac. Qed.

Lemma lagged_relevance_labelled w c :
  leaves (plot_lagged_weights_body w c None)
         (fun ax => labelled ax (c ++ " lag number") (c ++ " relevance")).
Proof. apply leaves_labelled; unfold plot_lagged_weights_body; leaves_tac. Qed.

Lemma lagged_relevance_percent w c :
  leaves (plot_lagged_weights_body w c None) (fun ax => ax_ypercent ax = true).
Proof. unfold plot_lagged_weights_body; leaves_tac. Qed.

Lemma lagged_focus_labelled w c f :
  leaves (plot_lagged_weights_body w c (Some f))
         (fun ax => labelled ax (c ++ " lag number")
                             (c ++ " weight (" ++ str_of_int f ++ ")-ahead")).
Proof. apply leaves_labelled; unfold plot_lagged_weights_body; leaves_tac. Qed.

Lemma lagged_focus_no_percent w c f :
  keeps (plot_lagged_weights_body w c (Some f))
        (fun ax => ax_ypercent ax = false).
Proof. unfold plot_lagged_weights_body; keeps_tac. Qed.

Lemma bind_ret_run {A B : Type} (c : M A) (b : B) ax r ax' :
  bind c (fun _ => ret b) ax = (inr r, ax') ->
  r = b /\ exists a, c ax = (inr a, ax').
Proof.
  unfold bind; destruct (c ax) as [[e|a] ax1]; [discriminate|].
  intros [= <- <-]; eauto.
Qed.

Lemma parameter_components_kinds m fif comp :
  In comp (parameter_components m fif) ->
  comp = mkParamComp "Trend changepoints" None None None \/
  comp = mkParamComp "Trend" None None None \/
  (exists name, comp = seasonality_desc name) \/
  (exists name w focus, comp = lagged_desc name w focus).
Proof.
  assert (Hl : forall name w, In comp (lagged_descs name w fif) ->
                 exists name w focus, comp = lagged_desc name w focus).
  { intros name w [<-|H]; [eauto|].
    destruct fif as [f|]; [|contradiction].
    destruct H as [<-|[]]; eauto. }
  unfold parameter_components.
  match goal with
  | |- In comp (match ?l with _ => _ end) -> _ =>
      assert (Hraw : In comp l -> comp = mkParamComp "Trend changepoints" None None None \/
                comp = mkParamComp "Trend" None None None \/
                (exists name, comp = seasonality_desc name) \/
                (exists name w focus, comp = lagged_desc name w focus));
      [|destruct l; [intros [<-|[]]; auto|exact Hraw]]
  end.
  intros Hin.
  repeat (apply in_app_or in Hin; destruct Hin as [Hin|Hin]).
  - destruct (0 <? n_changepoints m)%Z; [|contradiction].
    destruct Hin as [<-|[]]; auto.
  - destruct (season_config m) as [cfg|]; [|contradiction].
    apply in_map_iff in Hin; destruct Hin as (p & <- & _).
    right; right; left; eexists; reflexivity.
  - destruct (0 <? n_lags m)%Z; [|contradiction].
    right; right; right; eapply Hl; eauto.
  - destruct (covar_config m) as [names|]; [|contradiction].
    apply in_flat_map in Hin; destruct Hin as (name & _ & Hin).
    right; right; right; eapply Hl; eauto.
Qed.

Lemma labelled_percent ax x y :
  labelled ax x y -> labelled (set_y_as_percent_ax ax) x y.
Proof. intros H; exact H. Qed.

Lemma panel_shows_rendered m fif ws ys comp mult ax' :
  In comp (parameter_components m fif) ->
  render_panel m ws ys comp new_axes = (inr mult, ax') ->
  panel_shows comp (if mult then set_y_as_percent_ax ax' else ax').
Proof.
  intros Hin Hrun.
  destruct (parameter_components_kinds m fif comp Hin)
    as [->|[->|[[name ->]|(name & w & [f|] & ->)]]].
  - change (render_panel m ws ys (mkParamComp "Trend changepoints" None None None))
      with (bind (plot_trend_change m "Trend changepoints")
                 (fun _ => ret false)) in Hrun.
    apply bind_ret_run in Hrun; destruct Hrun as (-> & a & Hrun).
    constructor.
    + exact (trend_change_labelled m _ _ _ _ Hrun).
    + exact (trend_change_no_percent m _ new_axes _ _ eq_refl Hrun).
  - change (render_panel m ws ys (mkParamComp "Trend" None None None))
      with (bind (plot_trend_0 m "Trend") (fun _ => ret false)) in Hrun.
    apply bind_ret_run in Hrun; destruct Hrun as (-> & a & Hrun).
    constructor.
    + exact (trend_0_labelled m _ _ _ _ Hrun).
    + exact (trend_0_no_percent m _ new_axes _ _ eq_refl Hrun).
  - destruct (season_config m) as [cfg|] eqn:Hcfg.
    2:{ unfold render_panel, seasonality_desc in Hrun; simpl in Hrun.
        rewrite Hcfg in Hrun; discriminate Hrun. }
    destruct (season_route cfg name) as [e|route] eqn:Hroute.
    { unfold render_panel, seasonality_desc in Hrun; simpl in Hrun.
      rewrite Hcfg in Hrun; unfold lift at 1, bind at 1 in Hrun.
      unfold bind at 1, lift at 1 in Hrun; rewrite Hroute in Hrun.
      discriminate Hrun. }
    rewrite (render_seasonality m ws ys cfg name route new_axes Hcfg Hroute)
      in Hrun.
    apply bind_ret_run in Hrun; destruct Hrun as (-> & a & Hrun).
    destruct route; simpl in Hrun.
    + apply shows_weekly.
      pose proof (weekly_labelled m ws name _ _ _ Hrun) as L.
      destruct (String.eqb (mode cfg) "multiplicative"); exact L.
    + apply shows_yearly.
      pose proof (yearly_labelled m ys name _ _ _ Hrun) as L.
      destruct (String.eqb (mode cfg) "multiplicative"); exact L.
    + discriminate Hrun.
  - change (render_panel m ws ys (lagged_desc name w (Some f)))
      with (bind (plot_lagged_weights_body w name (Some f))
                 (fun _ => ret false)) in Hrun.
    apply bind_ret_run in Hrun; destruct Hrun as (-> & a & Hrun).
    constructor.
    + exact (lagged_focus_labelled w name f _ _ _ Hrun).
    + exact (lagged_focus_no_percent w name f new_axes _ _ eq_refl Hrun).
  - change (render_panel m ws ys (lagged_desc name w None))
      with (bind (plot_lagged_weights_body w name None)
                 (fun _ => ret false)) in Hrun.
    apply bind_ret_run in Hrun; destruct Hrun as (-> & a & Hrun).
    constructor.
    + exact (lagged_relevance_labelled w name _ _ _ Hrun).
    + exact (lagged_relevance_percent w name _ _ _ Hrun).
Qed.

Lemma render_panels_each m ws ys (R : ParamComp -> Axes -> Prop) comps :
  (forall comp mult ax',
      In comp comps ->
      render_panel m ws ys comp new_axes = (inr mult, ax') ->
      R comp (if mult : bool then set_y_as_percent_ax ax' else ax')) ->
  forall done,
    render_panels m ws ys (combine (repeat new_axes (List.length comps)) comps)
    = inr done ->
    Forall2 R comps
            (map (fun p => if snd p : bool then set_y_as_percent_ax (fst p)
                           else fst p) done).
Proof.
  induction comps as [|comp rest IH]; intros HR done; simpl.
  - intros [= <-]; constructor.
  - destruct (render_panel m ws ys comp new_axes) as [[e|mult] ax'] eqn:E;
      [discriminate|].
    destruct (render_panels m ws ys _) as [e|done'] eqn:E'; [discriminate|].
    intros [= <-]; simpl; constructor.
    + apply HR; [now left|exact E].
    + apply IH; [|reflexivity].
      intros c mu a Hc; apply HR; now right.
Qed.

(** X21: in a figure [plot_parameters] returns, the panels follow the
    descriptors one for one and in their order, and each panel shows what
    its descriptor names: the grid is on and the axis labels are those of
    the changepoint bars, of the trend baseline, of the week or the year
    for a seasonality, or of the lag weights of the component, with the
    relevance panels in percent and the focus panels not. *)
Theorem parameters_panels_follow_descriptors :
  forall m fif ws ys fig,
    plot_parameters m fif ws ys = inr fig ->
    Forall2 panel_shows (parameter_components m fif) (fig_axes fig).
Proof.
  intros m fif ws ys fig; unfold plot_parameters.
  destruct (render_panels m ws ys _) as [e|done] eqn:E; [discriminate|].
  intros [= <-]; cbn [fig_axes].
  apply (render_panels_each m ws ys panel_shows _
           (fun comp mult ax' => panel_shows_rendered m fif ws ys comp mult ax')
           done E).
Qed.

Lemma parameters_panels_follow_descriptors_witness :
  exists fig,
    plot_parameters sample_full_model (Some 2%Z) 1 0 = inr fig /\
    Forall2 panel_shows
            [mkParamComp "Trend changepoints" None None None;
             seasonality_desc "weekly";
             seasonality_desc "yearly";
             lagged_desc "AR" (ar_weights (model sample_full_model)) None;
             lagged_desc "AR" (ar_weights (model sample_full_model)) (Some 2%Z);
             lagged_desc (cov_name "temp")
                         (get_covar_weights (model sample_full_model) "temp") None;
             lagged_desc (cov_name "temp")
                         (get_covar_weights (model sample_full_model) "temp")
                         (Some 2%Z)]
            (fig_axes fig) /\
    map ax_xlabel (fig_axes fig) =
    [Some "Trend Segment"; Some "Day of week"; Some "Day of year";
     Some "AR lag number"; Some "AR lag number";
     Some (cov_name "temp" ++ " lag number");
     Some (cov_name "temp" ++ " lag number")].
Proof.
  pose (fig := match plot_parameters sample_full_model (Some 2%Z) 1 0 with
               | inr f => f
               | inl _ => mkFigure [] false
               end).
  assert (E : plot_parameters sample_full_model (Some 2%Z) 1 0 = inr fig)
    by (vm_compute; reflexivity).
  exists fig; split; [exact E|split].
  - exact (parameters_panels_follow_descriptors
             sample_full_model (Some 2%Z) 1 0 fig E).
  - vm_compute; reflexivity.
Defined.

(** X22: under the multiplicative seasonality mode, every seasonality
    panel of a figure [plot_parameters] returns has its y tick labels
    written as percentages. *)
Theorem parameters_multiplicative_percent :
  forall m fif ws ys fig cfg i name,
    plot_parameters m fif ws ys = inr fig ->
    season_config m = Some cfg ->
    mode cfg = "multiplicative" ->
    nth_error (parameter_components m fif) i = Some (seasonality_desc name) ->
    exists ax, nth_error (fig_axes fig) i = Some ax /\ ax_ypercent ax = true.
Proof.
  intros m fif ws ys fig cfg i name Hfig Hcfg Hmode Hi.
  destruct (parameters_panel_nth m fif ws ys fig i _ Hfig Hi)
    as (mult & ax' & Er & Hn).
  assert (Hmult : mult = true).
  { destruct (season_route cfg name) as [e|route] eqn:Hroute.
    - unfold render_panel, seasonality_desc in Er; simpl in Er.
      rewrite Hcfg in Er; unfold lift at 1, bind at 1 in Er.
      unfold bind at 1, lift at 1 in Er; rewrite Hroute in Er; discriminate.
    - rewrite (render_seasonality m ws ys cfg name route new_axes Hcfg Hroute)
        in Er.
      unfold bind in Er.
      destruct (season_renderer m ws ys route name new_axes) as [[e|a] ax1];
        [discriminate|].
      unfold ret in Er; injection Er as <- _.
      rewrite Hmode; reflexivity. }
  subst mult; eexists; split; [exact Hn|reflexivity].
Qed.

Lemma parameters_multiplicative_percent_witness :
  exists fig ax,
    plot_parameters sample_weekly_model None 0 0 = inr fig /\
    nth_error (fig_axes fig) 0 = Some ax /\ ax_ypercent ax = true.
Proof.
  pose (fig := match plot_parameters sample_weekly_model None 0 0 with
               | inr f => f
               | inl _ => mkFigure [] false
               end).
  assert (E : plot_parameters sample_weekly_model None 0 0 = inr fig)
    by reflexivity.
  destruct (parameters_multiplicative_percent
              sample_weekly_model None 0 0 fig
              (mkSeasonConfig "multiplicative" [("weekly", 7)]) 0 "weekly"
              E eq_refl eq_refl eq_refl) as (ax & H1 & H2).
  exists fig, ax; auto.
Defined.

(** ** plot_components *)

Lemma prefix_app p a b :
  String.prefix p a = true -> String.prefix p (a ++ b) = true.
Proof.
  revert a; induction p as [|c p IH]; intros a;
    [intros _; now destruct (a ++ b)|].
  destruct a as [|d a]; simpl; [discriminate|].
  destruct (ascii_dec c d); [apply IH|discriminate].
Qed.

Lemma contains_app_l sub a b :
  contains sub a = true -> contains sub (a ++ b) = true.
Proof.
  induction a as [|c a IH]; simpl.
  - rewrite orb_false_r; intros H.
    destruct sub; [now destruct b|discriminate].
  - intros H; apply orb_true_iff in H; destruct H as [H|H].
    + apply (prefix_app _ (String c a) b) in H; simpl in H.
      now rewrite H.
    + rewrite (IH H); apply orb_true_r.
Qed.

Lemma contains_app_r sub a b :
  contains sub b = true -> contains sub (a ++ b) = true.
Proof.
  intros H; induction a as [|c a IH]; simpl; [exact H|].
  rewrite IH; apply orb_true_r.
Qed.

Lemma route_single name :
  (String.eqb name "trend" || String.eqb name "residuals"
   || (contains "ar" name && contains "forecast" name)
   || (contains "cov" name && contains "forecast" name))%bool = true ->
  component_route name = RouteSingle.
Proof. intros H; unfold component_route; now rewrite H. Qed.

Lemma route_found name :
  (contains "season" name || contains "auto-regression" name
   || contains "covariate" name)%bool = true ->
  component_route name <> RouteNone.
Proof.
  intros H; unfold component_route.
  destruct (_ || _ || _ && _ || _ && _)%bool; [discriminate|].
  destruct (contains "season" name); [discriminate|].
  simpl in H; rewrite H; discriminate.
Qed.

(** X23: no descriptor that [plot_components] builds falls through the
    dispatch on its lower-cased plot name: each one is sent to the
    single-series renderer, the seasonal branch or the multi-horizon
    renderer, whatever the names of the seasonalities and covariates. *)
Theorem components_all_dispatched :
  forall m fcst fif comp,
    In comp (forecast_components m fcst fif) ->
    component_route (lower (fc_plot_name comp)) <> RouteNone.
Proof.
  intros m fcst fif comp Hin; unfold forecast_components in Hin.
  repeat (apply in_app_or in Hin; destruct Hin as [Hin|Hin]).
  - destruct Hin as [<-|[]]; discriminate.
  - destruct (season_config m) as [cfg|]; [|contradiction].
    apply in_map_iff in Hin; destruct Hin as (p & <- & _).
    apply route_found; cbn [fc_plot_name season_comp].
    rewrite lower_app_r by reflexivity.
    rewrite (contains_app_r "season"); reflexivity.
  - destruct (0 <? n_lags m)%Z; [|contradiction].
    destruct Hin as [<-|Hin]; [discriminate|].
    destruct fif as [f|]; [|contradiction].
    destruct Hin as [<-|[]]; cbn [fc_plot_name season_comp].
    rewrite lower_app_l by reflexivity.
    rewrite route_single; [discriminate|].
    rewrite (contains_app_l "ar"), (contains_app_l "forecast"); reflexivity.
  - destruct (covar_config m) as [names|]; [|contradiction].
    apply in_flat_map in Hin; destruct Hin as (name & _ & Hin).
    destruct Hin as [<-|Hin]; cbn [fc_plot_name season_comp].
    + apply route_found.
      rewrite (lower_app_l "Covariate ") by reflexivity.
      rewrite (contains_app_l "covariate") by reflexivity.
      apply orb_true_r.
    + destruct fif as [f|]; [|contradiction].
      destruct Hin as [<-|[]]; cbn [fc_plot_name season_comp].
      rewrite (lower_app_l "COV ") by reflexivity.
      rewrite (lower_app_l dquote) by reflexivity.
      rewrite (lower_app_r name) by reflexivity.
      rewrite (lower_app_l dquote) by reflexivity.
      rewrite (lower_app_l " Forecast ") by reflexivity.
      rewrite route_single; [discriminate|].
      rewrite (contains_app_l "cov") by reflexivity.
      match goal with
      | |- context [contains "forecast" ?x] =>
          assert (Hf : contains "forecast" x = true)
            by (do 4 apply contains_app_r; now apply contains_app_l);
          rewrite Hf
      end.
      apply orb_true_r.
  - destruct (df_has fcst "residuals"); [|contradiction].
    destruct Hin as [<-|[]]; discriminate.
Qed.

Lemma components_all_dispatched_witness :
  component_route (lower (fc_plot_name (season_comp "weekly"))) <> RouteNone.
Proof.
  apply (components_all_dispatched sample_weekly_model sample_components_fcst None).
  simpl; auto.
Defined.

Lemma render_components_length m fcst panels done :
  render_components m fcst panels = inr done ->
  List.length done = List.length panels.
Proof.
  revert done; induction panels as [|[ax comp] rest IH]; intros done; simpl.
  - now intros [= <-].
  - destruct (render_component m fcst comp ax) as [[e|mult] ax']; [discriminate|].
    destruct (render_components m fcst rest) as [e|done']; [discriminate|].
    intros [= <-]; simpl; f_equal; now apply IH.
Qed.

Lemma render_components_fails m fcst comp panels :
  (forall ax, exists e ax', render_component m fcst comp ax = (inl e, ax')) ->
  In comp (map snd panels) ->
  exists e, render_components m fcst panels = inl e.
Proof.
  intros Hfail; induction panels as [|[ax c] rest IH]; simpl; [easy|].
  intros [->|Hin].
  - destruct (Hfail ax) as (e & ax' & ->); eauto.
  - destruct (render_component m fcst c ax) as [[e|mult] ax']; [eauto|].
    destruct (IH Hin) as [e ->]; eauto.
Qed.

Lemma covar_comps_length m fif name :
  List.length (covar_comps m fif name) = panels_per_source fif.
Proof. now destruct fif. Qed.

(** X24: [plot_components] lays out one panel for the trend, one per
    seasonality, one for the auto-regression (when there are lags) and
    one per covariate, the last two doubled when a forecast is in focus,
    and one for the residuals when the table has that column; a figure
    it returns has exactly that many panels. *)
Theorem components_panel_count :
  forall m fcst fif,
    List.length (forecast_components m fcst fif) = component_panels m fcst fif /\
    forall fig,
      plot_components m fcst fif = inr fig ->
      List.length (fig_axes fig) = component_panels m fcst fif.
Proof.
  intros m fcst fif.
  assert (Hlen : List.length (forecast_components m fcst fif) =
                 component_panels m fcst fif).
  { unfold forecast_components, component_panels.
    rewrite !length_app.
    destruct (season_config m); destruct (0 <? n_lags m)%Z;
      destruct (covar_config m); destruct (df_has fcst "residuals");
      rewrite ?length_map,
        ?(flat_map_const_length _ (panels_per_source fif))
        by (intros; apply covar_comps_length);
      destruct fif; simpl; lia. }
  split; [exact Hlen|].
  intros fig; unfold plot_components.
  destruct (render_components m fcst _) as [e|panels] eqn:E; [discriminate|].
  intros [= <-]; simpl.
  apply render_components_length in E.
  rewrite length_map, E, length_combine, repeat_length, Nat.min_id.
  exact Hlen.
Qed.

Lemma components_panel_count_witness :
  exists fig,
    plot_components sample_trend_model sample_components_fcst None = inr fig /\
    List.length (fig_axes fig) = 2%nat.
Proof.
  pose (fig := match plot_components sample_trend_model sample_components_fcst None with
               | inr f => f
               | inl _ => mkFigure [] false
               end).
  assert (E : plot_components sample_trend_model sample_components_fcst None = inr fig)
    by reflexivity.
  exists fig; split; [exact E|].
  apply (proj2 (components_panel_count sample_trend_model sample_components_fcst
                                       None) fig E).
Defined.

(** X25: a covariate whose name contains "forecast" or "season" (in any
    letter case) leaves [plot_components] without a figure: the dispatch
    on the plot name sends its overlay descriptor to the single-series
    renderer, which has no parameter [num_overplot] (or, lacking a
    seasonality configuration, fails on reading its mode). *)
Theorem components_covariate_name_clash :
  forall m fcst fif names name,
    covar_config m = Some names ->
    In name names ->
    (contains "forecast" (lower name) || contains "season" (lower name))%bool
    = true ->
    exists e, plot_components m fcst fif = inl e.
Proof.
  intros m fcst fif names name Hcov Hin Hclash.
  set (comp := mkFcstComp ("Covariate " ++ dquote ++ name ++ dquote)
                          ("covar_" ++ name) (Some (n_forecasts m)) (Some true)
                          None).
  assert (Hfail : forall ax, exists e ax',
               render_component m fcst comp ax = (inl e, ax')).
  { intros ax; unfold render_component, component_route.
    cbn [fc_plot_name comp].
    rewrite (lower_app_l "Covariate ") by reflexivity.
    rewrite (lower_app_l dquote) by reflexivity.
    rewrite (lower_app_r name) by reflexivity.
    set (n' := lower "Covariate " ++ lower dquote ++ lower name ++ lower dquote).
    assert (Hcovn : contains "cov" n' = true)
      by (now apply contains_app_l).
    assert (Hsub : forall sub, contains sub (lower name) = true ->
                               contains sub n' = true).
    { intros sub H; unfold n'.
      do 2 apply contains_app_r; now apply contains_app_l. }
    destruct (_ || _ || _ && _ || _ && _)%bool eqn:E1.
    - exists TypeError, ax; reflexivity.
    - destruct (contains "season" n') eqn:E2.
      + destruct (season_config m); [exists TypeError, ax|exists AttributeError, ax];
          reflexivity.
      + exfalso.
        apply orb_true_iff in Hclash; destruct Hclash as [H|H];
          apply Hsub in H; [|congruence].
        rewrite Hcovn, H in E1.
        change (true && true)%bool with true in E1.
        rewrite orb_true_r in E1; discriminate. }
  unfold plot_components.
  destruct (render_components_fails m fcst comp
              (combine (repeat new_axes
                               (List.length (forecast_components m fcst fif)))
                       (forecast_components m fcst fif)) Hfail) as [e ->].
  - rewrite combine_repeat_snd; unfold forecast_components.
    apply in_or_app; right; apply in_or_app; right; apply in_or_app; right.
    apply in_or_app; left.
    rewrite Hcov; apply in_flat_map; exists name; split; [exact Hin|].
    left; reflexivity.
  - eauto.
Qed.

Lemma components_covariate_name_clash_witness :
  exists e, plot_components sample_covar_model sample_components_fcst None = inl e.
Proof.
  apply (components_covariate_name_clash
           sample_covar_model sample_components_fcst None
           ["wind_forecast"] "wind_forecast").
  - reflexivity.
  - left; reflexivity.
  - reflexivity.
Defined.

(** X26: the trend panel comes first and reads the column [trend]: on a
    table without it, [plot_components] raises KeyError "trend" (on a
    table that has its timestamps), whatever the model. *)
Theorem components_need_trend :
  forall m fcst fif,
    df_find fcst "trend" = None ->
    plot_components m fcst fif = inl (ds_error_or fcst (KeyError "trend")).
Proof.
  intros m fcst fif Htrend.
  unfold plot_components, forecast_components.
  cbn [app List.length repeat combine render_components].
  unfold render_component; cbn [fc_plot_name].
  change (component_route (lower "Trend")) with RouteSingle; cbv iota.
  unfold call_forecast_component; cbn [fc_num_overplot fc_comp_name fc_rolling].
  unfold bind at 1, plot_forecast_component_body, ds_error_or.
  unfold df_getitem at 1.
  destruct (df_find fcst "ds") as [[ts|vs]|]; try reflexivity.
  unfold lift at 1, bind at 1; unfold dt_to_pydatetime, lift at 1, bind at 1.
  unfold ret at 1, bind at 1.
  unfold df_getitem; rewrite Htrend; reflexivity.
Qed.

Lemma components_need_trend_witness :
  plot_components sample_trend_model sample_fcst None = inl (KeyError "trend").
Proof.
  apply (components_need_trend sample_trend_model sample_fcst None).
  reflexivity.
Defined.

Lemma forecast_component_body_run fcst comp_name plot_name mult bar rolling vs ax :
  wf_frame fcst ->
  has_timestamps fcst ->
  df_find fcst comp_name = Some (Floats vs) ->
  match rolling with Some w => (1 <= w)%Z | None => True end ->
  exists artists,
    plot_forecast_component_body fcst comp_name plot_name mult bar rolling ax =
    (inr artists,
     decorated ax
       (match rolling with
        | Some w =>
            [series_mark bar (timestamps fcst)
                         (Floats (rolling_center (Z.to_nat w) 1 vs)) 1.00
                         "#0072B2" (Some 0.5)]
        | None => []
        end ++
        [series_mark bar (timestamps fcst) (Floats vs) 1.00 "#0072B2" None])
       (match plot_name with Some p => p | None => comp_name end) mult).
Proof.
  intros WF HT Hcol Hw.
  assert (Hin : In comp_name (df_columns fcst)).
  { apply df_find_some_in in Hcol.
    unfold df_columns; apply in_map_iff; now exists (comp_name, Floats vs). }
  assert (L : List.length (timestamps fcst) = List.length vs).
  { rewrite (timestamps_len fcst comp_name WF (has_timestamps_ds _ HT) Hin).
    unfold column; now rewrite Hcol. }
  unfold plot_forecast_component_body.
  unfold df_getitem; rewrite (has_timestamps_ds _ HT), Hcol.
  unfold lift at 1, bind at 1; unfold dt_to_pydatetime, lift at 1, bind at 1.
  destruct rolling as [w|].
  - unfold rolling_mean.
    destruct (Z.ltb_spec w 1); [lia|].
    destruct (draw_run bar (timestamps fcst)
                (Floats (rolling_center (Z.to_nat w) 1 vs)) 1.00 "#0072B2"
                (Some 0.5) ax) as [a1 E1].
    { simpl; now rewrite rolling_center_length. }
    destruct (draw_run bar (timestamps fcst) (Floats vs) 1.00 "#0072B2" None
                (with_marks ax
                   [series_mark bar (timestamps fcst)
                      (Floats (rolling_center (Z.to_nat w) 1 vs)) 1.00
                      "#0072B2" (Some 0.5)])) as [a2 E2]; [exact L|].
    unfold bind at 1; unfold bind at 1; unfold lift at 1.
    unfold bind at 1; unfold lift at 1.
    unfold bind at 1; rewrite E1.
    unfold ret at 1; unfold lift at 1, bind at 1.
    unfold bind at 1; rewrite E2.
    rewrite with_marks_app.
    exists (a1 ++ a2)%list; destruct mult; reflexivity.
  - destruct (draw_run bar (timestamps fcst) (Floats vs) 1.00 "#0072B2" None ax)
      as [a2 E2]; [exact L|].
    unfold ret at 1, bind at 1; unfold lift at 1, bind at 1.
    unfold bind at 1; rewrite E2.
    exists a2; destruct mult; reflexivity.
Qed.

Lemma df_has_find fcst name :
  df_has fcst name =
  match df_find fcst name with Some _ => true | None => false end.
Proof.
  unfold df_has, df_columns.
  induction fcst as [|[n s] rest IH]; simpl; [reflexivity|].
  rewrite (String.eqb_sym name n).
  destruct (String.eqb n name); [reflexivity|exact IH].
Qed.

(** X27: for a model with no seasonality, lags or covariate,
    [plot_components] on a table with a float [trend] column returns a
    figure whose first panel is the trend as one line labelled "Trend";
    when the table has a float [residuals] column a second panel follows,
    showing the residuals as bars over their centred rolling mean of
    window 7; there is no other panel. *)
Theorem components_bare_trend :
  forall m fcst fif vs residuals,
    wf_frame fcst ->
    has_timestamps fcst ->
    no_seasonalities m ->
    (n_lags m <= 0)%Z ->
    no_covariates m ->
    df_find fcst "trend" = Some (Floats vs) ->
    df_find fcst "residuals" = option_map Floats residuals ->
    plot_components m fcst fif =
    inr (mkFigure
           (trend_panel fcst vs ::
            match residuals with
            | Some rs => [residuals_panel fcst rs]
            | None => []
            end)
           true).
Proof.
  intros m fcst fif vs residuals WF HT Hseas Hlags Hcov Htrend Hres.
  assert (Hcomps :
    forecast_components m fcst fif =
    mkFcstComp "Trend" "trend" None None None ::
    match residuals with
    | Some _ => [mkFcstComp "Residuals" "residuals" None (Some true) (Some 7%Z)]
    | None => []
    end).
  { unfold forecast_components, no_seasonalities, no_covariates in *.
    rewrite df_has_find, Hres.
    destruct (Z.ltb_spec 0 (n_lags m)); [lia|].
    destruct (season_config m) as [cfg|]; [rewrite Hseas|];
      (destruct (covar_config m) as [names|]; [rewrite Hcov|]);
      destruct residuals; reflexivity. }
  destruct (forecast_component_body_run fcst "trend" (Some "Trend") false false
              None vs new_axes WF HT Htrend I) as [a1 E1].
  unfold plot_components; rewrite Hcomps.
  destruct residuals as [rs|];
    cbn [List.length repeat combine render_components].
  - destruct (forecast_component_body_run fcst "residuals" (Some "Residuals")
                false true (Some 7%Z) rs new_axes WF HT Hres) as [a2 E2];
      [lia|].
    unfold render_component; cbn [fc_plot_name].
    change (component_route (lower "Trend")) with RouteSingle.
    change (component_route (lower "Residuals")) with RouteSingle.
    cbv iota; unfold call_forecast_component.
    cbn [fc_num_overplot fc_comp_name fc_plot_name fc_rolling fc_bar].
    unfold bind at 1; rewrite E1.
    unfold bind at 1; rewrite E2.
    reflexivity.
  - unfold render_component; cbn [fc_plot_name].
    change (component_route (lower "Trend")) with RouteSingle.
    cbv iota; unfold call_forecast_component.
    cbn [fc_num_overplot fc_comp_name fc_plot_name fc_rolling fc_bar].
    unfold bind at 1; rewrite E1.
    reflexivity.
Qed.

Lemma sample_components_fcst_wf : wf_frame sample_components_fcst.
Proof.
  split.
  - nodup_strings.
  - exists 6%nat; repeat constructor.
Defined.

Lemma components_bare_trend_witness :
  exists fig,
    plot_components sample_trend_model sample_components_fcst None = inr fig /\
    List.length (fig_axes fig) = 2%nat.
Proof.
  eexists; split.
  - apply (components_bare_trend
             sample_trend_model sample_components_fcst None
             [Some 1; Some 1.5; Some 2; Some 2.5; Some 3; Some 3.5]
             (Some [None; Some 1; Some 2; Some 6; Some 4; None])
             sample_components_fcst_wf (ex_intro _ _ eq_refl) I).
    + simpl; lia.
    + exact I.
    + reflexivity.
    + reflexivity.
  - reflexivity.
Defined.

(** ** What no renderer does: touch the marks already drawn *)

Lemma appends_ret {A : Type} (a : A) : appends (ret a).
Proof. intros ax; exists []; simpl; now rewrite app_nil_r. Qed.

Lemma appends_raise {A : Type} e : appends (@raise A e).
Proof. intros ax; exists []; simpl; now rewrite app_nil_r. Qed.

Lemma appends_lift {A : Type} (r : exn + A) : appends (lift r).
Proof. intros ax; exists []; simpl; now rewrite app_nil_r. Qed.

Lemma appends_modify f :
  (forall ax, ax_marks (f ax) = ax_marks ax) -> appends (modify f).
Proof. intros Hf ax; exists []; simpl; now rewrite Hf, app_nil_r. Qed.

Lemma appends_add_mark m : appends (add_mark m).
Proof. intros ax; exists [m]; reflexivity. Qed.

Lemma appends_bind {A B : Type} (c : M A) (k : A -> M B) :
  appends c -> (forall a, appends (k a)) -> appends (bind c k).
Proof.
  intros Hc Hk ax; unfold bind.
  destruct (Hc ax) as [ms Hms].
  destruct (c ax) as [[e|a] ax1]; simpl in *.
  - now exists ms.
  - destruct (Hk a ax1) as [ms' Hms'].
    exists (ms ++ ms')%list; now rewrite Hms', Hms, app_assoc.
Qed.

Lemma appends_for_each {A : Type} (xs : list A) body :
  (forall x, appends (body x)) -> appends (for_each xs body).
Proof.
  intros Hb; induction xs; simpl;
    [apply appends_ret|apply appends_bind; auto].
Qed.

Lemma appends_for_acc {A S : Type} (xs : list A) (body : A -> S -> M S) s :
  (forall x t, appends (body x t)) -> appends (for_acc xs body s).
Proof.
  intros Hb; revert s; induction xs; intros s; simpl;
    [apply appends_ret|apply appends_bind; auto].
Qed.

Ltac appends_step :=
  match goal with
  | |- appends (bind _ _) => apply appends_bind; [|intros ?]
  | |- appends (ret _) => apply appends_ret
  | |- appends (raise _) => apply appends_raise
  | |- appends (lift _) => apply appends_lift
  | |- appends (add_mark _) => apply appends_add_mark
  | |- appends (modify _) => apply appends_modify; intros ?; reflexivity
  | |- appends (for_each _ _) => apply appends_for_each; intros ?
  | |- appends (for_acc _ _ _) => apply appends_for_acc; intros ? ?
  | |- appends (if ?b then _ else _) => destruct b
  | |- appends (match ?x with _ => _ end) => destruct x
  end.

Ltac appends_tac :=
  cbv zeta;
  unfold draw_notnull, draw, ax_plot, ax_bar, date_axis_and_grid, set_xformat,
    ax_grid_on, set_xlabel, set_ylabel, set_y_as_percent, assert_overplot;
  cbv zeta;
  repeat appends_step.

Lemma appends_plot_body fcst xl yl hl : appends (plot_body fcst xl yl hl).
Proof. unfold plot_body; appends_tac. Qed.

Lemma appends_forecast_component fcst c p mult bar rolling :
  appends (plot_forecast_component_body fcst c p mult bar rolling).
Proof. unfold plot_forecast_component_body; appends_tac. Qed.

Lemma appends_multiforecast_component fcst c p mult bar focus n :
  appends (plot_multiforecast_component_body fcst c p mult bar focus n).
Proof. unfold plot_multiforecast_component_body; appends_tac. Qed.

Lemma appends_lagged_weights w c focus :
  appends (plot_lagged_weights_body w c focus).
Proof. unfold plot_lagged_weights_body; appends_tac. Qed.

Lemma appends_trend_change m p : appends (plot_trend_change m p).
Proof. unfold plot_trend_change; appends_tac. Qed.

Lemma appends_trend_0 m p : appends (plot_trend_0 m p).
Proof. unfold plot_trend_0; appends_tac. Qed.

Lemma appends_weekly m s c : appends (plot_weekly m s c).
Proof. unfold plot_weekly; appends_tac. Qed.

Lemma appends_yearly m s c : appends (plot_yearly m s c).
Proof. unfold plot_yearly; appends_tac. Qed.

(** X28: no renderer removes, reorders or alters a mark that is already
    on the axes it is given: after a call to any of them, returned or
    raised, the marks the axes held are still there, first and in order,
    and what the call drew comes after them. *)
Theorem renderers_only_append :
  (forall fcst ax xl yl hl,
      exists ms, ax_marks (snd (plot fcst ax xl yl hl)) =
                 (ax_marks (ax_or_new ax) ++ ms)%list) /\
  (forall fcst c p ax mult bar rolling,
      exists ms,
        ax_marks (snd (plot_forecast_component fcst c p ax mult bar rolling)) =
        (ax_marks (ax_or_new ax) ++ ms)%list) /\
  (forall fcst c p ax mult bar focus n,
      exists ms,
        ax_marks (snd (plot_multiforecast_component fcst c p ax mult bar focus n)) =
        (ax_marks (ax_or_new ax) ++ ms)%list) /\
  (forall w c focus ax,
      exists ms, ax_marks (snd (plot_lagged_weights w c focus ax)) =
                 (ax_marks (ax_or_new ax) ++ ms)%list) /\
  (forall m p, appends (plot_trend_change m p)) /\
  (forall m p, appends (plot_trend_0 m p)) /\
  (forall m s c, appends (plot_weekly m s c)) /\
  (forall m s c, appends (plot_yearly m s c)) /\
  (forall m c, appends (plot_custom_season m c)).
Proof.
  repeat split.
  - intros fcst ax xl yl hl; unfold plot.
    destruct (appends_plot_body fcst xl yl hl (ax_or_new ax)) as [ms H].
    exists ms; destruct (plot_body fcst xl yl hl (ax_or_new ax)) as [[e|u] ax'];
      exact H.
  - intros; apply appends_forecast_component.
  - intros; apply appends_multiforecast_component.
  - intros; apply appends_lagged_weights.
  - intros; apply appends_trend_change.
  - intros; apply appends_trend_0.
  - intros; apply appends_weekly.
  - intros; apply appends_yearly.
  - intros; apply appends_raise.
Qed.

(** ** plot_components: the percentage labels of seasonal panels *)

Lemma render_components_nth m fcst panels done i ax0 comp :
  render_components m fcst panels = inr done ->
  nth_error panels i = Some (ax0, comp) ->
  exists mult ax',
    render_component m fcst comp ax0 = (inr mult, ax') /\
    nth_error done i = Some (ax', mult).
Proof.
  revert done i; induction panels as [|[ax c] rest IH]; intros done i; simpl.
  - intros _ H; destruct i; discriminate.
  - destruct (render_component m fcst c ax) as [[e|mult] ax'] eqn:E;
      [discriminate|].
    destruct (render_components m fcst rest) as [e|done'] eqn:E'; [discriminate|].
    intros [= <-]; destruct i as [|i]; simpl.
    + intros [= <- <-]; eauto.
    + intros Hi; apply (IH done' i eq_refl Hi).
Qed.

(** X29: in a figure [plot_components] returns under the multiplicative
    seasonality mode, the panel of a seasonality that the dispatch sends
    to its seasonal branch has its y tick labels written as percentages
    (they are set after the layout). *)
Theorem components_multiplicative_percent :
  forall m fcst fif fig cfg i name,
    plot_components m fcst fif = inr fig ->
    season_config m = Some cfg ->
    mode cfg = "multiplicative" ->
    nth_error (forecast_components m fcst fif) i = Some (season_comp name) ->
    component_route (lower (name ++ " seasonality")) = RouteSeasonal ->
    exists ax, nth_error (fig_axes fig) i = Some ax /\ ax_ypercent ax = true.
Proof.
  intros m fcst fif fig cfg i name Hfig Hcfg Hmode Hi Hroute.
  unfold plot_components in Hfig.
  destruct (render_components m fcst _) as [e|done] eqn:E; [discriminate|].
  injection Hfig as <-.
  destruct (render_components_nth _ _ _ _ i new_axes _ E
              (combine_repeat_nth new_axes _ i _ Hi))
    as (mult & ax' & Er & Hd).
  assert (Hmult : mult = true).
  { unfold render_component in Er; cbn [fc_plot_name season_comp] in Er.
    rewrite Hroute, Hcfg in Er; unfold bind in Er.
    destruct (call_forecast_component fcst _ new_axes) as [[e|a] ax1];
      [discriminate|].
    unfold ret in Er; injection Er as <- _.
    rewrite Hmode; reflexivity. }
  subst mult; eexists; split.
  - simpl; rewrite nth_error_map, Hd; reflexivity.
  - reflexivity.
Qed.

Lemma components_multiplicative_percent_witness :
  exists fig ax,
    plot_components sample_weekly_model sample_season_fcst None = inr fig /\
    nth_error (fig_axes fig) 1 = Some ax /\ ax_ypercent ax = true.
Proof.
  pose (fig := match plot_components sample_weekly_model sample_season_fcst None with
               | inr f => f
               | inl _ => mkFigure [] false
               end).
  assert (E : plot_components sample_weekly_model sample_season_fcst None = inr fig)
    by reflexivity.
  destruct (components_multiplicative_percent
              sample_weekly_model sample_season_fcst None fig
              (mkSeasonConfig "multiplicative" [("weekly", 7)]) 1 "weekly"
              E eq_refl eq_refl eq_refl eq_refl) as (ax & H1 & H2).
  exists fig, ax; auto.
Defined.
